(** * Guessing game and its documentation generator: a shallow embedding

    The repository holds two Python programs:
    - [guessing_game.py], a console game (class [GuessingGame]);
    - [documentation_generator.py], which scans source text for comments and
      docstrings and writes a report (class [DocumentationGenerator]).

    Part I embeds the two programs: [Py] holds the fragment of the Python
    run time they rely on, [Float64] the binary64 arithmetic used by the
    statistics screen, [Game] and [DocGen] the two classes, method by method.
    Part II defines the vocabulary in which the properties are stated, and
    Part III states and proves them. *)

From Stdlib Require Import ZArith List String Ascii Bool Lia Permutation.
From Stdlib Require Import Floats.SpecFloat Numbers.DecimalString.
From stdpp Require Import gmap.
Import ListNotations.

(* ===================================================================== *)
(** * Part I: the model                                                   *)
(* ===================================================================== *)

(** ** The Python run time the programs use *)
Module Py.

(** A Python [str] is a sequence of Unicode code points. *)
Definition str := list N.

(** An ASCII literal of the source as a [str]. *)
Definition u (s : string) : str := map N_of_ascii (list_ascii_of_string s).

(** The line feed, written [\n] in the source. *)
Definition nl : str := [10%N].

(** [s * n] on strings. *)
Fixpoint repeat_str (s : str) (n : nat) : str :=
  match n with
  | O => []
  | S k => s ++ repeat_str s k
  end.

(** [str(i)] for an [int], also what an f-string field [{i}] renders, for
    an [int] of at most 4300 digits.  CPython raises [ValueError] for a
    longer one ([sys.int_info.default_max_str_digits]), which is not
    modelled: see [printable]. *)
Definition str_of_int (i : Z) : str := u (NilZero.string_of_int (Z.to_int i)).

(** The code points [str.strip()] removes: those with [str.isspace()] true. *)
Definition isspace (c : N) : bool :=
  ((9 <=? c) && (c <=? 13) || (28 <=? c) && (c <=? 32)
   || (c =? 133) || (c =? 160) || (c =? 5760)
   || (8192 <=? c) && (c <=? 8202)
   || (c =? 8232) || (c =? 8233) || (c =? 8239) || (c =? 8287)
   || (c =? 12288))%N.

Fixpoint lstrip (s : str) : str :=
  match s with
  | [] => []
  | c :: r => if isspace c then lstrip r else s
  end.

Definition rstrip (s : str) : str := rev (lstrip (rev s)).

(** [s.strip()] *)
Definition strip (s : str) : str := rstrip (lstrip s).

(** [a == b] on strings. *)
Definition str_eqb (a b : str) : bool := bool_decide (a = b).

(** The exceptions the game can raise. *)
Inductive exception :=
| EOFError
| ValueError
| ZeroDivisionError
| OverflowError.

(** *** Calls that read and write a world

    A call runs in a world [W] and returns a value or raises an exception
    of type [E]; either way the world it leaves behind is kept, as a Python
    object outlives an exception raised by one of its methods.  [OutOfFuel]
    marks a [while True] loop cut by the fuel of its model; the loops of the
    model are given enough fuel never to reach it. *)
Inductive outcome (E A : Type) :=
| Return (a : A)
| Raise (e : E)
| OutOfFuel.
Arguments Return {E A} a.
Arguments Raise {E A} e.
Arguments OutOfFuel {E A}.

Definition M (W E A : Type) := W -> outcome E A * W.

Definition ret {W E A} (a : A) : M W E A := fun w => (Return a, w).

Definition bind {W E A B} (c : M W E A) (k : A -> M W E B) : M W E B := fun w =>
  match c w with
  | (Return a, w') => k a w'
  | (Raise e, w') => (Raise e, w')
  | (OutOfFuel, w') => (OutOfFuel, w')
  end.

Definition raise {W E A} (e : E) : M W E A := fun w => (Raise e, w).

Definition out_of_fuel {W E A} : M W E A := fun w => (OutOfFuel, w).

(** A value or an exception computed outside the world. *)
Definition lift {W E A} (r : A + E) : M W E A :=
  match r with
  | inl a => ret a
  | inr e => raise e
  end.

(** [try: c  except Exception as e: handler(e)] *)
Definition try_except {W E A} (c : M W E A) (handler : E -> M W E A) : M W E A :=
  fun w =>
  match c w with
  | (Raise e, w') => handler e w'
  | r => r
  end.

Declare Scope py_scope.
Delimit Scope py_scope with py.
Notation "x <- c ;; k" := (bind c (fun x => k))
  (at level 100, c at next level, k at level 200, right associativity) : py_scope.
Notation "c ;; k" := (bind c (fun _ => k))
  (at level 100, k at level 200, right associativity) : py_scope.

End Py.

(** ** Binary64 arithmetic, as [display_statistics] uses it *)
Module Float64.
Import Py.
Local Open Scope Z_scope.

Definition prec : Z := 53.
Definition emax : Z := 1024.

(** [float(i)]: the nearest double, ties to even. *)
Definition of_int (i : Z) : spec_float := binary_normalize prec emax i 0 false.

(** [a / b] on two [int]s: the correctly rounded quotient.  A zero divisor
    raises [ZeroDivisionError], a quotient beyond the largest double raises
    [OverflowError]. *)
Definition int_truediv (a b : Z) : spec_float + exception :=
  let sign := xorb (a <? 0) (b <? 0) in
  match a, b with
  | _, Z0 => inr ZeroDivisionError
  | Z0, _ => inl (S754_zero sign)
  | (Zpos p | Zneg p), (Zpos q | Zneg q) =>
      match SFdiv prec emax (S754_finite sign p 0) (S754_finite false q 0) with
      | S754_infinity _ | S754_nan => inr OverflowError
      | f => inl f
      end
  end.

(** [x * i] for a float [x] and an [int] [i] within double range. *)
Definition mul_int (x : spec_float) (i : Z) : spec_float :=
  SFmul prec emax x (of_int i).

(** Round [n / d] (with [d > 0]) to the nearest integer, ties to even. *)
Definition div_half_even (n d : Z) : Z :=
  let q := n / d in
  let r := n mod d in
  match 2 * r ?= d with
  | Lt => q
  | Gt => q + 1
  | Eq => if Z.even q then q else q + 1
  end.

(** The magnitude of a finite double in tenths, rounded to the nearest
    integer, ties to even: the digits that the format [.1f] prints. *)
Definition tenths (m : positive) (e : Z) : Z :=
  match e with
  | Zneg k => div_half_even (10 * Zpos m) (2 ^ Zpos k)
  | _ => 10 * Zpos m * 2 ^ e
  end.

Definition sign_str (s : bool) : str := if s then u "-" else [].

(** The text of [t] tenths: integer part, a point, one digit. *)
Definition render_tenths (t : Z) : str :=
  str_of_int (t / 10) ++ u "." ++ str_of_int (t mod 10).

(** [format(x, '.1f')], the field [{x:.1f}] of an f-string. *)
Definition format_1f (x : spec_float) : str :=
  match x with
  | S754_nan => u "nan"
  | S754_infinity s => sign_str s ++ u "inf"
  | S754_zero s => sign_str s ++ u "0.0"
  | S754_finite s m e => sign_str s ++ render_tenths (tenths m e)
  end.

End Float64.

(** ** [guessing_game.py] *)
Module Game.
Import Py Float64.
Local Open Scope Z_scope.

(** The attributes of a [GuessingGame] object. *)
Record GuessingGame := {
  min_range : Z;
  max_range : Z;
  total_games : Z;
  wins : Z
}.

(** What the program writes to the console: a [print] call (one line, the
    newline implied) or the prompt of an [input] call. *)
Inductive event :=
| Print (line : str)
| Prompt (text : str).

(** The world a method runs in: the object [self], the lines still to be
    typed on standard input (no line left is end of file), the generator
    behind [random], an arbitrary stream of integers, and the console
    output so far. *)
Record World := {
  self : GuessingGame;
  stdin : list str;
  rng : nat -> Z;
  stdout : list event
}.

Abbreviation M := (Py.M World exception).
Local Open Scope py_scope.

Definition get_self : M GuessingGame := fun w => (Return (self w), w).

Definition set_self (g : GuessingGame) : M unit := fun w =>
  (Return tt, {| self := g; stdin := stdin w; rng := rng w; stdout := stdout w |}).

(** [print(line)] *)
Definition print (line : str) : M unit := fun w =>
  (Return tt, {| self := self w; stdin := stdin w; rng := rng w;
                 stdout := stdout w ++ [Print line] |}).

(** [input(prompt)]: shows the prompt, then returns the next line without
    its newline, or raises [EOFError] at end of file. *)
Definition input (prompt : str) : M str := fun w =>
  let out := stdout w ++ [Prompt prompt] in
  match stdin w with
  | [] => (Raise EOFError,
           {| self := self w; stdin := []; rng := rng w; stdout := out |})
  | line :: rest => (Return line,
           {| self := self w; stdin := rest; rng := rng w; stdout := out |})
  end.

(** [random.randint(a, b)]: some integer [N] with [a <= N <= b], chosen by
    the generator; [ValueError] on an empty range. *)
Definition randint (a b : Z) : M Z := fun w =>
  if a <=? b then
    (Return (a + rng w O mod (b - a + 1)),
     {| self := self w; stdin := stdin w; rng := fun n => rng w (S n);
        stdout := stdout w |})
  else (Raise ValueError, w).

(** [GuessingGame.__init__] *)
Definition __init__ : GuessingGame :=
  {| min_range := 1; max_range := 5; total_games := 0; wins := 0 |}.

(** [self.wins += 1] *)
Definition incr_wins : M unit :=
  g <- get_self ;;
  set_self {| min_range := min_range g; max_range := max_range g;
              total_games := total_games g; wins := wins g + 1 |}.

(** [self.total_games += 1] *)
Definition incr_total_games : M unit :=
  g <- get_self ;;
  set_self {| min_range := min_range g; max_range := max_range g;
              total_games := total_games g + 1; wins := wins g |}.

(** The rule ["="*40] that frames every heading. *)
Definition rule : str := repeat_str (u "=") 40.

Definition generate_random_number : M Z :=
  g <- get_self ;;
  randint (min_range g) (max_range g).

Definition check_guess (user_guess secret_number : Z) : bool :=
  user_guess =? secret_number.

Definition msg_out_of_range (g : GuessingGame) : str :=
  u "Enter a number between " ++ str_of_int (min_range g) ++ u " and "
    ++ str_of_int (max_range g) ++ u ".".

Definition msg_invalid : str := u "Invalid input! Please enter a valid number.".

Definition guess_prompt (g : GuessingGame) : str :=
  u "Enter your guess (" ++ str_of_int (min_range g) ++ u "-"
    ++ str_of_int (max_range g) ++ u "): ".

Section WithInt.

(** [int(s)] on a string: [Some i] when [s] denotes the integer [i], [None]
    when [int] raises [ValueError]. *)
Variable py_int : str -> option Z.

(** The loop of [get_user_guess]; one unit of fuel per iteration. *)
Fixpoint get_user_guess_loop (fuel : nat) : M Z :=
  match fuel with
  | O => out_of_fuel
  | S fuel' =>
      g <- get_self ;;
      line <- input (guess_prompt g) ;;
      match py_int line with
      | Some guess =>
          if (min_range g <=? guess) && (guess <=? max_range g) then ret guess
          else print (msg_out_of_range g) ;; get_user_guess_loop fuel'
      | None => print msg_invalid ;; get_user_guess_loop fuel'
      end
  end.

(** Every iteration reads a line, so one more than the lines left is
    enough fuel. *)
Definition get_user_guess : M Z := fun w =>
  get_user_guess_loop (S (length (stdin w))) w.

Definition msg_win : str := u "You win!".

Definition msg_loose (secret_number : Z) : str :=
  u "You loose! The number was " ++ str_of_int secret_number
    ++ u ". Better luck next time!".

Definition play_round : M unit :=
  print (nl ++ rule) ;;
  print (u "NEW GAME ROUND") ;;
  print rule ;;
  secret_number <- generate_random_number ;;
  g <- get_self ;;
  print (u "Secret number generated! (It's between " ++ str_of_int (min_range g)
           ++ u " and " ++ str_of_int (max_range g) ++ u ")") ;;
  user_guess <- get_user_guess ;;
  (if check_guess user_guess secret_number
   then print msg_win ;; incr_wins
   else print (msg_loose secret_number)) ;;
  incr_total_games.

Definition display_statistics : M unit :=
  print (nl ++ rule) ;;
  print (u "GAME STATISTICS") ;;
  print rule ;;
  g <- get_self ;;
  print (u "Total games played: " ++ str_of_int (total_games g)) ;;
  print (u "Games won: " ++ str_of_int (wins g)) ;;
  print (u "Games lost: " ++ str_of_int (total_games g - wins g)) ;;
  if 0 <? total_games g then
    quotient <- lift (int_truediv (wins g) (total_games g)) ;;
    let win_percentage := mul_int quotient 100 in
    print (u "Win percentage: " ++ format_1f win_percentage ++ u "%")
  else print (u "Win percentage: 0%").

(** The loop of [show_menu]; one unit of fuel per iteration. *)
Fixpoint show_menu_loop (fuel : nat) : M unit :=
  match fuel with
  | O => out_of_fuel
  | S fuel' =>
      print (nl ++ rule) ;;
      print (u "GUESSING GAME MENU") ;;
      print rule ;;
      print (u "1. New game") ;;
      print (u "2. View statistics") ;;
      print (u "3. Exit") ;;
      line <- input (u "Enter your choice (1-3): ") ;;
      let choice := strip line in
      if str_eqb choice (u "1") then play_round ;; show_menu_loop fuel'
      else if str_eqb choice (u "2") then display_statistics ;; show_menu_loop fuel'
      else if str_eqb choice (u "3") then print (u "Thanks for playing! Goodbye!")
      else print (u "Invalid choice! Please enter 1, 2, or 3.") ;; show_menu_loop fuel'
  end.

Definition show_menu : M unit := fun w =>
  show_menu_loop (S (length (stdin w))) w.

Definition main : M unit :=
  print (u "Welcome to the Guessing Game!") ;;
  print (u "Try to guess the secret number between 1 and 5!") ;;
  set_self __init__ ;;
  show_menu.

End WithInt.

(** [int(s)] on the strings of ASCII characters: blanks around (tab to
    carriage return, and the space), an optional sign, then decimal digits,
    at most 4300 of them, with single underscores allowed between digits.
    It stands in for [int] on concrete inputs. *)
Definition is_blank (c : N) : bool := ((9 <=? c) && (c <=? 13) || (c =? 32))%N.

Fixpoint skip_blanks (s : str) : str :=
  match s with
  | [] => []
  | c :: r => if is_blank c then skip_blanks r else s
  end.

Definition is_digit (c : N) : bool := ((48 <=? c) && (c <=? 57))%N.

Fixpoint digits_value (acc : Z) (after_digit : bool) (s : str) : option Z :=
  match s with
  | [] => if after_digit then Some acc else None
  | c :: r =>
      if ((48 <=? c) && (c <=? 57))%N
      then digits_value (10 * acc + Z.of_N (c - 48)) true r
      else if (c =? 95)%N && after_digit then digits_value acc false r
      else None
  end.

Definition int_ascii (s : str) : option Z :=
  let t := rev (skip_blanks (rev (skip_blanks s))) in
  if 4300 <? Z.of_nat (length (List.filter is_digit t)) then None
  else
    match t with
    | 45%N :: d => option_map Z.opp (digits_value 0 false d)
    | 43%N :: d => digits_value 0 false d
    | d => digits_value 0 false d
    end.

End Game.

(** ** [documentation_generator.py] *)
Module DocGen.
Import Py.
Local Open Scope py_scope.

(** An exception derived from [Exception], as [except Exception as e]
    catches it; [message] is the text [str(e)]. *)
Record error := { message : str }.

(** *** The syntax tree of [ast.parse]

    Only what [parse_python_file] looks at is kept apart: the three classes
    it selects, and [Expr] and [Constant], by which [ast.get_docstring]
    recognises a docstring.  Every other class ([AsyncFunctionDef], [Assign],
    [arguments], ...) is a [Node] with its children.  [pre] and [post] are the
    children that come before and after [body] in the order of the class's
    fields (arguments, or bases and keywords; decorators, return annotation,
    type parameters). *)
Inductive constant :=
| CStr (s : str)
| COther.

#[warnings="-register-all"]
Inductive ast :=
| Module (body : list ast)
| FunctionDef (name : str) (pre body post : list ast)
| ClassDef (name : str) (pre body post : list ast)
| Expr (value : ast)
| Constant (value : constant)
| Node (children : list ast).

(** [ast.iter_child_nodes(node)] *)
Definition iter_child_nodes (node : ast) : list ast :=
  match node with
  | Module body => body
  | FunctionDef _ pre body post => pre ++ body ++ post
  | ClassDef _ pre body post => pre ++ body ++ post
  | Expr value => [value]
  | Constant _ => []
  | Node children => children
  end.

(** The number of nodes of a tree. *)
Fixpoint size (node : ast) : nat :=
  let sizes := fix sizes (l : list ast) : nat :=
    match l with
    | [] => O
    | n :: r => (size n + sizes r)%nat
    end in
  match node with
  | Module body => S (sizes body)
  | FunctionDef _ pre body post => S (sizes pre + sizes body + sizes post)
  | ClassDef _ pre body post => S (sizes pre + sizes body + sizes post)
  | Expr value => S (size value)
  | Constant _ => 1%nat
  | Node children => S (sizes children)
  end.

(** The loop of [ast.walk]: pop the first node of the queue, push its
    children at the end, yield it.  One unit of fuel per node yielded. *)
Fixpoint walk_queue (fuel : nat) (todo : list ast) : list ast :=
  match fuel, todo with
  | S fuel', node :: rest =>
      node :: walk_queue fuel' (rest ++ iter_child_nodes node)
  | _, _ => []
  end.

(** [ast.walk(tree)], breadth first; a tree yields each of its nodes. *)
Definition walk (tree : ast) : list ast := walk_queue (size tree) [tree].

(** One element of the list under the key ['docstrings']. *)
Record docstring_entry := {
  d_type : str;
  d_name : str;
  d_docstring : str
}.

(** One element of [comments_data]. *)
Record file_data := {
  file_path : str;
  comments : list str;
  docstrings : list docstring_entry
}.

(** *** The comment pattern

    [span_line s] splits [s] before its first line feed: what [.+] can
    match from the start of [s], and the text left. *)
Fixpoint span_line (s : str) : str * str :=
  match s with
  | [] => ([], [])
  | c :: r =>
      if (c =? 10)%N then ([], s)
      else let (line, rest) := span_line r in (c :: line, rest)
  end.

(** [re.findall(r'#(.+)', s)]: the scan looks for the leftmost ['#'] that at
    least one character other than a line feed follows, takes the group up
    to the end of the line, and goes on after it.  One unit of fuel per
    character passed. *)
Fixpoint findall_from (fuel : nat) (s : str) : list str :=
  match fuel, s with
  | S fuel', c :: r =>
      if (c =? 35)%N then
        match span_line r with
        | ([], _) => findall_from fuel' r
        | (group, rest) => group :: findall_from fuel' rest
        end
      else findall_from fuel' r
  | _, _ => []
  end.

Definition findall_comments (content : str) : list str :=
  findall_from (length content) content.

(** *** The document of [python-docx]

    [add_heading], [add_paragraph] and [add_page_break] append a block to the
    body.  A paragraph is given with the runs that the caller adds to it
    before the next block is appended.  [Unfinished] is a heading or a
    paragraph that an exception has cut short: it is in the body, and what
    [python-docx] had stored in it by then is not modelled. *)
Record run := { text : str; bold : bool }.

Inductive block :=
| Heading (title : str) (level : nat) (centered : bool)
| Paragraph (runs : list run)
| PageBreak
| Unfinished.

Definition plain (s : str) : run := {| text := s; bold := false |}.
Definition strong (s : str) : run := {| text := s; bold := true |}.

(** The attributes of a [DocumentationGenerator] object. *)
Record DocumentationGenerator := {
  doc : list block;
  comments_data : list file_data
}.

(** *** The file system *)
Inductive payload :=
| Text (content : str)
| Docx (body : list block).

(** A file with what the operating system lets the program do with it. *)
Record file := {
  data : payload;
  readable : bool;
  removable : bool;
  writable : bool
}.

(** The world of the generator:
    - the object [self];
    - the files by path, and for a path without a file whether one may be
      created there (its directory exists and may be written);
    - the exception raised when an operation on a path fails (no such file,
      a file that may not be read or holds no UTF-8 text, a removal, a write
      or a creation that is refused);
    - the exception that [python-docx] raises when it is given a text it
      cannot store, one that XML cannot hold such as a text with a control
      character, for the texts it refuses;
    - the lines printed so far;
    - the clock: the readings that the calls of [datetime.now()] to come
      will give, one after the other, each as [create_title_page] formats
      it, year to second. *)
Record World := {
  self : DocumentationGenerator;
  fs : gmap str file;
  creatable : str -> bool;
  io_error : str -> error;
  refused : str -> option error;
  stdout : list str;
  now : nat -> str
}.

Abbreviation M := (Py.M World error).

Definition get_self : M DocumentationGenerator := fun w => (Return (self w), w).

Definition set_self (g : DocumentationGenerator) : M unit := fun w =>
  (Return tt, {| self := g; fs := fs w; creatable := creatable w; io_error := io_error w;
                 refused := refused w; stdout := stdout w; now := now w |}).

Definition set_fs (m : gmap str file) : M unit := fun w =>
  (Return tt, {| self := self w; fs := m; creatable := creatable w;
                 io_error := io_error w; refused := refused w;
                 stdout := stdout w; now := now w |}).

Definition get_world : M World := fun w => (Return w, w).

(** [print(line)] *)
Definition print (line : str) : M unit := fun w =>
  (Return tt, {| self := self w; fs := fs w; creatable := creatable w;
                 io_error := io_error w; refused := refused w;
                 stdout := stdout w ++ [line]; now := now w |}).

(** [datetime.now().strftime("%Y-%m-%d %H:%M:%S")]: the next reading of the
    clock. *)
Definition datetime_now : M str := fun w =>
  (Return (now w O),
   {| self := self w; fs := fs w; creatable := creatable w; io_error := io_error w;
      refused := refused w; stdout := stdout w; now := fun n => now w (S n) |}).

(** [open(path, 'r', encoding='utf-8')] and [file.read()]: the text of a
    readable text file; anything else raises. *)
Definition read_text (path : str) : M str :=
  w <- get_world ;;
  match fs w !! path with
  | Some {| data := Text content; readable := true |} => ret content
  | _ => raise (io_error w path)
  end.

(** [os.path.exists(path)] *)
Definition path_exists (path : str) : M bool :=
  w <- get_world ;;
  ret (bool_decide (is_Some (fs w !! path))).

(** [os.remove(path)] *)
Definition os_remove (path : str) : M unit :=
  w <- get_world ;;
  match fs w !! path with
  | Some f => if removable f then set_fs (delete path (fs w))
              else raise (io_error w path)
  | None => raise (io_error w path)
  end.

(** [Document.save(path)]: replaces the whole content of a file that may
    be written, or creates the file where one may be created; it raises
    otherwise. *)
Definition doc_save (body : list block) (path : str) : M unit :=
  w <- get_world ;;
  match fs w !! path with
  | Some f =>
      if writable f then
        set_fs (<[path := {| data := Docx body; readable := readable f;
                             removable := removable f; writable := true |}]> (fs w))
      else raise (io_error w path)
  | None =>
      if creatable w path then
        set_fs (<[path := {| data := Docx body; readable := true;
                             removable := true; writable := true |}]> (fs w))
      else raise (io_error w path)
  end.

(** [DocumentationGenerator.__init__] *)
Definition __init__ : DocumentationGenerator := {| doc := []; comments_data := [] |}.

(** The texts that a block hands to [python-docx], in order. *)
Definition texts (b : block) : list str :=
  match b with
  | Heading title _ _ => [title]
  | Paragraph runs => map text runs
  | PageBreak | Unfinished => []
  end.

(** The exception for the first of some texts that is refused.  An empty
    text is not stored at all ([if text:] in [add_paragraph] and [add_run]),
    so that it is never refused. *)
Fixpoint first_refusal (refuses : str -> option error) (ts : list str) : option error :=
  match ts with
  | [] => None
  | [] :: rest => first_refusal refuses rest
  | t :: rest =>
      match refuses t with
      | Some e => Some e
      | None => first_refusal refuses rest
      end
  end.

(** The blocks that reach the body when [bs] are appended one after the
    other, and the exception that ends it, if any: the block with a text
    that is refused stays in the body unfinished, and those after it are not
    appended. *)
Fixpoint stored (refuses : str -> option error) (bs : list block)
  : list block * option error :=
  match bs with
  | [] => ([], None)
  | b :: rest =>
      match first_refusal refuses (texts b) with
      | Some e => ([Unfinished], Some e)
      | None => let (done, r) := stored refuses rest in (b :: done, r)
      end
  end.

(** Appends blocks to [self.doc], up to the first text that is refused. *)
Definition add_blocks (bs : list block) : M unit :=
  w <- get_world ;;
  let (done, r) := stored (refused w) bs in
  set_self {| doc := doc (self w) ++ done; comments_data := comments_data (self w) |} ;;
  match r with
  | Some e => raise e
  | None => ret tt
  end.

Definition cleanup_old_documentation (output_file : str) : M unit :=
  found <- path_exists output_file ;;
  if (found : bool) then
    try_except
      (os_remove output_file ;;
       print (u "Deleted old documentation: " ++ output_file))
      (fun e => print (u "Warning: Could not delete old documentation: " ++ message e))
  else print (u "No old documentation found. Creating new file.").

Section WithParser.

(** [ast.parse(content)]: the tree of a source text, or the exception
    raised for a text that is not a Python module. *)
Variable ast_parse : str -> ast + error.

(** [inspect.cleandoc(text)], which [ast.get_docstring] applies: the
    indentation and the blank lines around the text removed. *)
Variable cleandoc : str -> str.

(** [ast.get_docstring(node)] on a node with a [body]: the cleaned text of
    a first statement that is a string constant. *)
Definition get_docstring (body : list ast) : option str :=
  match body with
  | Expr (Constant (CStr text)) :: _ => Some (cleandoc text)
  | _ => None
  end.

(** The body of the loop over [ast.walk(tree)]: the entry a node adds to
    [docstrings], if any.  The ['type'] is [type(node).__name__], the
    ['name'] is [getattr(node, 'name', 'Module')]; an empty docstring is
    false in [if docstring:] and adds nothing. *)
Definition docstring_of (node : ast) : list docstring_entry :=
  let entry (kind name : str) (body : list ast) :=
    match get_docstring body with
    | Some docstring =>
        match docstring with
        | [] => []
        | _ :: _ => [{| d_type := kind; d_name := name; d_docstring := docstring |}]
        end
    | None => []
    end in
  match node with
  | Module body => entry (u "Module") (u "Module") body
  | FunctionDef name _ body _ => entry (u "FunctionDef") name body
  | ClassDef name _ body _ => entry (u "ClassDef") name body
  | _ => []
  end.

Definition append_comments_data (fd : file_data) : M unit :=
  g <- get_self ;;
  set_self {| doc := doc g; comments_data := comments_data g ++ [fd] |}.

Definition parse_python_file (path : str) : M unit :=
  try_except
    (content <- read_text path ;;
     let comments := findall_comments content in
     tree <- lift (ast_parse content) ;;
     let docstrings := flat_map docstring_of (walk tree) in
     append_comments_data
       {| file_path := path; comments := comments; docstrings := docstrings |})
    (fun e => print (u "Error parsing file " ++ path ++ u ": " ++ message e)).

(** The blocks [create_title_page] appends when none is refused;
    [current_date] is the reading of the clock. *)
Definition title_page (current_date : str) : list block :=
  [ Heading (u "Python Guessing Game Documentation") 0 true;
    Paragraph [];
    Paragraph [ strong (u "Generated on: "); plain current_date;
                strong (nl ++ u "Author: "); plain (u "Python Developer");
                strong (nl ++ u "Version: "); plain (u "1.0") ];
    PageBreak ].

(** Those that follow the reading of the clock. *)
Definition title_page_date (current_date : str) : list block :=
  [ Paragraph [ strong (u "Generated on: "); plain current_date;
                strong (nl ++ u "Author: "); plain (u "Python Developer");
                strong (nl ++ u "Version: "); plain (u "1.0") ];
    PageBreak ].

(** The title and the empty paragraph are appended before the clock is
    read, the paragraph with the date and the page break after. *)
Definition create_title_page : M unit :=
  add_blocks [ Heading (u "Python Guessing Game Documentation") 0 true;
               Paragraph [] ] ;;
  current_date <- datetime_now ;;
  add_blocks (title_page_date current_date).

Definition table_of_contents : list block :=
  [ Heading (u "Table of Contents") 1 false;
    Paragraph [ strong (u "1. Introduction" ++ nl);
                strong (u "2. File Documentation" ++ nl);
                strong (u "3. Class and Function Documentation" ++ nl);
                strong (u "4. Code Comments" ++ nl) ];
    PageBreak ].

Definition create_table_of_contents : M unit := add_blocks table_of_contents.

(** The bullet of the feature list, U+2022. *)
Definition bullet : str := [8226%N].

Definition introduction : list block :=
  [ Heading (u "1. Introduction") 1 false;
    Paragraph
      [ plain (u "This document contains automatically generated documentation ");
        plain (u "for the Python Guessing Game application. The documentation ");
        plain (u "includes code comments, docstrings, and function descriptions ");
        plain (u "extracted directly from the source code.") ];
    Paragraph [];
    Paragraph
      [ plain (u "Key Features:");
        plain (nl ++ bullet ++ u " Number guessing game with range 1-5");
        plain (nl ++ bullet ++ u " Statistics tracking");
        plain (nl ++ bullet ++ u " Input validation");
        plain (nl ++ bullet ++ u " Automated documentation generation") ] ].

Definition create_introduction : M unit := add_blocks introduction.

(** The blocks one [file_data] adds in [create_file_documentation]. *)
Definition file_documentation (fd : file_data) : list block :=
  Heading (u "File: " ++ file_path fd) 2 false
  :: flat_map
       (fun d =>
          if str_eqb (d_type d) (u "Module") then
            [Paragraph [ strong (u "Module Documentation:");
                         plain (nl ++ d_docstring d) ]]
          else [])
       (docstrings fd).

Definition file_documentation_section (data : list file_data) : list block :=
  Heading (u "2. File Documentation") 1 false :: flat_map file_documentation data.

Definition create_file_documentation : M unit :=
  g <- get_self ;;
  add_blocks (file_documentation_section (comments_data g)).

(** The blocks one [file_data] adds in [create_class_function_docs]. *)
Definition class_function_docs (fd : file_data) : list block :=
  flat_map
    (fun d =>
       if str_eqb (d_type d) (u "ClassDef") || str_eqb (d_type d) (u "FunctionDef") then
         [ Heading (d_type d ++ u ": " ++ d_name d) 3 false;
           Paragraph [plain (d_docstring d)];
           Paragraph [] ]
       else [])
    (docstrings fd).

Definition class_function_section (data : list file_data) : list block :=
  Heading (u "3. Class and Function Documentation") 1 false
  :: flat_map class_function_docs data.

Definition create_class_function_docs : M unit :=
  g <- get_self ;;
  add_blocks (class_function_section (comments_data g)).

(** The paragraphs of [enumerate(comments, i)]. *)
Fixpoint comment_paragraphs (i : Z) (comments : list str) : list block :=
  match comments with
  | [] => []
  | comment :: rest =>
      Paragraph [ strong (u "Comment " ++ str_of_int i ++ u ": ");
                  plain (strip comment) ]
      :: comment_paragraphs (i + 1) rest
  end.

(** The blocks one [file_data] adds in [create_comments_section]. *)
Definition file_comments (fd : file_data) : list block :=
  Heading (u "Comments from " ++ file_path fd) 2 false
  :: match comments fd with
     | [] => [Paragraph [plain (u "No comments found in this file.")]]
     | cs => comment_paragraphs 1 cs
     end.

Definition comments_section (data : list file_data) : list block :=
  Heading (u "4. Code Comments") 1 false :: flat_map file_comments data.

Definition create_comments_section : M unit :=
  g <- get_self ;;
  add_blocks (comments_section (comments_data g)).

(** [sum(len(file_data[key]) for file_data in self.comments_data)] *)
Definition total {A} (key : file_data -> list A) (l : list file_data) : Z :=
  fold_right (fun fd acc => Z.of_nat (length (key fd)) + acc)%Z 0%Z l.

Definition generate_documentation (output_file : str) : M unit :=
  print (u "Starting documentation generation...") ;;
  cleanup_old_documentation output_file ;;
  create_title_page ;;
  create_table_of_contents ;;
  create_introduction ;;
  create_file_documentation ;;
  create_class_function_docs ;;
  create_comments_section ;;
  g <- get_self ;;
  doc_save (doc g) output_file ;;
  print (u "Documentation generated successfully: " ++ output_file) ;;
  print (u "Total files processed: "
           ++ str_of_int (Z.of_nat (length (comments_data g)))) ;;
  let total_comments := total comments (comments_data g) in
  let total_docstrings := total docstrings (comments_data g) in
  print (u "Total comments extracted: " ++ str_of_int total_comments) ;;
  print (u "Total docstrings extracted: " ++ str_of_int total_docstrings).

Definition main : M unit :=
  set_self __init__ ;;
  parse_python_file (u "guessing_game.py") ;;
  parse_python_file (u "documentation_generator.py") ;;
  generate_documentation (u "Guessing_Game_Documentation.docx").

End WithParser.

End DocGen.

(* ===================================================================== *)
(** * Part II: the vocabulary of the properties                           *)
(* ===================================================================== *)

(** ** Binary64 *)
Module FloatSpec.
Import Float64.
Local Open Scope Z_scope.

(** A shifted mantissa that stands for a value of at most [n]: it is
    below [n], or it is [n] and nothing was shifted out. *)
Definition below (mrs : shr_record) (n : Z) : Prop :=
  0 <= shr_m mrs
  /\ (shr_m mrs < n \/ (shr_m mrs = n /\ shr_r mrs = false /\ shr_s mrs = false)).

End FloatSpec.

(** ** The game *)
Module GameSpec.
Import Py Float64 Game.
Local Open Scope Z_scope.
Local Open Scope py_scope.

(** [s.startswith(p)] *)
Fixpoint starts_with (p s : str) : bool :=
  match p, s with
  | [], _ => true
  | a :: p', b :: s' => (a =? b)%N && starts_with p' s'
  | _ :: _, [] => false
  end.

(** The line that announces a round won, and the lines that announce a
    round lost. *)
Definition is_win (e : event) : bool :=
  match e with
  | Print line => str_eqb line msg_win
  | Prompt _ => false
  end.

Definition is_loss (e : event) : bool :=
  match e with
  | Print line => starts_with (u "You loose! The number was ") line
  | Prompt _ => false
  end.

(** Rounds announced as won, and rounds announced at all, in an output. *)
Definition victories (out : list event) : nat := length (List.filter is_win out).

Definition rounds (out : list event) : nat :=
  length (List.filter (fun e => is_win e || is_loss e) out).

(** An output that announces no result. *)
Definition silent (out : list event) : Prop :=
  Forall (fun e => is_win e = false /\ is_loss e = false) out.

(** The invariant of the counters. *)
Definition invariant (g : GuessingGame) : Prop := 0 <= wins g <= total_games g.

(** The world after more output. *)
Definition emit (w : World) (out : list event) : World :=
  {| self := self w; stdin := stdin w; rng := rng w; stdout := stdout w ++ out |}.

(** The state of a world after a run, against the output of the run: the
    bounds are kept, and the counters have grown by the rounds and the wins
    announced. *)
Definition tracks (w w' : World) (out : list event) : Prop :=
  stdout w' = stdout w ++ out /\
  min_range (self w') = min_range (self w) /\
  max_range (self w') = max_range (self w) /\
  wins (self w') = wins (self w) + Z.of_nat (victories out) /\
  total_games (self w') = total_games (self w) + Z.of_nat (rounds out) /\
  (victories out <= rounds out)%nat.

(** The world after [get_user_guess] has turned a line down with [msg],
    and after it has accepted one. *)
Definition reprompted (w : World) (rest : list str) (msg : str) : World :=
  {| self := self w; stdin := rest; rng := rng w;
     stdout := stdout w ++ [Prompt (guess_prompt (self w)); Print msg] |}.

Definition accepted (w : World) (rest : list str) : World :=
  {| self := self w; stdin := rest; rng := rng w;
     stdout := stdout w ++ [Prompt (guess_prompt (self w))] |}.

(** The test of [get_user_guess]: [min_range <= v <= max_range]. *)
Definition in_range (g : GuessingGame) (v : Z) : bool :=
  (min_range g <=? v) && (v <=? max_range g).

(** The world after one draw. *)
Definition drawn (w : World) : World :=
  {| self := self w; stdin := stdin w; rng := fun n => rng w (S n); stdout := stdout w |}.

(** The object after a round with a given guess and secret. *)
Definition scored (g : GuessingGame) (guess secret : Z) : GuessingGame :=
  {| min_range := min_range g; max_range := max_range g;
     total_games := total_games g + 1;
     wins := if check_guess guess secret then wins g + 1 else wins g |}.

(** What a round shows before it draws, and after. *)
Definition round_head : list event :=
  [Print (nl ++ rule); Print (u "NEW GAME ROUND"); Print rule].

Definition secret_line (g : GuessingGame) : event :=
  Print (u "Secret number generated! (It's between " ++ str_of_int (min_range g)
           ++ u " and " ++ str_of_int (max_range g) ++ u ")").

(** The lines of the statistics screen above the percentage. *)
Definition statistics_head (g : GuessingGame) : list event :=
  [ Print (nl ++ rule); Print (u "GAME STATISTICS"); Print rule;
    Print (u "Total games played: " ++ str_of_int (total_games g));
    Print (u "Games won: " ++ str_of_int (wins g));
    Print (u "Games lost: " ++ str_of_int (total_games g - wins g)) ].

Definition percentage_line (x : spec_float) : event :=
  Print (u "Win percentage: " ++ format_1f x ++ u "%").

(** What every turn of the menu loop shows before it reads the choice. *)
Definition menu_head : list event :=
  [ Print (nl ++ rule); Print (u "GUESSING GAME MENU"); Print rule;
    Print (u "1. New game"); Print (u "2. View statistics"); Print (u "3. Exit");
    Prompt (u "Enter your choice (1-3): ") ].

Section WithInt.
Variable py_int : str -> option Z.

(** [n] rounds played one after the other. *)
Fixpoint play_rounds (n : nat) : M unit :=
  match n with
  | O => ret tt
  | S k => play_round py_int ;; play_rounds k
  end.

End WithInt.

(** An [int] that [str] and an f-string render: one of at most 4300
    digits. *)
Definition printable (i : Z) : bool := Z.abs i <? 10 ^ 4300.

(** The three numbers of the statistics screen can be rendered. *)
Definition statistics_printable (g : GuessingGame) : bool :=
  printable (total_games g) && printable (wins g) && printable (total_games g - wins g).

(** The bounds can be rendered, and so can every number between them. *)
Definition bounds_printable (g : GuessingGame) : bool :=
  printable (min_range g) && printable (max_range g).

(** The percentage shown for given counters, if the division returns. *)
Definition percentage_shown (won played : Z) : option str :=
  match int_truediv won played with
  | inl q => Some (format_1f (mul_int q 100))
  | inr _ => None
  end.

(** A new game with some input typed ahead. *)
Definition sample_world : World :=
  {| self := __init__;
     stdin := [u " 1 "; u "x"; u "9"; u "3"; u "2"; u "1"; u "4"; u "2"; u "q"; u "3"];
     rng := fun n => 7 + Z.of_nat n;
     stdout := [] |}.

(** One win in three games. *)
Definition third_world : World :=
  {| self := {| min_range := 1; max_range := 5; total_games := 3; wins := 1 |};
     stdin := []; rng := fun _ => 0; stdout := [] |}.

(** *** Guesses, choices and sessions *)

(** The same world with another generator. *)
Definition with_rng (w : World) (r : nat -> Z) : World :=
  {| self := self w; stdin := stdin w; rng := r; stdout := stdout w |}.

(** The same world with other lines typed ahead. *)
Definition with_stdin (w : World) (lines : list str) : World :=
  {| self := self w; stdin := lines; rng := rng w; stdout := stdout w |}.

(** The world when the menu has been shown and a choice read. *)
Definition chosen (w : World) (rest : list str) : World :=
  {| self := self w; stdin := rest; rng := rng w; stdout := stdout w ++ menu_head |}.

Definition goodbye : event := Print (u "Thanks for playing! Goodbye!").

Definition invalid_choice : event := Print (u "Invalid choice! Please enter 1, 2, or 3.").

(** The two lines [main] prints first. *)
Definition welcome : list event :=
  [ Print (u "Welcome to the Guessing Game!");
    Print (u "Try to guess the secret number between 1 and 5!") ].

Section Guesses.
Variable py_int : str -> option Z.

(** A line that [get_user_guess] accepts: an integer within the bounds. *)
Definition valid_guess (g : GuessingGame) (line : str) : bool :=
  match py_int line with
  | Some v => in_range g v
  | None => false
  end.

(** What [get_user_guess] shows for a line it turns down: the prompt the
    line answered, and the message for it. *)
Definition turned_down (g : GuessingGame) (line : str) : list event :=
  [ Prompt (guess_prompt g);
    Print (match py_int line with
           | Some _ => msg_out_of_range g
           | None => msg_invalid
           end) ].

End Guesses.

(** A new game with a guess typed after two lines that are turned down,
    one with no guess typed at all, a game with two wins in two games, and
    one with no win in two games. *)
Definition guess_world : World :=
  {| self := __init__; stdin := [u "x"; u "9"; u " 4 "; u "5"]; rng := fun _ => 0;
     stdout := [] |}.

Definition no_guess_world : World :=
  {| self := __init__; stdin := [u "x"; u "9"]; rng := fun _ => 0; stdout := [] |}.

Definition won_world : World :=
  {| self := {| min_range := 1; max_range := 5; total_games := 2; wins := 2 |};
     stdin := []; rng := fun _ => 0; stdout := [] |}.

Definition lost_world : World :=
  {| self := {| min_range := 1; max_range := 5; total_games := 2; wins := 0 |};
     stdin := []; rng := fun _ => 0; stdout := [] |}.

End GameSpec.

(** ** The documentation generator *)
Module DocGenSpec.
Import Py DocGen.
Local Open Scope py_scope.

(** *** Lines and comments *)

(** [s.split('\n')] *)
Fixpoint lines (s : str) : list str :=
  match s with
  | [] => [[]]
  | c :: r =>
      if (c =? 10)%N then [] :: lines r
      else match lines r with
           | line :: rest => (c :: line) :: rest
           | [] => [[c]]
           end
  end.

(** ['\n'.join(lines)] *)
Fixpoint join (ls : list str) : str :=
  match ls with
  | [] => []
  | line :: rest =>
      match rest with
      | [] => line
      | _ :: _ => line ++ 10%N :: join rest
      end
  end.

(** The text of a line after its first ['#'], if it has one. *)
Fixpoint after_hash (line : str) : option str :=
  match line with
  | [] => None
  | c :: r => if (c =? 35)%N then Some r else after_hash r
  end.

(** What a line contributes to the comments: the text after its first
    ['#'], unless nothing follows. *)
Definition line_comment (line : str) : list str :=
  match after_hash line with
  | Some (c :: t) => [c :: t]
  | _ => []
  end.

(** A line in which a ['#'] is followed by a character. *)
Definition has_comment (line : str) : bool :=
  match line_comment line with
  | [] => false
  | _ :: _ => true
  end.

(** A comment line: its first character that is no blank is ['#']. *)
Definition is_comment_line (line : str) : bool :=
  match lstrip line with
  | c :: _ => (c =? 35)%N
  | [] => false
  end.

(** The text of a comment line, after its ['#']. *)
Definition comment_text (line : str) : str :=
  match lstrip line with
  | c :: t => if (c =? 35)%N then t else []
  | [] => []
  end.

(** The number of elements that satisfy a test. *)
Definition count {A} (p : A -> bool) (l : list A) : nat := length (List.filter p l).

(** *** Trees *)

(** The nodes of a tree, the node first and then those of its children,
    child by child: every node once. *)
Fixpoint nodes (node : ast) : list ast :=
  let all := fix all (l : list ast) : list ast :=
    match l with
    | [] => []
    | n :: r => nodes n ++ all r
    end in
  node ::
  match node with
  | Module body => all body
  | FunctionDef _ pre body post => all pre ++ all body ++ all post
  | ClassDef _ pre body post => all pre ++ all body ++ all post
  | Expr value => nodes value
  | Constant _ => []
  | Node children => all children
  end.

(** The number of nodes of a list of trees. *)
Fixpoint sizes (l : list ast) : nat :=
  match l with
  | [] => O
  | n :: r => (size n + sizes r)%nat
  end.

(** The string constant that opens a body, a docstring before cleaning. *)
Definition raw_docstring (node : ast) : option str :=
  match node with
  | Module (Expr (Constant (CStr raw)) :: _)
  | FunctionDef _ _ (Expr (Constant (CStr raw)) :: _) _
  | ClassDef _ _ (Expr (Constant (CStr raw)) :: _) _ => Some raw
  | _ => None
  end.

Definition is_module (node : ast) : bool :=
  match node with Module _ => true | _ => false end.

Definition is_function (node : ast) : bool :=
  match node with FunctionDef _ _ _ _ => true | _ => false end.

(** An entry of a given ['type']. *)
Definition has_type (t : str) (d : docstring_entry) : bool := str_eqb (d_type d) t.

(** *** Worlds *)

(** What reading a path yields in a world: the text of a readable text
    file, or the exception raised. *)
Definition source (w : World) (path : str) : str + error :=
  match fs w !! path with
  | Some {| data := Text content; readable := true |} => inl content
  | _ => inr (io_error w path)
  end.

(** The world after one more printed line. *)
Definition printed (w : World) (line : str) : World :=
  {| self := self w; fs := fs w; creatable := creatable w; io_error := io_error w;
     refused := refused w; stdout := stdout w ++ [line]; now := now w |}.

(** The world after one more element of [comments_data]. *)
Definition collected (w : World) (fd : file_data) : World :=
  {| self := {| doc := doc (self w); comments_data := comments_data (self w) ++ [fd] |};
     fs := fs w; creatable := creatable w; io_error := io_error w;
     refused := refused w; stdout := stdout w; now := now w |}.

(** The world with other files, and with more blocks in the document. *)
Definition with_fs (w : World) (m : gmap str file) : World :=
  {| self := self w; fs := m; creatable := creatable w; io_error := io_error w;
     refused := refused w; stdout := stdout w; now := now w |}.

Definition with_blocks (w : World) (bs : list block) : World :=
  {| self := {| doc := doc (self w) ++ bs; comments_data := comments_data (self w) |};
     fs := fs w; creatable := creatable w; io_error := io_error w;
     refused := refused w; stdout := stdout w; now := now w |}.

(** The world when the clock has been read once. *)
Definition ticked (w : World) : World :=
  {| self := self w; fs := fs w; creatable := creatable w; io_error := io_error w;
     refused := refused w; stdout := stdout w; now := fun n => now w (S n) |}.

(** The exception that ends the appending of some blocks, if any: that of
    the first text that is refused. *)
Definition refusal (refuses : str -> option error) (bs : list block) : option error :=
  snd (stored refuses bs).

(** [Document.save] can write to a path: the file there may be written, or
    there is none and one may be created. *)
Definition can_write (w : World) (path : str) : bool :=
  match fs w !! path with
  | Some f => writable f
  | None => creatable w path
  end.

(** The same before [cleanup_old_documentation] has dealt with the path: a
    file that it removes has to be created anew. *)
Definition can_save (w : World) (path : str) : bool :=
  match fs w !! path with
  | Some f => if removable f then creatable w path else writable f
  | None => creatable w path
  end.

(** What is at a path when [cleanup_old_documentation] has dealt with it. *)
Definition kept (old : option file) : option file :=
  match old with
  | Some f => if removable f then None else Some f
  | None => None
  end.

(** A computation that raises [e] while the files, the lines printed and
    [comments_data] stay as they are. *)
Definition aborts (c : M unit) (w : World) (e : error) : Prop :=
  exists w', c w = (Raise e, w')
    /\ fs w' = fs w /\ stdout w' = stdout w
    /\ comments_data (self w') = comments_data (self w).

(** The line printed for a file that fails. *)
Definition error_line (path : str) (e : error) : str :=
  u "Error parsing file " ++ path ++ u ": " ++ message e.

(** The whole report for the collected data, at a given time. *)
Definition report (current_date : str) (data : list file_data) : list block :=
  title_page current_date ++ table_of_contents ++ introduction
  ++ file_documentation_section data ++ class_function_section data
  ++ comments_section data.

(** The six sections, appended to the document. *)
Definition build : M unit :=
  create_title_page ;; create_table_of_contents ;; create_introduction ;;
  create_file_documentation ;; create_class_function_docs ;; create_comments_section.

(** What follows the six sections in [generate_documentation]: the save
    and the summary. *)
Definition save_and_report (path : str) : M unit :=
  g <- get_self ;;
  doc_save (doc g) path ;;
  print (u "Documentation generated successfully: " ++ path) ;;
  print (u "Total files processed: "
           ++ str_of_int (Z.of_nat (length (comments_data g)))) ;;
  print (u "Total comments extracted: " ++ str_of_int (total comments (comments_data g))) ;;
  print (u "Total docstrings extracted: "
           ++ str_of_int (total docstrings (comments_data g))).

(** The world when [generate_documentation] has announced itself and
    cleaned up. *)
Definition cleaned (w : World) (path : str) : World :=
  snd (cleanup_old_documentation path (printed w (u "Starting documentation generation..."))).

(** The file that [Document.save] leaves at a path. *)
Definition saved (old : option file) (body : list block) : file :=
  match old with
  | Some f => {| data := Docx body; readable := readable f;
                 removable := removable f; writable := true |}
  | None => {| data := Docx body; readable := true; removable := true; writable := true |}
  end.

(** The lines printed after the document is saved. *)
Definition summary (path : str) (data : list file_data) : list str :=
  [ u "Documentation generated successfully: " ++ path;
    u "Total files processed: " ++ str_of_int (Z.of_nat (length data));
    u "Total comments extracted: " ++ str_of_int (total comments data);
    u "Total docstrings extracted: " ++ str_of_int (total docstrings data) ].

(** The world after a save that succeeds. *)
Definition finished (w : World) (path : str) (body : list block) : World :=
  {| self := {| doc := body; comments_data := comments_data (self w) |};
     fs := <[path := saved (fs w !! path) body]> (fs w);
     creatable := creatable w;
     io_error := io_error w;
     refused := refused w;
     stdout := stdout w ++ summary path (comments_data (self w));
     now := now w |}.

Section WithParser.
Variable ast_parse : str -> ast + error.
Variable cleandoc : str -> str.

(** What a text and its tree add to [comments_data]. *)
Definition extract (path content : str) (tree : ast) : file_data :=
  {| file_path := path;
     comments := findall_comments content;
     docstrings := flat_map (docstring_of cleandoc) (walk tree) |}.

(** A read or a parse that fails with [e]. *)
Definition fails (w : World) (path : str) (e : error) : Prop :=
  source w path = inr e
  \/ exists content, source w path = inl content /\ ast_parse content = inr e.

(** The files of [paths] parsed in turn, as [main] parses its two. *)
Fixpoint parse_files (paths : list str) : M unit :=
  match paths with
  | [] => ret tt
  | path :: rest => parse_python_file ast_parse cleandoc path ;; parse_files rest
  end.

(** What a path adds to [comments_data]: nothing when it fails. *)
Definition entries (w : World) (path : str) : list file_data :=
  match source w path with
  | inl content =>
      match ast_parse content with
      | inl tree => [extract path content tree]
      | inr _ => []
      end
  | inr _ => []
  end.

(** A node of one of the three classes has a docstring when the cleaned
    text is not empty, as [if docstring:] tests it. *)
Definition documented (node : ast) : bool :=
  match raw_docstring node with
  | Some raw => match cleandoc raw with [] => false | _ :: _ => true end
  | None => false
  end.

End WithParser.

(** *** Sample files

    Two source texts with the trees that [ast.parse] gives for them, a text
    that is no Python, and a stand-in for [ast.parse] that knows them.  The
    docstrings are single lines without blanks around them, which
    [inspect.cleandoc] returns as they are. *)
Definition sample_source : str :=
  u "'''Game.'''" ++ nl ++ u "def f():" ++ nl ++ u "    '''Doc.'''" ++ nl
  ++ u "    return 0" ++ nl ++ u "# a" ++ nl ++ u "  # b " ++ nl.

Definition sample_tree : ast :=
  Module [ Expr (Constant (CStr (u "Game.")));
           FunctionDef (u "f") [Node []]
             [Expr (Constant (CStr (u "Doc."))); Node [Constant COther]] [] ].

Definition hash_source : str :=
  u "'''Issue #1.'''" ++ nl ++ u "def f():" ++ nl ++ u "    '''Doc.'''" ++ nl
  ++ u "    return 0" ++ nl ++ u "# a" ++ nl ++ u "# b" ++ nl.

Definition hash_tree : ast :=
  Module [ Expr (Constant (CStr (u "Issue #1.")));
           FunctionDef (u "f") [Node []]
             [Expr (Constant (CStr (u "Doc."))); Node [Constant COther]] [] ].

Definition syntax_error : error :=
  {| message := u "invalid syntax (<unknown>, line 1)" |}.

Definition sample_parse (content : str) : ast + error :=
  if str_eqb content sample_source then inl sample_tree
  else if str_eqb content hash_source then inl hash_tree
  else inr syntax_error.

Definition sample_cleandoc (text : str) : str := text.

Definition text_file (content : str) : file :=
  {| data := Text content; readable := true; removable := true; writable := true |}.

Definition sample_files : World :=
  {| self := __init__;
     fs := {[ u "sample.py" := text_file sample_source;
              u "hash.py" := text_file hash_source;
              u "broken.py" := text_file (u "def f(:") ]};
     creatable := fun _ => true;
     io_error := fun _ => {| message := u "[Errno 2] No such file or directory" |};
     refused := fun _ => None;
     stdout := [];
     now := fun n => match n with
                     | O => u "2024-01-01 12:00:00"
                     | S _ => u "2024-01-01 12:00:01"
                     end |}.

(** *** The parts of the report *)

(** What the report shows for an entry of ['docstrings']: the paragraph
    of a module in the file section, the blocks of a class or a function in
    their section. *)
Definition module_paragraph (d : docstring_entry) : block :=
  Paragraph [strong (u "Module Documentation:"); plain (nl ++ d_docstring d)].

Definition entry_blocks (d : docstring_entry) : list block :=
  [ Heading (d_type d ++ u ": " ++ d_name d) 3 false;
    Paragraph [plain (d_docstring d)];
    Paragraph [] ].

(** The paragraph of the comment numbered [i]. *)
Definition comment_paragraph (i : Z) (comment : str) : block :=
  Paragraph [strong (u "Comment " ++ str_of_int i ++ u ": "); plain (strip comment)].

(** The lines [generate_documentation] prints once the document is saved,
    for given numbers of files, comments and docstrings. *)
Definition summary_lines (path : str) (files found_comments found_docstrings : nat) : list str :=
  [ u "Documentation generated successfully: " ++ path;
    u "Total files processed: " ++ str_of_int (Z.of_nat files);
    u "Total comments extracted: " ++ str_of_int (Z.of_nat found_comments);
    u "Total docstrings extracted: " ++ str_of_int (Z.of_nat found_docstrings) ].

(** The line [cleanup_old_documentation] prints. *)
Definition cleanup_line (w : World) (path : str) : str :=
  match fs w !! path with
  | None => u "No old documentation found. Creating new file."
  | Some f =>
      if removable f then u "Deleted old documentation: " ++ path
      else u "Warning: Could not delete old documentation: " ++ message (io_error w path)
  end.

(** The two files [main] parses, and the file it writes. *)
Definition main_sources : list str := [u "guessing_game.py"; u "documentation_generator.py"].

Definition main_output : str := u "Guessing_Game_Documentation.docx".

Section Parsing.
Variable ast_parse : str -> ast + error.

(** A path that is read and parsed in a world. *)
Definition parses (w : World) (path : str) : bool :=
  match source w path with
  | inl content =>
      match ast_parse content with
      | inl _ => true
      | inr _ => false
      end
  | inr _ => false
  end.

End Parsing.

(** The titles of the headings of a given level, in order. *)
Definition headings (level : nat) (bs : list block) : list str :=
  flat_map (fun b => match b with
                     | Heading title l _ => if Nat.eqb l level then [title] else []
                     | _ => []
                     end) bs.

(** The titles of the four sections. *)
Definition section_titles : list str :=
  [ u "1. Introduction"; u "2. File Documentation";
    u "3. Class and Function Documentation"; u "4. Code Comments" ].

(** An entry of a class or of a function. *)
Definition class_or_function (d : docstring_entry) : bool :=
  str_eqb (d_type d) (u "ClassDef") || str_eqb (d_type d) (u "FunctionDef").

(** A world with a report to write and nothing at its path. *)
Definition report_path : str := u "report.docx".

(** The children of the nodes of a level, in order: the next level. *)
Definition children (level : list ast) : list ast := flat_map iter_child_nodes level.

(** Some trees level by level: the trees themselves, then their children,
    then the children of those, and so on, for [depth] levels at most. *)
Fixpoint level_order (depth : nat) (level : list ast) : list ast :=
  match depth, level with
  | S d, _ :: _ => level ++ level_order d (children level)
  | _, _ => []
  end.

(** *** Runs that raise

    The exception of [lxml] for a text that XML cannot hold, and a stand-in
    for [python-docx] that refuses the texts with a form feed. *)
Definition xml_error : error :=
  {| message := u "All strings must be XML compatible: Unicode or ASCII, "
                  ++ u "no NULL bytes or control characters" |}.

Definition refuses_form_feed (t : str) : option error :=
  if existsb (N.eqb 12) t then Some xml_error else None.

(** An object that has parsed a file whose docstring holds a form feed,
    with an old report in place. *)
Definition form_feed_files : World :=
  {| self := {| doc := [];
                comments_data :=
                  [ {| file_path := u "sample.py";
                       comments := [u " a"];
                       docstrings :=
                         [ {| d_type := u "FunctionDef"; d_name := u "f";
                              d_docstring := u "Page" ++ [12%N] ++ u "break" |} ] |} ] |};
     fs := {[ report_path := {| data := Docx []; readable := true;
                                removable := true; writable := true |} ]};
     creatable := fun _ => true;
     io_error := fun _ => {| message := u "[Errno 13] Permission denied" |};
     refused := refuses_form_feed;
     stdout := [];
     now := fun _ => u "2024-01-01 12:00:00" |}.

(** The sample files where no file can be created. *)
Definition read_only_files : World :=
  {| self := self sample_files;
     fs := fs sample_files;
     creatable := fun _ => false;
     io_error := fun _ => {| message := u "[Errno 13] Permission denied" |};
     refused := refused sample_files;
     stdout := [];
     now := now sample_files |}.

End DocGenSpec.

(* ===================================================================== *)
(** * Part III: the properties                                            *)
(* ===================================================================== *)

(** ** Binary64: the quotient of a fraction never overflows *)
Module FloatProps.
Import Py Float64.
Local Open Scope Z_scope.

Lemma digits2_pos_size p : digits2_pos p = Pos.size p.
Proof. induction p; simpl; congruence. Qed.

(** A number of at most [2 ^ k] has at most [k + 1] binary digits. *)
Lemma Zdigits2_upper m k : 0 <= m -> 0 <= k -> m <= 2 ^ k -> Zdigits2 m <= k + 1.
Proof.
  intros Hm Hk Hle. destruct m as [|p|p]; simpl; [lia| |lia].
  rewrite digits2_pos_size.
  pose proof (Pos.size_le p) as H.
  apply Pos2Z.pos_le_pos in H. rewrite Pos2Z.inj_pow in H.
  assert (Hpow : 2 ^ Zpos (Pos.size p) <= 2 ^ (k + 1)).
  { rewrite Z.pow_add_r, Z.pow_1_r by lia.
    change (Z.pos p~0) with (2 * Z.pos p) in H. lia. }
  apply Z.pow_le_mono_r_iff in Hpow; lia.
Qed.

Lemma fexp_le e : e <= 2 -> fexp prec emax e <= 0.
Proof. unfold fexp, emin, prec, emax. lia. Qed.

(** Shifting right keeps a mantissa non-negative and halves it. *)
Lemma shr_1_m mrs :
  0 <= shr_m mrs -> 0 <= shr_m (shr_1 mrs) /\ 2 * shr_m (shr_1 mrs) <= shr_m mrs.
Proof.
  destruct mrs as [m r s]. simpl. intros Hm.
  destruct m as [|[p|p|]|p]; simpl; lia.
Qed.

Lemma iter_shr_1_m n : forall mrs, 0 <= shr_m mrs ->
  0 <= shr_m (SpecFloat.iter_pos shr_1 n mrs)
  /\ shr_m (SpecFloat.iter_pos shr_1 n mrs) * 2 ^ Zpos n <= shr_m mrs.
Proof.
  induction n as [n IH|n IH|]; intros mrs Hm; cbn [SpecFloat.iter_pos].
  - destruct (shr_1_m mrs Hm) as [H1 H1'].
    destruct (IH _ H1) as [H2 H2']. destruct (IH _ H2) as [H3 H3'].
    split; [assumption|].
    replace (Zpos n~1) with (Zpos n + Zpos n + 1) by lia.
    rewrite !Z.pow_add_r, Z.pow_1_r by lia.
    assert (0 < 2 ^ Zpos n) by (apply Z.pow_pos_nonneg; lia).
    set (P := 2 ^ Zpos n) in *.
    set (c := shr_m (SpecFloat.iter_pos shr_1 n (SpecFloat.iter_pos shr_1 n (shr_1 mrs)))) in *.
    set (b := shr_m (SpecFloat.iter_pos shr_1 n (shr_1 mrs))) in *.
    assert (c * P * P <= b * P) by nia. nia.
  - destruct (IH _ Hm) as [H2 H2']. destruct (IH _ H2) as [H3 H3'].
    split; [assumption|].
    replace (Zpos n~0) with (Zpos n + Zpos n) by lia.
    rewrite !Z.pow_add_r by lia.
    assert (0 < 2 ^ Zpos n) by (apply Z.pow_pos_nonneg; lia).
    set (P := 2 ^ Zpos n) in *.
    set (c := shr_m (SpecFloat.iter_pos shr_1 n (SpecFloat.iter_pos shr_1 n mrs))) in *.
    set (b := shr_m (SpecFloat.iter_pos shr_1 n mrs)) in *.
    assert (c * P * P <= b * P) by nia. nia.
  - destruct (shr_1_m mrs Hm). rewrite Z.pow_1_r. lia.
Qed.

(** [shr_fexp] keeps a value of at most [2 ^ c], for [c] zero or one, at
    an exponent that is not positive. *)
Lemma shr_fexp_small c m e l :
  0 <= c <= 1 -> 0 <= m -> e <= 0 -> m <= 2 ^ (c - e) ->
  0 <= shr_m (fst (shr_fexp prec emax m e l))
  /\ snd (shr_fexp prec emax m e l) <= 0
  /\ shr_m (fst (shr_fexp prec emax m e l)) <= 2 ^ (c - snd (shr_fexp prec emax m e l)).
Proof.
  intros Hc Hm He Hle. unfold shr_fexp, shr.
  assert (Hd : Zdigits2 m + e <= 2) by (pose proof (Zdigits2_upper m (c - e) Hm); lia).
  pose proof (fexp_le _ Hd) as Hf.
  assert (Hrec : shr_m (shr_record_of_loc m l) = m) by (destruct l as [|[]]; reflexivity).
  destruct (fexp prec emax (Zdigits2 m + e) - e) as [|n|n] eqn:En; cbn [fst snd].
  - rewrite Hrec. repeat split; auto; lia.
  - destruct (iter_shr_1_m n (shr_record_of_loc m l)) as [H1 H2]; [rewrite Hrec; lia|].
    rewrite Hrec in H2.
    split; [assumption|]. split; [lia|].
    replace (c - (e + Z.pos n)) with (c - e - Z.pos n) by lia.
    assert (Hp : 2 ^ (c - e) = 2 ^ (c - e - Z.pos n) * 2 ^ Z.pos n)
      by (rewrite <- Z.pow_add_r by lia; f_equal; lia).
    assert (0 < 2 ^ Zpos n) by (apply Z.pow_pos_nonneg; lia).
    assert (0 < 2 ^ (c - e - Z.pos n)) by (apply Z.pow_pos_nonneg; lia).
    nia.
  - rewrite Hrec. repeat split; auto; lia.
Qed.

Lemma round_nearest_even_bounds m l :
  m <= round_nearest_even m l <= m + 1.
Proof.
  unfold round_nearest_even. destruct l as [|[]]; try lia.
  destruct (Z.even m); lia.
Qed.

(** Rounding a value of at most one gives zero or a finite double. *)
Lemma binary_round_aux_small sx mx ex lx :
  0 <= mx -> ex <= 0 -> mx <= 2 ^ (- ex) ->
  match binary_round_aux prec emax sx mx ex lx with
  | S754_zero _ | S754_finite _ _ _ => True
  | _ => False
  end.
Proof.
  intros Hm He Hle. unfold binary_round_aux.
  destruct (shr_fexp_small 0 mx ex lx) as (H1 & H2 & H3);
    [lia | lia | lia | rewrite Z.sub_0_l; exact Hle |].
  destruct (shr_fexp prec emax mx ex lx) as [mrs1 e1]; cbn [fst snd] in *.
  pose proof (round_nearest_even_bounds (shr_m mrs1) (loc_of_shr_record mrs1)) as Hr.
  set (m1 := round_nearest_even (shr_m mrs1) (loc_of_shr_record mrs1)) in *.
  assert (H4 : m1 <= 2 ^ (1 - e1)).
  { replace (1 - e1) with (0 - e1 + 1) by lia. rewrite Z.pow_add_r, Z.pow_1_r by lia.
    assert (0 < 2 ^ (0 - e1)) by (apply Z.pow_pos_nonneg; lia). lia. }
  destruct (shr_fexp_small 1 m1 e1 loc_Exact) as (H5 & H6 & H7); [lia..|].
  destruct (shr_fexp prec emax m1 e1 loc_Exact) as [mrs2 e2]; cbn [fst snd] in *.
  destruct (shr_m mrs2) as [|m|m]; [exact I| |lia].
  replace (e2 <=? emax - prec) with true; [exact I|].
  symmetry. apply Z.leb_le. unfold emax, prec. lia.
Qed.

(** The quotient of [a] by a larger [b] is a double: no overflow. *)
Lemma int_truediv_fraction a b :
  0 <= a <= b -> 0 < b -> exists q, int_truediv a b = inl q.
Proof.
  intros Ha Hb. unfold int_truediv.
  destruct b as [|q|q]; [lia| |lia].
  destruct a as [|p|p]; [eexists; reflexivity| |lia].
  unfold SFdiv, SFdiv_core_binary.
  set (e1 := Z.min (fexp prec emax (Zdigits2 (Zpos p) + 0 - (Zdigits2 (Zpos q) + 0))) (0 - 0)).
  assert (He : e1 <= 0) by (unfold e1; lia).
  set (m1 := match 0 - 0 - e1 with
             | Zpos _ => Z.shiftl (Zpos p) (0 - 0 - e1)
             | Z0 => Zpos p
             | Zneg _ => 0
             end).
  assert (Hm1 : 0 <= m1 <= Zpos q * 2 ^ (- e1)).
  { unfold m1. destruct (0 - 0 - e1) as [|n|n] eqn:En.
    - replace (- e1) with 0 by lia. simpl. lia.
    - rewrite Z.shiftl_mul_pow2 by lia. replace (- e1) with (Zpos n) by lia.
      assert (0 < 2 ^ Zpos n) by (apply Z.pow_pos_nonneg; lia). nia.
    - lia. }
  pose proof (Z.div_eucl_eq m1 (Zpos q) ltac:(lia)) as Hdiv.
  pose proof (Z.mod_pos_bound m1 (Zpos q) ltac:(lia)) as Hmod.
  unfold Z.modulo in Hmod.
  destruct (Z.div_eucl m1 (Zpos q)) as [qt r].
  assert (0 < 2 ^ (- e1)) by (apply Z.pow_pos_nonneg; lia).
  assert (Hq : 0 <= qt <= 2 ^ (- e1)) by nia.
  pose proof (binary_round_aux_small (xorb (Zpos p <? 0) (Zpos q <? 0))
                qt e1 (new_location (Zpos q) r) ltac:(lia) He ltac:(lia)) as Hb'.
  destruct (binary_round_aux _ _ _ _ _ _); try contradiction; eexists; reflexivity.
Qed.

(** The only errors of the division: a zero divisor, or an overflow. *)
Lemma int_truediv_error a b e :
  int_truediv a b = inr e ->
  (e = ZeroDivisionError /\ b = 0) \/ (e = OverflowError /\ b <> 0).
Proof.
  unfold int_truediv. intros H.
  destruct b as [|q|q]; [left; destruct a; injection H as <-; split; reflexivity| |];
    (destruct a as [|p|p]; [discriminate H| |]);
    match type of H with context [SFdiv ?p ?m ?x ?y] => destruct (SFdiv p m x y) end;
    first [discriminate H | injection H as <-; right; split; [reflexivity|discriminate]].
Qed.

Import FloatSpec.

(** *** Rounding below a bound *)

Lemma shr_1_below mrs n : below mrs (2 * n) -> below (shr_1 mrs) n.
Proof.
  destruct mrs as [m r s]. unfold below. cbn [shr_m shr_r shr_s].
  intros [Hm [Hlt|(-> & -> & ->)]].
  - destruct m as [|[p|p|]|p]; simpl; split; try lia; left; lia.
  - destruct n as [|p|p]; simpl; try lia; (split; [lia|]); right; auto.
Qed.

Lemma iter_shr_1_below k : forall mrs n,
  below mrs (n * 2 ^ Zpos k) -> below (SpecFloat.iter_pos shr_1 k mrs) n.
Proof.
  induction k as [k IH|k IH|]; intros mrs n H; cbn [SpecFloat.iter_pos].
  - apply IH, IH, shr_1_below.
    replace (2 * (n * 2 ^ Zpos k * 2 ^ Zpos k)) with (n * 2 ^ Zpos k~1); [exact H|].
    replace (Zpos k~1) with (Zpos k + Zpos k + 1) by lia.
    rewrite !Z.pow_add_r, Z.pow_1_r by lia. ring.
  - apply IH, IH.
    replace (n * 2 ^ Zpos k * 2 ^ Zpos k) with (n * 2 ^ Zpos k~0); [exact H|].
    replace (Zpos k~0) with (Zpos k + Zpos k) by lia.
    rewrite !Z.pow_add_r by lia. ring.
  - apply shr_1_below. rewrite Z.pow_1_r in H. replace (2 * n) with (n * 2) by ring. exact H.
Qed.

Lemma fexp_le_small e : e <= 8 -> fexp prec emax e <= 0.
Proof. unfold fexp, emin, prec, emax. lia. Qed.

(** [shr_fexp] keeps a value of at most [b], for [b] up to 128, at an
    exponent that is not positive. *)
Lemma shr_fexp_below b m e l :
  0 < b <= 128 -> e <= 0 ->
  below (shr_record_of_loc m l) (b * 2 ^ (- e)) ->
  snd (shr_fexp prec emax m e l) <= 0
  /\ below (fst (shr_fexp prec emax m e l)) (b * 2 ^ (- snd (shr_fexp prec emax m e l))).
Proof.
  intros Hb He H.
  assert (Hrec : shr_m (shr_record_of_loc m l) = m) by (destruct l as [|[]]; reflexivity).
  assert (Hm : 0 <= m <= b * 2 ^ (- e)).
  { destruct H as [H0 [H1|[H1 _]]]; rewrite Hrec in *; lia. }
  assert (Hpow : 0 < 2 ^ (- e)) by (apply Z.pow_pos_nonneg; lia).
  assert (Hd : Zdigits2 m + e <= 8).
  { pose proof (Zdigits2_upper m (7 - e) ltac:(lia) ltac:(lia)) as Hu.
    assert (m <= 2 ^ (7 - e)).
    { replace (7 - e) with (7 + - e) by lia. rewrite Z.pow_add_r by lia.
      change (2 ^ 7) with 128. nia. }
    lia. }
  pose proof (fexp_le_small _ Hd) as Hf.
  unfold shr_fexp, shr.
  destruct (fexp prec emax (Zdigits2 m + e) - e) as [|k|k] eqn:Ek; cbn [fst snd].
  - split; [lia|exact H].
  - split; [lia|]. apply iter_shr_1_below.
    replace (b * 2 ^ (- (e + Zpos k)) * 2 ^ Zpos k) with (b * 2 ^ (- e)); [exact H|].
    rewrite <- Z.mul_assoc, <- Z.pow_add_r by lia. do 2 f_equal. lia.
  - split; [lia|exact H].
Qed.

(** Rounding a value of at most [b] gives zero or a double of at most
    [b], with the sign given. *)
Lemma binary_round_aux_below b sx mx ex lx :
  0 < b <= 128 -> ex <= 0 ->
  below (shr_record_of_loc mx lx) (b * 2 ^ (- ex)) ->
  match binary_round_aux prec emax sx mx ex lx with
  | S754_zero s => s = sx
  | S754_finite s m e => s = sx /\ e <= 0 /\ Zpos m <= b * 2 ^ (- e)
  | _ => False
  end.
Proof.
  intros Hb He H. unfold binary_round_aux.
  destruct (shr_fexp_below b mx ex lx Hb He H) as [He1 H1].
  destruct (shr_fexp prec emax mx ex lx) as [mrs1 e1]; cbn [fst snd] in *.
  set (m1 := round_nearest_even (shr_m mrs1) (loc_of_shr_record mrs1)).
  assert (H2 : below (shr_record_of_loc m1 loc_Exact) (b * 2 ^ (- e1))).
  { unfold below, m1. cbn [shr_record_of_loc shr_m shr_r shr_s].
    destruct mrs1 as [m r s]. destruct H1 as [H0 [Hlt|(Heq & Hr & Hs)]];
      cbn [shr_m shr_r shr_s] in *.
    - pose proof (round_nearest_even_bounds m
                    (loc_of_shr_record {| shr_m := m; shr_r := r; shr_s := s |})) as Hr.
      split; [lia|].
      destruct (Z_lt_le_dec (round_nearest_even m
                  (loc_of_shr_record {| shr_m := m; shr_r := r; shr_s := s |}))
                  (b * 2 ^ (- e1))); [left; assumption|right; split; [lia|auto]].
    - subst r s. cbn [loc_of_shr_record round_nearest_even].
      split; [lia|]. right. auto. }
  destruct (shr_fexp_below b m1 e1 loc_Exact Hb He1 H2) as [He2 H3].
  destruct (shr_fexp prec emax m1 e1 loc_Exact) as [mrs2 e2]; cbn [fst snd] in *.
  destruct H3 as [H0 Hle].
  destruct (shr_m mrs2) as [|m|m]; [reflexivity| |lia].
  replace (e2 <=? emax - prec) with true
    by (symmetry; apply Z.leb_le; unfold emax, prec; lia).
  split; [reflexivity|]. split; [assumption|]. lia.
Qed.

Lemma new_location_exact n : new_location n 0 = loc_Exact.
Proof. unfold new_location. destruct (Z.even n); reflexivity. Qed.

Lemma below_exact m n : 0 <= m <= n -> below (shr_record_of_loc m loc_Exact) n.
Proof.
  intros H. unfold below. cbn [shr_record_of_loc shr_m shr_r shr_s].
  split; [lia|]. destruct (Z_lt_le_dec m n); [left; assumption|right; split; [lia|auto]].
Qed.

(** The quotient of [a] by a larger [b] is zero or a double of at most 1. *)
Lemma int_truediv_le_one a b :
  0 <= a <= b -> 0 < b ->
  match int_truediv a b with
  | inl (S754_zero s) => s = false
  | inl (S754_finite s m e) => s = false /\ e <= 0 /\ Zpos m <= 2 ^ (- e)
  | _ => False
  end.
Proof.
  intros Ha Hb. unfold int_truediv.
  destruct b as [|q|q]; [lia| |lia].
  destruct a as [|p|p]; [reflexivity| |lia].
  unfold SFdiv, SFdiv_core_binary.
  set (e1 := Z.min (fexp prec emax (Zdigits2 (Zpos p) + 0 - (Zdigits2 (Zpos q) + 0))) (0 - 0)).
  assert (He : e1 <= 0) by (unfold e1; lia).
  set (m1 := match 0 - 0 - e1 with
             | Zpos _ => Z.shiftl (Zpos p) (0 - 0 - e1)
             | Z0 => Zpos p
             | Zneg _ => 0
             end).
  assert (Hm1 : m1 = Zpos p * 2 ^ (- e1)).
  { unfold m1. destruct (0 - 0 - e1) as [|n|n] eqn:En.
    - replace (- e1) with 0 by lia. simpl. lia.
    - rewrite Z.shiftl_mul_pow2 by lia. replace (- e1) with (Zpos n) by lia. reflexivity.
    - lia. }
  assert (Hpow : 0 < 2 ^ (- e1)) by (apply Z.pow_pos_nonneg; lia).
  pose proof (Z.div_eucl_eq m1 (Zpos q) ltac:(lia)) as Hdiv.
  pose proof (Z.mod_pos_bound m1 (Zpos q) ltac:(lia)) as Hmod.
  unfold Z.modulo in Hmod.
  destruct (Z.div_eucl m1 (Zpos q)) as [qt r].
  assert (Hbelow : below (shr_record_of_loc qt (new_location (Zpos q) r)) (1 * 2 ^ (- e1))).
  { rewrite Z.mul_1_l.
    assert (Hrec : forall l, shr_m (shr_record_of_loc qt l) = qt)
      by (intros [|[]]; reflexivity).
    destruct (Z_lt_le_dec (Zpos p) (Zpos q)) as [Hlt|Hge].
    - unfold below. rewrite Hrec. split; [nia|]. left. nia.
    - assert (Hpq : Zpos p = Zpos q) by lia.
      rewrite Hpq in Hm1. set (P := 2 ^ (- e1)) in *.
      assert (Hqt : qt = P).
      { destruct (Z_lt_le_dec qt P); [nia|]. destruct (Z_lt_le_dec P qt); [nia|lia]. }
      assert (Hr : r = 0) by nia. subst r.
      rewrite new_location_exact. apply below_exact. lia. }
  pose proof (binary_round_aux_below 1 (xorb (xorb (Zpos p <? 0) (Zpos q <? 0)) false)
                qt e1 (new_location (Zpos q) r) ltac:(lia) He Hbelow) as Hround.
  change (xorb (xorb (Zpos p <? 0) (Zpos q <? 0)) false) with false in *.
  change (xorb (Zpos p <? 0) (Zpos q <? 0)) with false.
  destruct (binary_round_aux prec emax false qt e1 (new_location (Zpos q) r)) as [s|s| |s m e];
    try contradiction; [exact Hround|].
  rewrite Z.mul_1_l in Hround. exact Hround.
Qed.

(** A hundred times a double of at most 1 is zero or a double of at most
    100. *)
Lemma mul_int_le_100 q :
  match q with
  | S754_zero s => s = false
  | S754_finite s m e => s = false /\ e <= 0 /\ Zpos m <= 2 ^ (- e)
  | _ => False
  end ->
  match mul_int q 100 with
  | S754_zero s => s = false
  | S754_finite s m e => s = false /\ e <= 0 /\ Zpos m <= 100 * 2 ^ (- e)
  | _ => False
  end.
Proof.
  assert (H100 : of_int 100 = S754_finite false 7036874417766400 (-46))
    by (vm_compute; reflexivity).
  unfold mul_int. rewrite H100.
  destruct q as [s|s| |s m e]; try contradiction.
  - intros ->. reflexivity.
  - intros (-> & He & Hm). cbn [SFmul xorb].
    assert (Hpow : 0 < 2 ^ (- e)) by (apply Z.pow_pos_nonneg; lia).
    pose proof (binary_round_aux_below 100 false (Zpos (m * 7036874417766400)) (e + -46)
                  loc_Exact ltac:(lia) ltac:(lia)) as Hround.
    apply Hround. apply below_exact.
    replace (- (e + -46)) with (- e + 46) by lia.
    rewrite Z.pow_add_r by lia. change (2 ^ 46) with 70368744177664.
    rewrite Pos2Z.inj_mul. nia.
Qed.

(** The tenths of a double of at most 100 are at most 1000. *)
Lemma tenths_le_1000 m e :
  e <= 0 -> Zpos m <= 100 * 2 ^ (- e) -> 0 <= tenths m e <= 1000.
Proof.
  intros He Hm. unfold tenths. destruct e as [|k|k]; [simpl in *; lia|lia|].
  change (- Zneg k) with (Zpos k) in Hm.
  assert (Hpow : 0 < 2 ^ Zpos k) by (apply Z.pow_pos_nonneg; lia).
  unfold div_half_even.
  pose proof (Z.div_mod (10 * Zpos m) (2 ^ Zpos k) ltac:(lia)) as Hdiv.
  pose proof (Z.mod_pos_bound (10 * Zpos m) (2 ^ Zpos k) Hpow) as Hmod.
  set (qt := 10 * Zpos m / 2 ^ Zpos k) in *.
  set (r := (10 * Zpos m) mod 2 ^ Zpos k) in *.
  assert (Hq : 0 <= qt <= 1000) by nia.
  destruct (Z.compare_spec (2 * r) (2 ^ Zpos k)) as [Heq|Hlt|Hgt].
  - destruct (Z.even qt); [lia|]. assert (qt < 1000) by nia. lia.
  - lia.
  - assert (qt < 1000) by nia. lia.
Qed.

End FloatProps.

(** ** The game *)
Module GameProps.
Import Py Float64 Game GameSpec FloatProps.
Local Open Scope Z_scope.
Local Open Scope py_scope.

(** *** Counting announcements *)

Lemma victories_app a b : victories (a ++ b) = (victories a + victories b)%nat.
Proof. unfold victories. now rewrite List.filter_app, List.length_app. Qed.

Lemma rounds_app a b : rounds (a ++ b) = (rounds a + rounds b)%nat.
Proof. unfold rounds. now rewrite List.filter_app, List.length_app. Qed.

Lemma silent_victories out : silent out -> victories out = O.
Proof.
  unfold victories. induction 1 as [|e out [Hw Hl] _ IH]; [reflexivity|].
  cbn [List.filter]. now rewrite Hw.
Qed.

Lemma silent_rounds out : silent out -> rounds out = O.
Proof.
  unfold rounds. induction 1 as [|e out [Hw Hl] _ IH]; [reflexivity|].
  cbn [List.filter]. now rewrite Hw, Hl.
Qed.

Lemma silent_nil : silent [].
Proof. constructor. Qed.

Lemma silent_app a b : silent a -> silent b -> silent (a ++ b).
Proof. apply Forall_app_2. Qed.

Lemma silent_cons e out : silent [e] -> silent out -> silent (e :: out).
Proof. intros He Ho. apply (silent_app [e]); assumption. Qed.

Lemma silent_prompt p : silent [Prompt p].
Proof. repeat constructor. Qed.

(** A printed line that does not start with ['Y'] announces nothing. *)
Lemma silent_print c line : c <> 89%N -> silent [Print (c :: line)].
Proof.
  intros Hc. repeat constructor.
  - apply bool_decide_eq_false. intros H. apply Hc. now inversion H.
  - assert (E : exists t, u "You loose! The number was " = 89%N :: t)
      by (eexists; vm_compute; reflexivity).
    destruct E as [t E]. cbn [is_loss]. rewrite E. cbn [starts_with].
    destruct (N.eqb_spec 89 c); [congruence|reflexivity].
Qed.

Create HintDb silence.
#[local] Hint Resolve silent_nil silent_prompt silent_app : silence.
#[local] Hint Extern 1 (silent [Print _]) => apply silent_print; discriminate : silence.
#[local] Hint Extern 2 (silent (_ :: _ :: _)) => apply silent_cons : silence.

Lemma silent_round_head : silent round_head.
Proof. unfold round_head. auto with silence. Qed.

Lemma silent_secret_line g : silent [secret_line g].
Proof. unfold secret_line. auto with silence. Qed.

Lemma silent_statistics_head g : silent (statistics_head g).
Proof. unfold statistics_head. auto 10 with silence. Qed.

Lemma silent_menu_head : silent menu_head.
Proof. unfold menu_head. auto 10 with silence. Qed.

#[local] Hint Resolve silent_round_head silent_secret_line silent_statistics_head
  silent_menu_head : silence.

Lemma victories_win : victories [Print msg_win] = 1%nat.
Proof. vm_compute. reflexivity. Qed.

Lemma rounds_win : rounds [Print msg_win] = 1%nat.
Proof. vm_compute. reflexivity. Qed.

Lemma victories_loose s : victories [Print (msg_loose s)] = O.
Proof.
  unfold victories. cbn [List.filter is_win].
  replace (str_eqb (msg_loose s) msg_win) with false; [reflexivity|].
  symmetry. apply bool_decide_eq_false. intros H. vm_compute in H. discriminate H.
Qed.

Lemma rounds_loose s : rounds [Print (msg_loose s)] = 1%nat.
Proof.
  unfold rounds. cbn [List.filter is_loss].
  replace (starts_with (u "You loose! The number was ") (msg_loose s)) with true;
    [rewrite orb_true_r; reflexivity|].
  unfold msg_loose. generalize (str_of_int s ++ u ". Better luck next time!").
  intros t. vm_compute. reflexivity.
Qed.

Lemma tracks_silent w w' out :
  stdout w' = stdout w ++ out -> self w' = self w -> silent out -> tracks w w' out.
Proof.
  intros Ho Hs Hq. unfold tracks.
  rewrite (silent_victories _ Hq), (silent_rounds _ Hq), Hs. repeat split; auto; lia.
Qed.

Lemma tracks_trans w1 w2 w3 o1 o2 :
  tracks w1 w2 o1 -> tracks w2 w3 o2 -> tracks w1 w3 (o1 ++ o2).
Proof.
  unfold tracks. intros (A1 & A2 & A3 & A4 & A5 & A6) (B1 & B2 & B3 & B4 & B5 & B6).
  rewrite victories_app, rounds_app, B1, A1, <- app_assoc.
  repeat split; auto; lia.
Qed.

Lemma tracks_invariant w w' out :
  tracks w w' out -> invariant (self w) -> invariant (self w').
Proof. unfold tracks, invariant. intros (_ & _ & _ & -> & -> & Hle) H. lia. Qed.

(** *** The statistics screen *)

(** [display_statistics], branch by branch. *)
Lemma display_statistics_run w :
  display_statistics w =
  if 0 <? total_games (self w) then
    match int_truediv (wins (self w)) (total_games (self w)) with
    | inl q => (Return tt,
                emit w (statistics_head (self w) ++ [percentage_line (mul_int q 100)]))
    | inr e => (Raise e, emit w (statistics_head (self w)))
    end
  else (Return tt, emit w (statistics_head (self w) ++ [Print (u "Win percentage: 0%")])).
Proof.
  destruct w as [g lines r out].
  unfold display_statistics, bind, print, get_self, emit, statistics_head, percentage_line;
    cbn [self stdin rng stdout].
  destruct (0 <? total_games g).
  - destruct (int_truediv (wins g) (total_games g)) as [q|e]; cbn [lift];
      unfold ret, raise, bind, print; cbn [self stdin rng stdout];
      rewrite <- !app_assoc; reflexivity.
  - cbn [self stdin rng stdout]. rewrite <- !app_assoc. reflexivity.
Qed.

(** The statistics screen leaves the world as it is, output apart, and
    announces no round. *)
Lemma display_statistics_spec w :
  exists r out,
    display_statistics w = (r, emit w out) /\ silent out /\
    (r = Return tt \/ r = Raise OverflowError).
Proof.
  rewrite display_statistics_run.
  destruct (0 <? total_games (self w)) eqn:Hpos.
  - destruct (int_truediv (wins (self w)) (total_games (self w))) as [q|e] eqn:Eq.
    + eexists _, _. split; [reflexivity|]. split; [|left; reflexivity].
      unfold percentage_line. auto with silence.
    + eexists _, _. split; [reflexivity|]. split; [auto with silence|].
      right. apply int_truediv_error in Eq. apply Z.ltb_lt in Hpos.
      destruct Eq as [[_ ?]|[-> _]]; [lia|reflexivity].
  - eexists _, _. split; [reflexivity|]. split; [|left; reflexivity].
    auto with silence.
Qed.

Section WithInt.
Variable py_int : str -> option Z.

(** *** Reading a guess *)

Lemma get_user_guess_loop_unfold fuel w :
  get_user_guess_loop py_int (S fuel) w =
  (g <- get_self ;;
   line <- input (guess_prompt g) ;;
   match py_int line with
   | Some guess =>
       if (min_range g <=? guess) && (guess <=? max_range g) then ret guess
       else print (msg_out_of_range g) ;; get_user_guess_loop py_int fuel
   | None => print msg_invalid ;; get_user_guess_loop py_int fuel
   end) w.
Proof. reflexivity. Qed.

(** With more fuel than lines the loop ends: it returns a guess within
    the bounds, or the input ends; it changes the input and the output
    only, and announces nothing. *)
Lemma get_user_guess_loop_spec fuel : forall w,
  (length (stdin w) < fuel)%nat ->
  exists r lines out,
    get_user_guess_loop py_int fuel w
    = (r, {| self := self w; stdin := lines; rng := rng w; stdout := stdout w ++ out |}) /\
    silent out /\
    match r with
    | Return v => min_range (self w) <= v <= max_range (self w)
                  /\ (length lines < length (stdin w))%nat
    | Raise e => e = EOFError /\ lines = []
    | OutOfFuel => False
    end.
Proof.
  induction fuel as [|fuel IH]; intros [g lines r out] Hlt; cbn [stdin length] in Hlt; [lia|].
  destruct lines as [|line rest].
  - exists (Raise EOFError), [], [Prompt (guess_prompt g)].
    split; [reflexivity|]. split; [auto with silence|]. split; reflexivity.
  - rewrite get_user_guess_loop_unfold.
    unfold bind, get_self, input, print, ret; cbn [self stdin rng stdout].
    destruct (py_int line) as [guess|];
      [destruct ((min_range g <=? guess) && (guess <=? max_range g)) eqn:Hr|].
    + exists (Return guess), rest, [Prompt (guess_prompt g)].
      split; [reflexivity|]. split; [auto with silence|]. cbn [length]. lia.
    + match goal with |- context [get_user_guess_loop _ _ ?w1] =>
        destruct (IH w1) as (r' & lines' & o & E & Hs & Hm);
          [cbn [stdin length] in *; lia|] end.
      rewrite E. cbn [self stdin rng stdout] in *.
      exists r', lines', (Prompt (guess_prompt g) :: Print (msg_out_of_range g) :: o).
      split; [rewrite <- !app_assoc; reflexivity|].
      split; [apply silent_cons; [|apply silent_cons]; auto with silence|].
      destruct r'; auto. cbn [length]. intuition lia.
    + match goal with |- context [get_user_guess_loop _ _ ?w1] =>
        destruct (IH w1) as (r' & lines' & o & E & Hs & Hm);
          [cbn [stdin length] in *; lia|] end.
      rewrite E. cbn [self stdin rng stdout] in *.
      exists r', lines', (Prompt (guess_prompt g) :: Print msg_invalid :: o).
      split; [rewrite <- !app_assoc; reflexivity|].
      split; [apply silent_cons; [|apply silent_cons]; auto with silence|].
      destruct r'; auto. cbn [length]. intuition lia.
Qed.

Lemma get_user_guess_spec w :
  exists r lines out,
    get_user_guess py_int w
    = (r, {| self := self w; stdin := lines; rng := rng w; stdout := stdout w ++ out |}) /\
    silent out /\
    match r with
    | Return v => min_range (self w) <= v <= max_range (self w)
                  /\ (length lines < length (stdin w))%nat
    | Raise e => e = EOFError /\ lines = []
    | OutOfFuel => False
    end.
Proof. unfold get_user_guess. apply get_user_guess_loop_spec. lia. Qed.

(** What [get_user_guess] does with the next line. *)
Lemma get_user_guess_step w line rest :
  stdin w = line :: rest ->
  get_user_guess py_int w =
  match py_int line with
  | Some v => if in_range (self w) v then (Return v, accepted w rest)
              else get_user_guess py_int (reprompted w rest (msg_out_of_range (self w)))
  | None => get_user_guess py_int (reprompted w rest msg_invalid)
  end.
Proof.
  destruct w as [g lines r out]. cbn [stdin]. intros ->.
  unfold get_user_guess at 1. cbn [stdin length].
  rewrite get_user_guess_loop_unfold.
  unfold bind, get_self, input, print, ret; cbn [self stdin rng stdout].
  unfold get_user_guess, in_range, accepted, reprompted; cbn [self stdin rng stdout].
  destruct (py_int line) as [v|];
    [destruct ((min_range g <=? v) && (v <=? max_range g))|];
    cbn [self stdin rng stdout]; rewrite <- ?app_assoc; reflexivity.
Qed.

Lemma messages_distinct g : msg_invalid <> msg_out_of_range g.
Proof. intros H. vm_compute in H. discriminate H. Qed.

(** C6.  A guess that [get_user_guess] returns lies within the bounds.  A
    line that is no integer is answered by [msg_invalid], an integer out of
    the bounds by [msg_out_of_range], two different messages, and in both
    cases the prompt is shown again for the next line.  The only way the
    call does not return is the end of the input, raised as [EOFError];
    invalid input raises nothing, and the loop does not run on for ever. *)
Theorem get_user_guess_validates (w : World) :
  (forall v w', get_user_guess py_int w = (Return v, w') ->
     min_range (self w) <= v <= max_range (self w))
  /\ (forall line rest, stdin w = line :: rest -> py_int line = None ->
        get_user_guess py_int w
        = get_user_guess py_int (reprompted w rest msg_invalid))
  /\ (forall line rest v, stdin w = line :: rest -> py_int line = Some v ->
        in_range (self w) v = false ->
        get_user_guess py_int w
        = get_user_guess py_int (reprompted w rest (msg_out_of_range (self w))))
  /\ (forall line rest v, stdin w = line :: rest -> py_int line = Some v ->
        in_range (self w) v = true ->
        get_user_guess py_int w = (Return v, accepted w rest))
  /\ msg_invalid <> msg_out_of_range (self w)
  /\ (forall e w', get_user_guess py_int w = (Raise e, w') -> e = EOFError /\ stdin w' = [])
  /\ (forall w', get_user_guess py_int w <> (OutOfFuel, w')).
Proof.
  destruct (get_user_guess_spec w) as (r & lines & out & E & _ & Hm).
  split; [intros v w' H; rewrite E in H; injection H as -> _; tauto|].
  split; [intros line rest Hs Hp; rewrite (get_user_guess_step _ _ _ Hs), Hp; reflexivity|].
  split; [intros line rest v Hs Hp Hr;
          rewrite (get_user_guess_step _ _ _ Hs), Hp, Hr; reflexivity|].
  split; [intros line rest v Hs Hp Hr;
          rewrite (get_user_guess_step _ _ _ Hs), Hp, Hr; reflexivity|].
  split; [apply messages_distinct|].
  split.
  - intros e w' H. rewrite E in H. injection H as -> <-. exact Hm.
  - intros w' H. rewrite E in H. injection H as -> _. exact Hm.
Qed.

(** *** One round *)

(** [play_round], step by step: the draw, the guess, the score. *)
Lemma play_round_run w :
  play_round py_int w =
  match generate_random_number (emit w round_head) with
  | (Return secret, w1) =>
      match get_user_guess py_int (emit w1 [secret_line (self w1)]) with
      | (Return guess, w2) =>
          (Return tt,
           {| self := scored (self w2) guess secret; stdin := stdin w2; rng := rng w2;
              stdout := stdout w2 ++ [if check_guess guess secret then Print msg_win
                                      else Print (msg_loose secret)] |})
      | (Raise e, w2) => (Raise e, w2)
      | (OutOfFuel, w2) => (OutOfFuel, w2)
      end
  | (Raise e, w1) => (Raise e, w1)
  | (OutOfFuel, w1) => (OutOfFuel, w1)
  end.
Proof.
  destruct w as [g lines r out].
  unfold play_round, generate_random_number, randint, bind, print, get_self, emit,
    round_head, secret_line; cbn [self stdin rng stdout].
  rewrite <- !app_assoc. cbn [app].
  destruct (min_range g <=? max_range g); [|reflexivity].
  cbn [self stdin rng stdout].
  match goal with |- context [get_user_guess _ ?w1] =>
    destruct (get_user_guess py_int w1) as [[guess|e|] [g2 lines2 r2 out2]] end;
    try reflexivity.
  unfold incr_wins, incr_total_games, set_self, bind, get_self, print, scored;
    cbn [self stdin rng stdout].
  destruct (check_guess guess (min_range g + r O mod (max_range g - min_range g + 1)));
    reflexivity.
Qed.

(** One round: the counters move with the announcement, and only then. *)
Lemma play_round_spec w :
  exists r w' out,
    play_round py_int w = (r, w') /\
    tracks w w' out /\
    match r with
    | Return _ => rounds out = 1%nat /\ (length (stdin w') < length (stdin w))%nat
    | Raise e => rounds out = O /\ self w' = self w
    | OutOfFuel => False
    end.
Proof.
  rewrite play_round_run.
  unfold generate_random_number, randint, bind, get_self; cbn [emit self].
  destruct (min_range (self w) <=? max_range (self w)).
  2:{ exists (Raise ValueError), (emit w round_head), round_head.
      split; [reflexivity|].
      split; [apply tracks_silent; auto with silence|].
      split; [apply silent_rounds; auto with silence|reflexivity]. }
  cbn [self stdin rng stdout].
  match goal with |- context [get_user_guess _ ?w1] =>
    destruct (get_user_guess_spec w1) as (r' & lines' & o & E & Hs & Hm) end.
  rewrite E. cbn [emit self stdin rng stdout] in *.
  set (secret := min_range (self w) + rng w O mod (max_range (self w) - min_range (self w) + 1)).
  set (head := round_head ++ [secret_line (self w)] ++ o).
  assert (Hhead : silent head) by (unfold head; auto with silence).
  assert (Hout : ((stdout w ++ round_head) ++ [secret_line (self w)]) ++ o = stdout w ++ head)
    by (unfold head; rewrite <- !app_assoc; reflexivity).
  rewrite Hout.
  destruct r' as [v| e |]; [| |contradiction].
  - exists (Return tt). eexists.
    exists (head ++ [if check_guess v secret then Print msg_win else Print (msg_loose secret)]).
    split; [reflexivity|]. cbn [stdin]. split; [|split; [|tauto]].
    + unfold tracks; cbn [self stdout scored min_range max_range wins total_games].
      rewrite victories_app, rounds_app, (silent_victories _ Hhead), (silent_rounds _ Hhead).
      destruct (check_guess v secret);
        rewrite ?victories_win, ?rounds_win, ?victories_loose, ?rounds_loose, <- ?app_assoc;
        repeat split; lia.
    + rewrite rounds_app, (silent_rounds _ Hhead).
      destruct (check_guess v secret); rewrite ?rounds_win, ?rounds_loose; reflexivity.
  - exists (Raise e). eexists. exists head.
    split; [reflexivity|].
    split; [apply tracks_silent; auto|].
    split; [apply silent_rounds; assumption|reflexivity].
Qed.

(** *** The menu *)

(** With more fuel than lines the menu loop ends.  The counters follow the
    announcements, and a session in which no choice is [1] leaves the object
    as it was. *)
Lemma show_menu_loop_spec fuel : forall w,
  (length (stdin w) < fuel)%nat ->
  exists r w' out,
    show_menu_loop py_int fuel w = (r, w') /\
    tracks w w' out /\
    r <> OutOfFuel /\
    (Forall (fun line => strip line <> u "1") (stdin w) -> self w' = self w).
Proof.
  induction fuel as [|fuel IH]; intros [g lines r out] Hlt; cbn [stdin length] in Hlt; [lia|].
  cbn [show_menu_loop]. unfold bind at 1 2 3 4 5 6 7. unfold print, input;
    cbn [self stdin rng stdout].
  assert (Hhead : (((((((out ++ [Print (nl ++ rule)]) ++ [Print (u "GUESSING GAME MENU")])
             ++ [Print rule]) ++ [Print (u "1. New game")]) ++ [Print (u "2. View statistics")])
             ++ [Print (u "3. Exit")]) ++ [Prompt (u "Enter your choice (1-3): ")])
          = out ++ menu_head).
  { unfold menu_head. rewrite <- !app_assoc. reflexivity. }
  rewrite Hhead.
  pose proof silent_menu_head as Hq.
  destruct lines as [|line rest].
  { exists (Raise EOFError). eexists. exists menu_head.
    split; [reflexivity|]. split; [apply tracks_silent; auto|]. split; [discriminate|auto]. }
  set (w1 := {| self := g; stdin := rest; rng := r; stdout := out ++ menu_head |}).
  assert (T1 : tracks {| self := g; stdin := line :: rest; rng := r; stdout := out |} w1 menu_head)
    by (apply tracks_silent; auto).
  destruct (str_eqb (strip line) (u "1")) eqn:E1;
    [|destruct (str_eqb (strip line) (u "2")) eqn:E2;
      [|destruct (str_eqb (strip line) (u "3")) eqn:E3]].
  - (* new game *)
    unfold bind.
    destruct (play_round_spec w1) as (r1 & w1' & o1 & E & T2 & Hm).
    rewrite E.
    assert (Hno : ~ Forall (fun l => strip l <> u "1") (line :: rest)).
    { intros HF. inversion HF as [|? ? H1 _]. apply H1.
      apply bool_decide_eq_true in E1. exact E1. }
    destruct r1 as [[]|e|]; [| |contradiction].
    + destruct Hm as [_ Hlen].
      destruct (IH w1') as (r2 & w2 & o2 & E' & T3 & Hr & _);
        [unfold w1 in Hlen; cbn [stdin length] in *; lia|].
      rewrite E'. exists r2, w2, (menu_head ++ o1 ++ o2).
      split; [reflexivity|].
      split; [eapply tracks_trans; [exact T1|eapply tracks_trans; eauto]|].
      split; [assumption|tauto].
    + exists (Raise e), w1', (menu_head ++ o1).
      split; [reflexivity|]. split; [eapply tracks_trans; eauto|].
      split; [discriminate|tauto].
  - (* statistics *)
    unfold bind.
    destruct (display_statistics_spec w1) as (r1 & o1 & E & Hs & Hr1).
    rewrite E.
    assert (T2 : tracks w1 (emit w1 o1) o1) by (apply tracks_silent; auto).
    destruct Hr1 as [-> | ->].
    + destruct (IH (emit w1 o1)) as (r2 & w2 & o2 & E' & T3 & Hr & Hf);
        [unfold w1; cbn [emit stdin length] in *; lia|].
      rewrite E'. exists r2, w2, (menu_head ++ o1 ++ o2).
      split; [reflexivity|].
      split; [eapply tracks_trans; [exact T1|eapply tracks_trans; eauto]|].
      split; [assumption|].
      intros HF. inversion HF; subst. rewrite Hf; auto.
    + exists (Raise OverflowError), (emit w1 o1), (menu_head ++ o1).
      split; [reflexivity|]. split; [eapply tracks_trans; eauto|].
      split; [discriminate|auto].
  - (* exit *)
    exists (Return tt). eexists. exists (menu_head ++ [Print (u "Thanks for playing! Goodbye!")]).
    split; [reflexivity|].
    split; [apply tracks_silent; unfold w1; cbn [self stdout];
            [rewrite <- app_assoc; reflexivity|reflexivity|auto with silence]|].
    split; [discriminate|auto].
  - (* any other choice *)
    unfold bind, print; cbn [self stdin rng stdout].
    set (msg := Print (u "Invalid choice! Please enter 1, 2, or 3.")).
    match goal with |- context [show_menu_loop _ _ ?w2] =>
      destruct (IH w2) as (r2 & w2' & o2 & E' & T3 & Hr & Hf);
        [unfold w1; cbn [stdin length] in *; lia|] end.
    rewrite E'. exists r2, w2', ((menu_head ++ [msg]) ++ o2).
    split; [reflexivity|].
    split; [eapply tracks_trans; [|exact T3];
            apply tracks_silent; unfold w1; cbn [self stdout];
              [rewrite <- app_assoc; reflexivity|reflexivity|unfold msg; auto with silence]|].
    split; [assumption|].
    intros HF. inversion HF; subst. rewrite Hf; auto.
Qed.

Lemma show_menu_spec w :
  exists r w' out,
    show_menu py_int w = (r, w') /\
    tracks w w' out /\
    r <> OutOfFuel /\
    (Forall (fun line => strip line <> u "1") (stdin w) -> self w' = self w).
Proof. unfold show_menu. apply show_menu_loop_spec. lia. Qed.

(** *** Sequences of rounds *)

Lemma play_rounds_spec n : forall w w',
  play_rounds py_int n w = (Return tt, w') ->
  exists out, tracks w w' out /\ rounds out = n.
Proof.
  induction n as [|n IH]; intros w w' H.
  - injection H as <-. exists []. split; [|reflexivity].
    apply tracks_silent; [symmetry; apply app_nil_r|reflexivity|constructor].
  - cbn [play_rounds] in H. unfold bind in H.
    destruct (play_round_spec w) as (r1 & w1 & o1 & E & T1 & Hm).
    rewrite E in H. destruct r1 as [[]|e|]; [|discriminate H|contradiction].
    destruct (IH _ _ H) as (o2 & T2 & Hn).
    exists (o1 ++ o2). split.
    + eapply tracks_trans; eauto.
    + rewrite rounds_app, Hn. destruct Hm as [-> _]. reflexivity.
Qed.

(** C1.  The invariant [0 <= wins <= total_games] holds when the game is
    created and every operation keeps it, whatever its outcome.  A completed
    round adds one game, and one win exactly when the guess is the secret,
    which is when it announces a win.  After [n] completed rounds
    [total_games] has grown by [n] and [wins] by the number of rounds won, so
    from a new game they are [n] and that number.  A whole session at the
    menu leaves [total_games] and [wins] grown by the numbers of rounds and
    of wins it announced. *)
Theorem counters_track_rounds :
  invariant __init__
  /\ (forall w secret w1 guess w2,
        generate_random_number (emit w round_head) = (Return secret, w1) ->
        get_user_guess py_int (emit w1 [secret_line (self w1)]) = (Return guess, w2) ->
        fst (play_round py_int w) = Return tt
        /\ self (snd (play_round py_int w)) = scored (self w) guess secret
        /\ exists out, stdout (snd (play_round py_int w)) = stdout w ++ out
             /\ victories out = (if check_guess guess secret then 1 else 0)%nat)
  /\ (forall n w w', play_rounds py_int n w = (Return tt, w') ->
        exists out, stdout w' = stdout w ++ out /\ rounds out = n /\
          total_games (self w') = total_games (self w) + Z.of_nat n /\
          wins (self w') = wins (self w) + Z.of_nat (victories out))
  /\ (forall n w w', self w = __init__ -> play_rounds py_int n w = (Return tt, w') ->
        exists out, stdout w' = stdout w ++ out /\ rounds out = n /\
          total_games (self w') = Z.of_nat n /\
          wins (self w') = Z.of_nat (victories out) /\
          0 <= wins (self w') <= total_games (self w'))
  /\ (forall w, invariant (self w) -> invariant (self (snd (play_round py_int w))))
  /\ (forall w, invariant (self w) -> invariant (self (snd (display_statistics w))))
  /\ (forall w, invariant (self w) -> invariant (self (snd (show_menu py_int w))))
  /\ (forall w, exists out,
        stdout (snd (show_menu py_int w)) = stdout w ++ out /\
        total_games (self (snd (show_menu py_int w)))
        = total_games (self w) + Z.of_nat (rounds out) /\
        wins (self (snd (show_menu py_int w))) = wins (self w) + Z.of_nat (victories out)).
Proof.
  split; [unfold invariant, __init__; cbn; lia|].
  split.
  { intros w secret w1 guess w2 Hd Hg. rewrite play_round_run, Hd, Hg. cbn [fst snd self stdout].
    destruct (get_user_guess_spec (emit w1 [secret_line (self w1)]))
      as (r & lines & o & E & Hs & _).
    rewrite Hg in E. injection E as _ ->. cbn [self stdout emit].
    assert (Hw1 : self w1 = self w /\ stdout w1 = stdout w ++ round_head).
    { revert Hd. unfold generate_random_number, randint, bind, get_self; cbn [emit self].
      destruct (min_range (self w) <=? max_range (self w)); [|discriminate].
      intros [= _ <-]. split; reflexivity. }
    destruct Hw1 as [-> ->]. split; [reflexivity|]. split; [reflexivity|].
    exists (round_head ++ [secret_line (self w)] ++ o
            ++ [if check_guess guess secret then Print msg_win else Print (msg_loose secret)]).
    split; [rewrite <- !app_assoc; reflexivity|].
    rewrite !victories_app, (silent_victories round_head), (silent_victories [_]),
      (silent_victories o) by auto with silence.
    destruct (check_guess guess secret); [apply victories_win|apply victories_loose]. }
  split.
  { intros n w w' H. destruct (play_rounds_spec _ _ _ H) as (out & T & Hn).
    exists out. destruct T as (T1 & _ & _ & T4 & T5 & _). rewrite Hn in T5. auto. }
  split.
  { intros n w w' Hinit H. destruct (play_rounds_spec _ _ _ H) as (out & T & Hn).
    exists out. destruct T as (T1 & _ & _ & T4 & T5 & T6).
    rewrite Hinit in T4, T5. cbn [__init__ wins total_games] in T4, T5. rewrite Hn in T5, T6.
    repeat split; try assumption; lia. }
  split.
  { intros w Hinv. destruct (play_round_spec w) as (r1 & w1 & o1 & E & T & _).
    rewrite E. cbn [snd]. eapply tracks_invariant; eauto. }
  split.
  { intros w Hinv. destruct (display_statistics_spec w) as (r & out & E & _).
    rewrite E. exact Hinv. }
  split.
  { intros w Hinv. destruct (show_menu_spec w) as (r & w' & out & E & T & _).
    rewrite E. cbn [snd]. eapply tracks_invariant; eauto. }
  intros w. destruct (show_menu_spec w) as (r & w' & out & E & T & _).
  rewrite E. cbn [snd]. exists out. destruct T as (T1 & _ & _ & T4 & T5 & _). auto.
Qed.

(** C9.  No operation of the game other than [play_round] changes the
    object: drawing the secret, reading a guess and the statistics screen
    leave [self] as it was, and so does a session at the menu in which no
    choice is [1], whatever else is typed. *)
Theorem only_play_round_mutates (w : World) :
  self (snd (generate_random_number w)) = self w
  /\ self (snd (get_user_guess py_int w)) = self w
  /\ self (snd (display_statistics w)) = self w
  /\ (Forall (fun line => strip line <> u "1") (stdin w) ->
      self (snd (show_menu py_int w)) = self w).
Proof.
  split.
  { unfold generate_random_number, randint, bind, get_self.
    destruct (min_range (self w) <=? max_range (self w)); reflexivity. }
  split.
  { destruct (get_user_guess_spec w) as (r & lines & out & E & _). rewrite E. reflexivity. }
  split.
  { destruct (display_statistics_spec w) as (r & out & E & _). rewrite E. reflexivity. }
  intros HF. destruct (show_menu_spec w) as (r & w' & out & E & _ & _ & Hf).
  rewrite E. auto.
Qed.

(** The bounds of the range never change, not even in [play_round]. *)
Lemma bounds_never_change (w : World) :
  min_range (self (snd (show_menu py_int w))) = min_range (self w)
  /\ max_range (self (snd (show_menu py_int w))) = max_range (self w).
Proof.
  destruct (show_menu_spec w) as (r & w' & out & E & T & _). rewrite E.
  destruct T as (_ & T2 & T3 & _). auto.
Qed.

End WithInt.

(** *** Comparing and drawing *)

(** C5.  For a guess within the bounds, [check_guess] is true against the
    same number and false against every other secret. *)
Theorem check_guess_exact (g : GuessingGame) (guess s : Z) :
  min_range g <= guess <= max_range g ->
  check_guess guess guess = true /\ (s <> guess -> check_guess guess s = false).
Proof.
  intros _. unfold check_guess. split; [apply Z.eqb_refl|].
  intros Hne. apply Z.eqb_neq. congruence.
Qed.

Lemma check_guess_exact_witness :
  check_guess 3 3 = true /\ (4 <> 3 -> check_guess 3 4 = false).
Proof. apply (check_guess_exact __init__ 3 4). cbn. lia. Defined.

(** [check_guess] decides equality, also outside the bounds. *)
Lemma check_guess_iff (guess s : Z) : check_guess guess s = true <-> guess = s.
Proof. apply Z.eqb_eq. Qed.

(** C8.  With bounds in order, as those of every game are, a draw returns
    an integer between [min_range] and [max_range], both included; it
    consumes one value of the generator and changes nothing else. *)
Theorem generate_random_number_in_range (w : World) :
  min_range (self w) <= max_range (self w) ->
  exists v, generate_random_number w = (Return v, drawn w)
            /\ min_range (self w) <= v <= max_range (self w).
Proof.
  intros Hle. unfold generate_random_number, randint, bind, get_self.
  destruct (Z.leb_spec (min_range (self w)) (max_range (self w))) as [_|]; [|lia].
  eexists. split; [reflexivity|].
  pose proof (Z.mod_pos_bound (rng w O) (max_range (self w) - min_range (self w) + 1)
                ltac:(lia)).
  lia.
Qed.

Lemma generate_random_number_in_range_witness :
  exists v, generate_random_number sample_world = (Return v, drawn sample_world)
            /\ 1 <= v <= 5.
Proof. apply (generate_random_number_in_range sample_world). cbn. lia. Defined.

(** Every number between the bounds can be drawn. *)
Lemma generate_random_number_onto (w : World) (v : Z) :
  min_range (self w) <= v <= max_range (self w) ->
  exists r,
    fst (generate_random_number
           {| self := self w; stdin := stdin w; rng := r; stdout := stdout w |}) = Return v.
Proof.
  intros Hv. exists (fun _ => v - min_range (self w)).
  unfold generate_random_number, randint, bind, get_self; cbn [self rng].
  destruct (Z.leb_spec (min_range (self w)) (max_range (self w))) as [_|]; [|lia].
  cbn [fst]. f_equal. rewrite Z.mod_small by lia. lia.
Qed.

(** Bounds out of order make the draw raise [ValueError]. *)
Lemma generate_random_number_empty_range (w : World) :
  max_range (self w) < min_range (self w) ->
  generate_random_number w = (Raise ValueError, w).
Proof.
  intros Hlt. unfold generate_random_number, randint, bind, get_self.
  destruct (Z.leb_spec (min_range (self w)) (max_range (self w))); [lia|reflexivity].
Qed.

(** *** The percentage *)

(** C2, as stated, fails: with one win in three games the screen shows
    [33.3%].  The number shown, 333/10, is not 1/3 * 100, and neither is
    the double behind it, 4691249611844266 / 2^47. *)
Lemma percentage_not_exact :
  display_statistics third_world
  = (Return tt,
     emit third_world
       (statistics_head (self third_world) ++ [Print (u "Win percentage: 33.3%")]))
  /\ 333 * total_games (self third_world) <> 10 * (wins (self third_world) * 100)
  /\ (exists q, int_truediv 1 3 = inl q
        /\ mul_int q 100 = S754_finite false 4691249611844266 (-47)
        /\ 4691249611844266 * 3 <> 100 * 2 ^ 47).
Proof.
  split; [vm_compute; reflexivity|].
  split; [vm_compute; discriminate|].
  eexists. split; [vm_compute; reflexivity|].
  split; [vm_compute; reflexivity|vm_compute; discriminate].
Qed.

(** C2, amended.  For counters that Python can render, of at most 4300
    digits: with games played and the counters in order, the screen ends
    with the percentage computed in doubles, [wins / total_games] rounded to
    the nearest double, times 100 rounded again, printed with one digit
    after the point; the division never overflows.  With no game played it
    ends with the fixed line [Win percentage: 0%] and divides nothing.  In
    no state at all does it raise [ZeroDivisionError]. *)
Theorem display_statistics_percentage (w : World) :
  (total_games (self w) <= 0 -> statistics_printable (self w) = true ->
     display_statistics w
     = (Return tt,
        emit w (statistics_head (self w) ++ [Print (u "Win percentage: 0%")])))
  /\ (0 < total_games (self w) -> 0 <= wins (self w) <= total_games (self w) ->
      statistics_printable (self w) = true ->
      exists q, int_truediv (wins (self w)) (total_games (self w)) = inl q /\
        display_statistics w
        = (Return tt,
           emit w (statistics_head (self w)
                     ++ [Print (u "Win percentage: " ++ format_1f (mul_int q 100) ++ u "%")])))
  /\ fst (display_statistics w) <> Raise ZeroDivisionError.
Proof.
  rewrite display_statistics_run.
  destruct (Z.ltb_spec 0 (total_games (self w))) as [Hpos|Hzero].
  - split; [lia|]. split.
    + intros _ Hinv _. destruct (int_truediv_fraction _ _ Hinv Hpos) as [q Hq].
      exists q. rewrite Hq. split; reflexivity.
    + destruct (int_truediv (wins (self w)) (total_games (self w))) as [q|e] eqn:Eq;
        [discriminate|].
      apply int_truediv_error in Eq. destruct Eq as [[_ ?]|[-> _]]; [lia|discriminate].
  - split; [intros _ _; reflexivity|]. split; [lia|discriminate].
Qed.

(** The percentage for some counters, as Python prints it. *)
Example percentage_shown_examples :
  map (fun p => percentage_shown (fst p) (snd p))
      [(1, 2); (1, 3); (2, 3); (7, 25); (1, 2000); (1, 1); (0, 4)]
  = map (fun t => Some (u t))
      ["50.0"; "33.3"; "66.7"; "28.0"; "0.1"; "100.0"; "0.0"]%string.
Proof. vm_compute. reflexivity. Qed.

(** *** A session *)

(** A session on a new game: a round won after two rejected lines, the
    statistics, a second round won, the statistics again, a wrong choice,
    and the exit. *)
Example session_example :
  fst (main int_ascii sample_world) = Return tt
  /\ self (snd (main int_ascii sample_world))
     = {| min_range := 1; max_range := 5; total_games := 2; wins := 2 |}
  /\ stdin (snd (main int_ascii sample_world)) = []
  /\ rounds (stdout (snd (main int_ascii sample_world))) = 2%nat
  /\ victories (stdout (snd (main int_ascii sample_world))) = 2%nat
  /\ last (stdout (snd (main int_ascii sample_world)))
     = Some (Print (u "Thanks for playing! Goodbye!")).
Proof. vm_compute. repeat split; reflexivity. Qed.

(** A guess read after a line that is no number and a number out of the
    bounds. *)
Example get_user_guess_example :
  get_user_guess int_ascii
    {| self := __init__; stdin := [u "x"; u "9"; u " 4 "; u "5"]; rng := fun _ => 0;
       stdout := [] |}
  = (Return 4,
     {| self := __init__; stdin := [u "5"]; rng := fun _ => 0;
        stdout := [ Prompt (u "Enter your guess (1-5): ");
                    Print (u "Invalid input! Please enter a valid number.");
                    Prompt (u "Enter your guess (1-5): ");
                    Print (u "Enter a number between 1 and 5.");
                    Prompt (u "Enter your guess (1-5): ") ] |}).
Proof. vm_compute. reflexivity. Qed.

(** The same game when the input ends in the middle of a round: the
    round does not count. *)
Example session_cut_short :
  fst (show_menu int_ascii
         {| self := __init__; stdin := [u "1"; u "7"]; rng := fun _ => 0; stdout := [] |})
  = Raise EOFError
  /\ self (snd (show_menu int_ascii
                  {| self := __init__; stdin := [u "1"; u "7"]; rng := fun _ => 0;
                     stdout := [] |}))
     = __init__.
Proof. vm_compute. split; reflexivity. Qed.

Section Sessions.
Variable py_int : str -> option Z.

(** *** Reading a guess, line by line *)

(** At the end of the input [get_user_guess] shows its prompt and raises. *)
Lemma get_user_guess_eof w :
  stdin w = [] ->
  get_user_guess py_int w = (Raise EOFError, accepted w []).
Proof.
  destruct w as [g lines r out]. cbn [stdin]. intros ->. reflexivity.
Qed.

(** X1.  [get_user_guess] reads up to the first line that is an integer within
    the bounds and returns it.  Every line before it is answered by the
    prompt and a message; the lines after it are left unread. *)
Theorem get_user_guess_first_valid
    (w : World) (rejected : list str) (line : str) (rest : list str) (v : Z) :
  stdin w = rejected ++ line :: rest ->
  Forall (fun l => valid_guess py_int (self w) l = false) rejected ->
  py_int line = Some v ->
  in_range (self w) v = true ->
  get_user_guess py_int w
  = (Return v,
     {| self := self w; stdin := rest; rng := rng w;
        stdout := stdout w ++ flat_map (turned_down py_int (self w)) rejected
                    ++ [Prompt (guess_prompt (self w))] |}).
Proof.
  revert w. induction rejected as [|l rej IH]; intros w Hin Hrej Hp Hr.
  - rewrite (get_user_guess_step _ _ _ _ Hin), Hp, Hr. reflexivity.
  - cbn [app] in Hin. rewrite (get_user_guess_step _ _ _ _ Hin).
    inversion Hrej as [|? ? Hl Hrej']; subst. unfold valid_guess in Hl.
    cbn [flat_map]. unfold turned_down at 1.
    destruct (py_int l) as [v'|]; [rewrite Hl|]; rewrite IH by (try reflexivity; assumption);
      cbn [reprompted self stdin rng stdout]; rewrite <- !app_assoc; reflexivity.
Qed.

(** X2.  When no line left is an integer within the bounds, [get_user_guess]
    answers every line, prompts once more and raises [EOFError]. *)
Theorem get_user_guess_no_valid_line (w : World) :
  Forall (fun l => valid_guess py_int (self w) l = false) (stdin w) ->
  get_user_guess py_int w
  = (Raise EOFError,
     {| self := self w; stdin := []; rng := rng w;
        stdout := stdout w ++ flat_map (turned_down py_int (self w)) (stdin w)
                    ++ [Prompt (guess_prompt (self w))] |}).
Proof.
  remember (stdin w) as lines eqn:El. revert w El.
  induction lines as [|l rej IH]; intros w El Hrej.
  - rewrite (get_user_guess_eof w) by auto. reflexivity.
  - rewrite (get_user_guess_step _ _ _ _ (eq_sym El)).
    inversion Hrej as [|? ? Hl Hrej']; subst. unfold valid_guess in Hl.
    cbn [flat_map]. unfold turned_down at 1.
    destruct (py_int l) as [v'|]; [rewrite Hl|]; rewrite IH by (try reflexivity; assumption);
      cbn [reprompted self stdin rng stdout]; rewrite <- !app_assoc; reflexivity.
Qed.

(** *** Rounds that do not end *)

(** The generator has no part in reading a guess. *)
Lemma get_user_guess_rng (r' : nat -> Z) : forall lines w,
  stdin w = lines ->
  get_user_guess py_int (with_rng w r')
  = (fst (get_user_guess py_int w), with_rng (snd (get_user_guess py_int w)) r').
Proof.
  induction lines as [|line rest IH]; intros w Hin.
  - rewrite !get_user_guess_eof by assumption. reflexivity.
  - rewrite (get_user_guess_step py_int (with_rng w r') line rest) by assumption.
    rewrite (get_user_guess_step py_int w line rest) by assumption.
    cbn [with_rng self].
    destruct (py_int line) as [v|]; [destruct (in_range (self w) v)|];
      first [reflexivity | apply (IH (reprompted w rest _)); reflexivity].
Qed.

(** A guess is returned unless every line left is turned down. *)
Lemma get_user_guess_raises : forall lines w e w',
  stdin w = lines ->
  get_user_guess py_int w = (Raise e, w') ->
  Forall (fun l => valid_guess py_int (self w) l = false) lines.
Proof.
  induction lines as [|line rest IH]; intros w e w' Hin H; [constructor|].
  rewrite (get_user_guess_step py_int w line rest Hin) in H.
  constructor.
  - unfold valid_guess.
    destruct (py_int line) as [v|]; [|reflexivity].
    destruct (in_range (self w) v); [discriminate H|reflexivity].
  - destruct (py_int line) as [v|]; [destruct (in_range (self w) v)|];
      [discriminate H| |]; eapply (IH (reprompted w rest _)); first [reflexivity|exact H].
Qed.

(** X3.  With bounds that Python can render, of at most 4300 digits, a round
    that does not end has counted nothing: the object is as it was.  It
    ends on [ValueError] when the bounds are out of order, before anything
    is read, and otherwise on [EOFError], when no line left is an integer
    within the bounds. *)
Theorem play_round_aborted (w : World) (e : exception) (w' : World) :
  bounds_printable (self w) = true ->
  play_round py_int w = (Raise e, w') ->
  self w' = self w
  /\ ((e = ValueError /\ max_range (self w) < min_range (self w)
       /\ w' = emit w round_head)
      \/ (e = EOFError /\ min_range (self w) <= max_range (self w)
          /\ stdin w' = []
          /\ Forall (fun l => valid_guess py_int (self w) l = false) (stdin w))).
Proof.
  intros _. rewrite play_round_run.
  unfold generate_random_number, randint, bind, get_self; cbn [emit self].
  destruct (Z.leb_spec (min_range (self w)) (max_range (self w))) as [Hle|Hlt].
  - cbn [self stdin rng stdout].
    match goal with |- context [get_user_guess _ ?w1] =>
      pose proof (get_user_guess_raises (stdin w) w1) as Hall;
      destruct (get_user_guess_spec py_int w1) as (r & lines & o & E & _ & Hm) end.
    rewrite E in *. destruct r as [v|e'|]; [discriminate| |contradiction].
    intros [= <- <-]. cbn [self stdin]. split; [reflexivity|]. right.
    destruct Hm as [-> ->]. repeat split; [assumption|].
    eapply Hall; reflexivity.
  - intros [= <- <-]. split; [reflexivity|]. left. repeat split. lia.
Qed.

(** *** The secret and the output *)

(** X4.  What a round shows before its last line, what it reads and how it
    ends do not depend on the generator behind the secret: until the
    result is announced, the output tells nothing about the number drawn. *)
Theorem play_round_keeps_secret (w : World) (r' : nat -> Z) :
  fst (play_round py_int (with_rng w r')) = fst (play_round py_int w)
  /\ stdin (snd (play_round py_int (with_rng w r'))) = stdin (snd (play_round py_int w))
  /\ removelast (stdout (snd (play_round py_int (with_rng w r'))))
     = removelast (stdout (snd (play_round py_int w)))
  /\ (fst (play_round py_int w) <> Return tt ->
      stdout (snd (play_round py_int (with_rng w r'))) = stdout (snd (play_round py_int w))).
Proof.
  rewrite !play_round_run.
  unfold generate_random_number, randint, bind, get_self; cbn [emit with_rng self].
  destruct (min_range (self w) <=? max_range (self w)); [|repeat split; reflexivity].
  cbn [self stdin rng stdout].
  set (asked := emit {| self := self w; stdin := stdin (emit w round_head);
                        rng := fun n => rng (emit w round_head) (S n);
                        stdout := stdout (emit w round_head) |} [secret_line (self w)]).
  change (emit {| self := self w; stdin := stdin (emit (with_rng w r') round_head);
                  rng := fun n => rng (emit (with_rng w r') round_head) (S n);
                  stdout := stdout (emit (with_rng w r') round_head) |}
            [secret_line (self w)])
    with (with_rng asked (fun n => r' (S n))).
  rewrite (get_user_guess_rng _ (stdin asked) asked eq_refl).
  destruct (get_user_guess py_int asked) as [[guess|e|] w2]; cbn [fst snd with_rng stdin stdout];
    rewrite ?removelast_last; repeat split; try reflexivity.
  intros H. destruct H. reflexivity.
Qed.

(** With the bounds in order a round ends, or the input does. *)
Lemma play_round_ordered w :
  min_range (self w) <= max_range (self w) ->
  exists r w' out,
    play_round py_int w = (r, w') /\ tracks w w' out /\
    match r with
    | Return _ => (length (stdin w') < length (stdin w))%nat
    | Raise e => e = EOFError /\ stdin w' = []
    | OutOfFuel => False
    end.
Proof.
  intros Hle. destruct (play_round_spec py_int w) as (r & w' & out & E & T & Hm).
  exists r, w', out. split; [exact E|]. split; [exact T|].
  destruct r as [[]|e|]; [tauto| |exact Hm].
  revert E. rewrite play_round_run.
  unfold generate_random_number, randint, bind, get_self; cbn [emit self].
  destruct (Z.leb_spec (min_range (self w)) (max_range (self w))) as [_|Hlt]; [|lia].
  cbn [self stdin rng stdout].
  match goal with |- context [get_user_guess _ ?w1] =>
    destruct (get_user_guess_spec py_int w1) as (r & lines & o & E & _ & Hg) end.
  rewrite E. destruct r as [v|e'|]; [discriminate| |contradiction].
  intros [= <- <-]. exact Hg.
Qed.

(** *** The menu, choice by choice *)

(** One turn of the menu loop. *)
Lemma show_menu_loop_unfold fuel w :
  show_menu_loop py_int (S fuel) w =
  match stdin w with
  | [] => (Raise EOFError, chosen w [])
  | line :: rest =>
      if str_eqb (strip line) (u "1")
      then (play_round py_int ;; show_menu_loop py_int fuel) (chosen w rest)
      else if str_eqb (strip line) (u "2")
      then (display_statistics ;; show_menu_loop py_int fuel) (chosen w rest)
      else if str_eqb (strip line) (u "3")
      then (Return tt, emit (chosen w rest) [goodbye])
      else show_menu_loop py_int fuel (emit (chosen w rest) [invalid_choice])
  end.
Proof.
  destruct w as [g lines r out].
  cbn [show_menu_loop]. unfold bind at 1 2 3 4 5 6 7. unfold print, input;
    cbn [self stdin rng stdout].
  assert (Hhead : (((((((out ++ [Print (nl ++ rule)]) ++ [Print (u "GUESSING GAME MENU")])
             ++ [Print rule]) ++ [Print (u "1. New game")]) ++ [Print (u "2. View statistics")])
             ++ [Print (u "3. Exit")]) ++ [Prompt (u "Enter your choice (1-3): ")])
          = out ++ menu_head).
  { unfold menu_head. rewrite <- !app_assoc. reflexivity. }
  rewrite Hhead. unfold chosen; cbn [self stdin rng stdout].
  destruct lines as [|line rest]; [reflexivity|].
  destruct (str_eqb (strip line) (u "1")); [reflexivity|].
  destruct (str_eqb (strip line) (u "2")); [reflexivity|].
  destruct (str_eqb (strip line) (u "3")); reflexivity.
Qed.

(** Fuel beyond the lines left changes nothing. *)
Lemma show_menu_loop_fuel : forall fuel1 fuel2 w,
  (length (stdin w) < fuel1)%nat -> (length (stdin w) < fuel2)%nat ->
  show_menu_loop py_int fuel1 w = show_menu_loop py_int fuel2 w.
Proof.
  induction fuel1 as [|fuel1 IH]; intros [|fuel2] w H1 H2; try lia.
  rewrite !show_menu_loop_unfold.
  destruct (stdin w) as [|line rest] eqn:Hin; [reflexivity|]. cbn [length] in H1, H2.
  destruct (str_eqb (strip line) (u "1"));
    [|destruct (str_eqb (strip line) (u "2"));
      [|destruct (str_eqb (strip line) (u "3")); [reflexivity|]]].
  - unfold bind.
    destruct (play_round_spec py_int (chosen w rest)) as (r & w' & out & E & _ & Hm).
    rewrite E. destruct r as [[]|e|]; try reflexivity.
    cbn [chosen stdin] in Hm. apply IH; lia.
  - unfold bind.
    destruct (display_statistics_spec (chosen w rest)) as (r & out & E & _ & _).
    rewrite E. destruct r as [[]|e|]; try reflexivity.
    apply IH; cbn [emit chosen stdin]; lia.
  - apply IH; cbn [emit chosen stdin]; lia.
Qed.

(** After a call that has read nothing more than it was given, the loop
    with the fuel left is the menu. *)
Lemma show_menu_loop_again fuel w :
  (length (stdin w) < fuel)%nat ->
  show_menu_loop py_int fuel w = show_menu py_int w.
Proof. intros H. unfold show_menu. apply show_menu_loop_fuel; lia. Qed.

(** X5.  What [show_menu] does with the next line, blanks around it apart:
    [1] plays a round and [2] shows the statistics, and the menu follows
    again; [3] says goodbye and returns, the lines after it unread; any
    other line is answered by a message, and the menu follows again with
    the game as it was.  At the end of the input the menu is shown and
    [EOFError] is raised. *)
Theorem show_menu_choice (w : World) :
  match stdin w with
  | [] => show_menu py_int w = (Raise EOFError, chosen w [])
  | line :: rest =>
      (strip line = u "1" ->
       show_menu py_int w = (play_round py_int ;; show_menu py_int) (chosen w rest))
      /\ (strip line = u "2" ->
          show_menu py_int w = (display_statistics ;; show_menu py_int) (chosen w rest))
      /\ (strip line = u "3" ->
          show_menu py_int w = (Return tt, emit (chosen w rest) [goodbye]))
      /\ (strip line <> u "1" -> strip line <> u "2" -> strip line <> u "3" ->
          show_menu py_int w = show_menu py_int (emit (chosen w rest) [invalid_choice]))
  end.
Proof.
  assert (Hturn : show_menu py_int w = show_menu_loop py_int (S (length (stdin w))) w)
    by reflexivity.
  rewrite show_menu_loop_unfold in Hturn.
  destruct (stdin w) as [|line rest] eqn:Hin; [exact Hturn|].
  split; [|split; [|split]]; rewrite Hturn.
  - intros ->. unfold bind.
    destruct (play_round_spec py_int (chosen w rest)) as (r & w' & out & E & _ & Hm).
    rewrite E. destruct r as [[]|e|]; try reflexivity.
    cbn [chosen stdin] in Hm. apply show_menu_loop_again. cbn [length]. lia.
  - intros ->. unfold bind.
    destruct (display_statistics_spec (chosen w rest)) as (r & out & E & _ & _).
    rewrite E. destruct r as [[]|e|]; try reflexivity.
  - intros ->. reflexivity.
  - intros N1 N2 N3. unfold str_eqb.
    rewrite !bool_decide_eq_false_2 by assumption.
    apply show_menu_loop_again. cbn [emit chosen stdin length]. lia.
Qed.

(** *** Blanks around a choice *)

Lemma lstrip_blanks a s : Forall (fun c => isspace c = true) a -> lstrip (a ++ s) = lstrip s.
Proof. induction 1 as [|c a Hc _ IH]; [reflexivity|]. cbn [app lstrip]. now rewrite Hc. Qed.

Lemma lstrip_app s b : lstrip s <> [] -> lstrip (s ++ b) = lstrip s ++ b.
Proof.
  induction s as [|c s IH]; [intros []; reflexivity|].
  cbn [app lstrip]. destruct (isspace c); [exact IH|reflexivity].
Qed.

Lemma rstrip_blanks s b : Forall (fun c => isspace c = true) b -> rstrip (s ++ b) = rstrip s.
Proof.
  intros Hb. unfold rstrip. rewrite rev_app_distr, lstrip_blanks; [reflexivity|].
  apply List.Forall_rev. exact Hb.
Qed.

Lemma lstrip_all_blanks s : lstrip s = [] -> Forall (fun c => isspace c = true) s.
Proof.
  induction s as [|c s IH]; [constructor|].
  cbn [lstrip]. destruct (isspace c) eqn:Hc; [|discriminate]. auto.
Qed.

(** Blanks before and after a text do not change what [strip] leaves. *)
Lemma strip_blanks a s b :
  Forall (fun c => isspace c = true) a -> Forall (fun c => isspace c = true) b ->
  strip (a ++ s ++ b) = strip s.
Proof.
  intros Ha Hb. unfold strip. rewrite (lstrip_blanks a) by assumption.
  destruct (lstrip s) as [|c t] eqn:Hs.
  - rewrite lstrip_blanks; [|apply lstrip_all_blanks; exact Hs].
    assert (Hl : lstrip b = []).
    { clear -Hb. induction Hb as [|c b Hc _ IH]; [reflexivity|]. cbn [lstrip]. now rewrite Hc. }
    rewrite Hl. reflexivity.
  - rewrite lstrip_app by (rewrite Hs; discriminate).
    rewrite Hs. apply rstrip_blanks. exact Hb.
Qed.

(** X6.  The menu reads a choice with the blanks around it removed: a line
    typed with blanks before or after it is taken as the line without
    them. *)
Theorem show_menu_ignores_blanks (w : World) (a line b : str) (rest : list str) :
  Forall (fun c => isspace c = true) a ->
  Forall (fun c => isspace c = true) b ->
  show_menu py_int (with_stdin w ((a ++ line ++ b) :: rest))
  = show_menu py_int (with_stdin w (line :: rest)).
Proof.
  intros Ha Hb. unfold show_menu. cbn [with_stdin stdin length].
  rewrite !show_menu_loop_unfold. cbn [with_stdin stdin].
  rewrite (strip_blanks a line b Ha Hb). reflexivity.
Qed.

(** *** Sessions that cannot go wrong *)

(** With the counters and the bounds in order the statistics screen
    returns. *)
Lemma display_statistics_ordered w :
  invariant (self w) ->
  exists out, display_statistics w = (Return tt, emit w out) /\ silent out.
Proof.
  intros Hinv. rewrite display_statistics_run.
  destruct (Z.ltb_spec 0 (total_games (self w))) as [Hpos|_].
  - destruct (int_truediv_fraction _ _ Hinv Hpos) as [q ->].
    eexists. split; [reflexivity|]. unfold percentage_line. auto with silence.
  - eexists. split; [reflexivity|]. auto with silence.
Qed.

(** The menu loop of a game in order ends with the goodbye, or with the
    input. *)
Lemma show_menu_loop_safe fuel : forall w,
  (length (stdin w) < fuel)%nat ->
  invariant (self w) ->
  min_range (self w) <= max_range (self w) ->
  exists r w' out,
    show_menu_loop py_int fuel w = (r, w') /\ tracks w w' out /\
    ((r = Return tt /\ exists o, out = o ++ [goodbye])
     \/ (r = Raise EOFError /\ stdin w' = [])).
Proof.
  induction fuel as [|fuel IH]; intros w Hlt Hinv Hle; [lia|].
  rewrite show_menu_loop_unfold.
  assert (T1 : forall rest, tracks w (chosen w rest) menu_head)
    by (intros rest; apply tracks_silent; auto with silence).
  destruct (stdin w) as [|line rest] eqn:Hin.
  { exists (Raise EOFError), (chosen w []), menu_head. auto. }
  cbn [length] in Hlt.
  destruct (str_eqb (strip line) (u "1"));
    [|destruct (str_eqb (strip line) (u "2"));
      [|destruct (str_eqb (strip line) (u "3"))]].
  - unfold bind.
    destruct (play_round_ordered (chosen w rest) Hle) as (r & w1 & o1 & E & T2 & Hm).
    rewrite E.
    pose proof (tracks_invariant _ _ _ T2 Hinv) as Hinv1.
    assert (Hle1 : min_range (self w1) <= max_range (self w1)).
    { destruct T2 as (_ & -> & -> & _). exact Hle. }
    destruct r as [[]|e|]; [| |contradiction].
    + destruct (IH w1) as (r2 & w2 & o2 & E' & T3 & Hr); [cbn [chosen stdin] in Hm; lia|auto..|].
      rewrite E'. exists r2, w2, (menu_head ++ o1 ++ o2).
      split; [reflexivity|].
      split; [eapply tracks_trans; [apply T1|eapply tracks_trans; eauto]|].
      destruct Hr as [[-> [o ->]]|[-> Hend]]; [left|right; auto].
      split; [reflexivity|]. exists (menu_head ++ o1 ++ o). rewrite <- !app_assoc. reflexivity.
    + destruct Hm as [-> Hend]. exists (Raise EOFError), w1, (menu_head ++ o1).
      split; [reflexivity|]. split; [eapply tracks_trans; [apply T1|exact T2]|auto].
  - unfold bind.
    destruct (display_statistics_ordered (chosen w rest) Hinv) as (o1 & E & Hs).
    rewrite E.
    assert (T2 : tracks (chosen w rest) (emit (chosen w rest) o1) o1)
      by (apply tracks_silent; auto).
    destruct (IH (emit (chosen w rest) o1)) as (r2 & w2 & o2 & E' & T3 & Hr);
      [cbn [emit chosen stdin]; lia|auto..|].
    rewrite E'. exists r2, w2, (menu_head ++ o1 ++ o2).
    split; [reflexivity|].
    split; [eapply tracks_trans; [apply T1|eapply tracks_trans; eauto]|].
    destruct Hr as [[-> [o ->]]|[-> Hend]]; [left|right; auto].
    split; [reflexivity|]. exists (menu_head ++ o1 ++ o). rewrite <- !app_assoc. reflexivity.
  - exists (Return tt), (emit (chosen w rest) [goodbye]), (menu_head ++ [goodbye]).
    split; [reflexivity|].
    split; [apply tracks_silent; cbn [emit chosen self stdout];
            [rewrite <- app_assoc; reflexivity|reflexivity|unfold goodbye; auto with silence]|].
    left. split; [reflexivity|]. exists menu_head. reflexivity.
  - assert (T2 : tracks (chosen w rest) (emit (chosen w rest) [invalid_choice]) [invalid_choice])
      by (apply tracks_silent; unfold invalid_choice; auto with silence).
    destruct (IH (emit (chosen w rest) [invalid_choice])) as (r2 & w2 & o2 & E' & T3 & Hr);
      [cbn [emit chosen stdin]; lia|auto..|].
    rewrite E'. exists r2, w2, (menu_head ++ [invalid_choice] ++ o2).
    split; [reflexivity|].
    split; [eapply tracks_trans; [apply T1|eapply tracks_trans; eauto]|].
    destruct Hr as [[-> [o ->]]|[-> Hend]]; [left|right; auto].
    split; [reflexivity|]. exists (menu_head ++ [invalid_choice] ++ o).
    rewrite <- !app_assoc. reflexivity.
Qed.

(** X7.  A session at the menu of a game whose counters and bounds are in
    order, and such that Python can render them, also when every line of
    the input has counted a round, cannot go wrong: it returns once [3] is
    chosen, the goodbye being the last line shown, or it raises [EOFError]
    with the input used up.  No other exception leaves it, and it does not
    run on for ever. *)
Theorem show_menu_never_crashes (w : World) :
  invariant (self w) ->
  min_range (self w) <= max_range (self w) ->
  bounds_printable (self w) = true ->
  printable (total_games (self w) + Z.of_nat (length (stdin w))) = true ->
  (fst (show_menu py_int w) = Return tt
   /\ exists out, stdout (snd (show_menu py_int w)) = stdout w ++ out ++ [goodbye])
  \/ (fst (show_menu py_int w) = Raise EOFError
      /\ stdin (snd (show_menu py_int w)) = []).
Proof.
  intros Hinv Hle _ _.
  destruct (show_menu_loop_safe (S (length (stdin w))) w) as (r & w' & out & E & T & Hr);
    [lia|assumption..|].
  unfold show_menu. rewrite E. cbn [fst snd].
  destruct Hr as [[-> [o ->]]|[-> Hend]]; [left|right; auto].
  split; [reflexivity|]. exists o. apply T.
Qed.

(** X8.  The program as [main] starts it, whatever the object and the output
    were before: after the two lines of welcome a session runs on a new
    game.  It returns, or it raises [EOFError] with the input used up.  In
    the end the bounds are 1 and 5, [total_games] is the number of rounds
    the session announced, and [wins] the number of those it announced as
    won. *)
Theorem main_session (w : World) :
  exists out,
    stdout (snd (main py_int w)) = stdout w ++ welcome ++ out
    /\ min_range (self (snd (main py_int w))) = 1
    /\ max_range (self (snd (main py_int w))) = 5
    /\ total_games (self (snd (main py_int w))) = Z.of_nat (rounds out)
    /\ wins (self (snd (main py_int w))) = Z.of_nat (victories out)
    /\ (victories out <= rounds out)%nat
    /\ (fst (main py_int w) = Return tt
        \/ (fst (main py_int w) = Raise EOFError /\ stdin (snd (main py_int w)) = [])).
Proof.
  set (w0 := {| self := __init__; stdin := stdin w; rng := rng w;
                stdout := stdout w ++ welcome |}).
  assert (Hmain : main py_int w = show_menu py_int w0).
  { unfold main, bind, print, set_self, w0, welcome; cbn [self stdin rng stdout].
    rewrite <- app_assoc. reflexivity. }
  rewrite Hmain.
  destruct (show_menu_loop_safe (S (length (stdin w0))) w0) as (r & w' & out & E & T & Hr);
    [lia|unfold invariant; cbn; lia|cbn; lia|].
  unfold show_menu. rewrite E. cbn [fst snd].
  destruct T as (T1 & T2 & T3 & T4 & T5 & T6). cbn [w0 self stdout __init__ min_range max_range wins total_games] in *.
  exists out. rewrite T1, <- app_assoc.
  repeat split; try assumption; try lia.
  destruct Hr as [[-> _]|[-> Hend]]; auto.
Qed.

(** *** Rounds and lines *)

(** A round gives no line back. *)
Lemma play_round_stdin w :
  (length (stdin (snd (play_round py_int w))) <= length (stdin w))%nat.
Proof.
  rewrite play_round_run.
  unfold generate_random_number, randint, bind, get_self; cbn [emit self].
  destruct (min_range (self w) <=? max_range (self w)); [|cbn [snd emit stdin]; lia].
  cbn [self stdin rng stdout].
  match goal with |- context [get_user_guess _ ?w1] =>
    destruct (get_user_guess_spec py_int w1) as (r & lines & o & E & _ & Hm) end.
  rewrite E. cbn [emit stdin] in Hm.
  destruct r as [v|e|]; cbn [snd stdin]; [lia| |contradiction].
  destruct Hm as [_ ->]. cbn [length]. lia.
Qed.

Lemma show_menu_loop_lines fuel : forall w,
  (length (stdin w) < fuel)%nat ->
  exists r w' out,
    show_menu_loop py_int fuel w = (r, w') /\ tracks w w' out /\
    (2 * rounds out + length (stdin w') <= length (stdin w))%nat.
Proof.
  induction fuel as [|fuel IH]; intros w Hlt; [lia|].
  rewrite show_menu_loop_unfold.
  assert (T1 : forall rest, tracks w (chosen w rest) menu_head)
    by (intros rest; apply tracks_silent; auto with silence).
  pose proof (silent_rounds _ silent_menu_head) as Hhead.
  destruct (stdin w) as [|line rest] eqn:Hin.
  { exists (Raise EOFError), (chosen w []), menu_head.
    split; [reflexivity|]. split; [apply T1|]. rewrite Hhead. cbn [chosen stdin length]. lia. }
  cbn [length] in Hlt |- *.
  destruct (str_eqb (strip line) (u "1"));
    [|destruct (str_eqb (strip line) (u "2"));
      [|destruct (str_eqb (strip line) (u "3"))]].
  - unfold bind.
    pose proof (play_round_stdin (chosen w rest)) as Hback.
    destruct (play_round_spec py_int (chosen w rest)) as (r & w1 & o1 & E & T2 & Hm).
    rewrite E in *. cbn [snd chosen stdin] in Hback, Hm.
    destruct r as [[]|e|]; [| |contradiction].
    + destruct Hm as [Hone Hless].
      destruct (IH w1) as (r2 & w2 & o2 & E' & T3 & Hl); [lia|].
      rewrite E'. exists r2, w2, (menu_head ++ o1 ++ o2).
      split; [reflexivity|].
      split; [eapply tracks_trans; [apply T1|eapply tracks_trans; eauto]|].
      rewrite !rounds_app, Hhead, Hone. lia.
    + destruct Hm as [Hnone _]. exists (Raise e), w1, (menu_head ++ o1).
      split; [reflexivity|]. split; [eapply tracks_trans; [apply T1|exact T2]|].
      rewrite rounds_app, Hhead, Hnone. lia.
  - unfold bind.
    destruct (display_statistics_spec (chosen w rest)) as (r & o1 & E & Hs & Hr).
    rewrite E.
    assert (T2 : tracks (chosen w rest) (emit (chosen w rest) o1) o1)
      by (apply tracks_silent; auto).
    pose proof (silent_rounds _ Hs) as Hnone.
    destruct Hr as [-> | ->].
    + destruct (IH (emit (chosen w rest) o1)) as (r2 & w2 & o2 & E' & T3 & Hl);
        [cbn [emit chosen stdin]; lia|].
      rewrite E'. exists r2, w2, (menu_head ++ o1 ++ o2).
      split; [reflexivity|].
      split; [eapply tracks_trans; [apply T1|eapply tracks_trans; eauto]|].
      cbn [emit chosen stdin] in Hl. rewrite !rounds_app, Hhead, Hnone. lia.
    + exists (Raise OverflowError), (emit (chosen w rest) o1), (menu_head ++ o1).
      split; [reflexivity|]. split; [eapply tracks_trans; [apply T1|exact T2]|].
      rewrite rounds_app, Hhead, Hnone. cbn [emit chosen stdin]. lia.
  - exists (Return tt), (emit (chosen w rest) [goodbye]), (menu_head ++ [goodbye]).
    assert (Hg : silent [goodbye]) by (unfold goodbye; auto with silence).
    split; [reflexivity|].
    split; [apply tracks_silent; cbn [emit chosen self stdout];
            [rewrite <- app_assoc; reflexivity|reflexivity|auto with silence]|].
    rewrite rounds_app, Hhead, (silent_rounds _ Hg). cbn [emit chosen stdin]. lia.
  - assert (Hi : silent [invalid_choice]) by (unfold invalid_choice; auto with silence).
    assert (T2 : tracks (chosen w rest) (emit (chosen w rest) [invalid_choice]) [invalid_choice])
      by (apply tracks_silent; auto).
    destruct (IH (emit (chosen w rest) [invalid_choice])) as (r2 & w2 & o2 & E' & T3 & Hl);
      [cbn [emit chosen stdin]; lia|].
    rewrite E'. exists r2, w2, (menu_head ++ [invalid_choice] ++ o2).
    split; [reflexivity|].
    split; [eapply tracks_trans; [apply T1|eapply tracks_trans; eauto]|].
    cbn [emit chosen stdin] in Hl. rewrite !rounds_app, Hhead, (silent_rounds _ Hi). lia.
Qed.

(** X9.  No round is counted that was not asked for and answered: for every
    game that a session adds to [total_games] it has read two lines at
    least, the choice at the menu and a guess.  The lines it leaves unread
    are no more than it was given. *)
Theorem show_menu_two_lines_a_round (w : World) :
  2 * (total_games (self (snd (show_menu py_int w))) - total_games (self w))
  + Z.of_nat (length (stdin (snd (show_menu py_int w))))
  <= Z.of_nat (length (stdin w))
  /\ total_games (self w) <= total_games (self (snd (show_menu py_int w))).
Proof.
  destruct (show_menu_loop_lines (S (length (stdin w))) w) as (r & w' & out & E & T & Hl);
    [lia|].
  unfold show_menu. rewrite E. cbn [snd].
  destruct T as (_ & _ & _ & _ & T5 & _). rewrite T5. lia.
Qed.

End Sessions.

(** *** The percentage at its ends *)

(** A number divided by itself is the double 1. *)
Lemma int_truediv_same p :
  int_truediv (Zpos p) (Zpos p) = inl (S754_finite false 4503599627370496 (-52)).
Proof.
  unfold int_truediv, SFdiv, SFdiv_core_binary.
  replace (Zdigits2 (Zpos p) + 0 - (Zdigits2 (Zpos p) + 0)) with 0 by lia.
  change (Z.min (fexp prec emax 0) (0 - 0)) with (-53).
  change (0 - 0 - -53) with 53.
  cbv beta iota zeta.
  assert (Hdiv : Z.div_eucl (Z.shiftl (Zpos p) 53) (Zpos p) = (2 ^ 53, 0)).
  { rewrite Z.shiftl_mul_pow2 by lia.
    pose proof (Z.div_mul (2 ^ 53) (Zpos p) ltac:(lia)) as Hq.
    pose proof (Z.mod_mul (2 ^ 53) (Zpos p) ltac:(lia)) as Hr.
    rewrite (Z.mul_comm (2 ^ 53)) in Hq, Hr.
    unfold Z.div, Z.modulo in Hq, Hr.
    destruct (Z.div_eucl (Zpos p * 2 ^ 53) (Zpos p)) as [q r]. congruence. }
  rewrite Hdiv.
  assert (Hloc : new_location (Zpos p) 0 = loc_Exact).
  { unfold new_location. destruct (Z.even (Zpos p)); reflexivity. }
  rewrite Hloc. vm_compute. reflexivity.
Qed.

(** X10.  The last line of the statistics screen at the ends of the scale, with
    games played, their number being one that Python can render, of at most
    4300 digits: [0.0%] when none was won, and [100.0%] when all were, the
    quotient of a number by itself being the double 1 whatever the number. *)
Theorem display_statistics_extremes (w : World) :
  0 < total_games (self w) ->
  printable (total_games (self w)) = true ->
  (wins (self w) = 0 ->
   display_statistics w
   = (Return tt, emit w (statistics_head (self w) ++ [Print (u "Win percentage: 0.0%")])))
  /\ (wins (self w) = total_games (self w) ->
      display_statistics w
      = (Return tt, emit w (statistics_head (self w) ++ [Print (u "Win percentage: 100.0%")]))).
Proof.
  intros Hpos _. rewrite display_statistics_run.
  destruct (Z.ltb_spec 0 (total_games (self w))) as [_|]; [|lia].
  split.
  - intros ->. destruct (total_games (self w)) as [|p|p]; try lia. reflexivity.
  - intros ->. destruct (total_games (self w)) as [|p|p]; try lia.
    rewrite int_truediv_same. reflexivity.
Qed.

(** As a number of tenths, the double of at most 100 that the screen
    formats. *)
Lemma format_1f_le_100 x :
  match x with
  | S754_zero s => s = false
  | S754_finite s m e => s = false /\ e <= 0 /\ Zpos m <= 100 * 2 ^ (- e)
  | _ => False
  end ->
  exists t, 0 <= t <= 1000 /\ format_1f x = render_tenths t.
Proof.
  destruct x as [s|s| |s m e]; try contradiction.
  - intros ->. exists 0. split; [lia|reflexivity].
  - intros (-> & He & Hm). exists (tenths m e).
    split; [apply tenths_le_1000; assumption|reflexivity].
Qed.

(** X11.  With games played and the counters in order, their number being one
    that Python can render, of at most 4300 digits, the percentage shown is
    a number of tenths from [0.0] to [100.0]: the two roundings of the
    doubles and that of the format never take it out of the scale. *)
Theorem display_statistics_within_scale (w : World) :
  0 < total_games (self w) ->
  0 <= wins (self w) <= total_games (self w) ->
  printable (total_games (self w)) = true ->
  exists t,
    0 <= t <= 1000
    /\ display_statistics w
       = (Return tt,
          emit w (statistics_head (self w)
                    ++ [Print (u "Win percentage: " ++ render_tenths t ++ u "%")])).
Proof.
  intros Hpos Hinv _. rewrite display_statistics_run.
  destruct (Z.ltb_spec 0 (total_games (self w))) as [_|]; [|lia].
  pose proof (int_truediv_le_one _ _ Hinv Hpos) as Hq.
  destruct (int_truediv (wins (self w)) (total_games (self w))) as [q|e]; [|contradiction].
  destruct (format_1f_le_100 _ (mul_int_le_100 q Hq)) as (t & Ht & E).
  exists t. split; [exact Ht|]. unfold percentage_line. rewrite E. reflexivity.
Qed.

(** *** Guesses, rounds and sessions on sample input *)

Lemma get_user_guess_first_valid_witness :
  get_user_guess int_ascii guess_world
  = (Return 4,
     {| self := self guess_world; stdin := [u "5"]; rng := rng guess_world;
        stdout := stdout guess_world
                    ++ flat_map (turned_down int_ascii (self guess_world)) [u "x"; u "9"]
                    ++ [Prompt (guess_prompt (self guess_world))] |}).
Proof.
  apply (get_user_guess_first_valid int_ascii guess_world [u "x"; u "9"] (u " 4 ") [u "5"] 4).
  - reflexivity.
  - repeat constructor.
  - vm_compute. reflexivity.
  - reflexivity.
Defined.

Lemma get_user_guess_no_valid_line_witness :
  get_user_guess int_ascii no_guess_world
  = (Raise EOFError,
     {| self := self no_guess_world; stdin := []; rng := rng no_guess_world;
        stdout := stdout no_guess_world
                    ++ flat_map (turned_down int_ascii (self no_guess_world))
                         (stdin no_guess_world)
                    ++ [Prompt (guess_prompt (self no_guess_world))] |}).
Proof.
  apply (get_user_guess_no_valid_line int_ascii no_guess_world).
  repeat constructor.
Defined.

Lemma play_round_aborted_witness :
  self (snd (play_round int_ascii no_guess_world)) = self no_guess_world
  /\ ((EOFError = ValueError
       /\ max_range (self no_guess_world) < min_range (self no_guess_world)
       /\ snd (play_round int_ascii no_guess_world) = emit no_guess_world round_head)
      \/ (EOFError = EOFError
          /\ min_range (self no_guess_world) <= max_range (self no_guess_world)
          /\ stdin (snd (play_round int_ascii no_guess_world)) = []
          /\ Forall (fun l => valid_guess int_ascii (self no_guess_world) l = false)
               (stdin no_guess_world))).
Proof.
  apply (play_round_aborted int_ascii no_guess_world EOFError
           (snd (play_round int_ascii no_guess_world)));
    vm_compute; reflexivity.
Defined.

Lemma show_menu_never_crashes_witness :
  (fst (show_menu int_ascii sample_world) = Return tt
   /\ exists out, stdout (snd (show_menu int_ascii sample_world))
                  = stdout sample_world ++ out ++ [goodbye])
  \/ (fst (show_menu int_ascii sample_world) = Raise EOFError
      /\ stdin (snd (show_menu int_ascii sample_world)) = []).
Proof.
  apply (show_menu_never_crashes int_ascii sample_world).
  - unfold invariant. cbn [sample_world self __init__ wins total_games]. lia.
  - cbn [sample_world self __init__ min_range max_range]. lia.
  - vm_compute. reflexivity.
  - vm_compute. reflexivity.
Defined.

Lemma show_menu_ignores_blanks_witness :
  show_menu int_ascii (with_stdin sample_world ((u " " ++ u "3" ++ u "  ") :: [u "1"]))
  = show_menu int_ascii (with_stdin sample_world (u "3" :: [u "1"])).
Proof.
  apply (show_menu_ignores_blanks int_ascii sample_world (u " ") (u "3") (u "  ") [u "1"]);
    repeat constructor.
Defined.

Lemma display_statistics_extremes_witness :
  display_statistics lost_world
  = (Return tt,
     emit lost_world
       (statistics_head (self lost_world) ++ [Print (u "Win percentage: 0.0%")]))
  /\ display_statistics won_world
     = (Return tt,
        emit won_world
          (statistics_head (self won_world) ++ [Print (u "Win percentage: 100.0%")])).
Proof.
  split.
  - apply (display_statistics_extremes lost_world); [reflexivity|reflexivity|reflexivity].
  - apply (display_statistics_extremes won_world); [reflexivity|reflexivity|reflexivity].
Defined.

Lemma display_statistics_within_scale_witness :
  exists t,
    0 <= t <= 1000
    /\ display_statistics third_world
       = (Return tt,
          emit third_world
            (statistics_head (self third_world)
               ++ [Print (u "Win percentage: " ++ render_tenths t ++ u "%")])).
Proof.
  apply (display_statistics_within_scale third_world);
    [reflexivity|split; discriminate|reflexivity].
Defined.

End GameProps.

(** ** The documentation generator *)
Module DocGenProps.
Import Py DocGen DocGenSpec.
Local Open Scope py_scope.

(** *** The comment pattern, line by line *)

Lemma lines_nonempty s : lines s <> [].
Proof.
  destruct s as [|c r]; cbn [lines]; [discriminate|].
  destruct (c =? 10)%N; [discriminate|]. destruct (lines r); discriminate.
Qed.

(** The lines of a text, by its first line: [span_line] cuts before the
    first line feed. *)
Lemma lines_span s :
  lines s = match span_line s with
            | (line, []) => [line]
            | (line, _ :: rest) => line :: lines rest
            end.
Proof.
  induction s as [|c r IH]; [reflexivity|].
  cbn [lines span_line]. destruct (c =? 10)%N; [reflexivity|].
  rewrite IH. destruct (span_line r) as [line [|d rest]]; reflexivity.
Qed.

Lemma span_line_length s :
  (length (fst (span_line s)) + length (snd (span_line s)) = length s)%nat.
Proof.
  induction s as [|c r IH]; [reflexivity|].
  cbn [span_line]. destruct (c =? 10)%N; [reflexivity|].
  destruct (span_line r) as [line rest]. cbn [fst snd length] in *. lia.
Qed.

(** What [span_line] leaves starts with a line feed. *)
Lemma span_line_rest s c rest : snd (span_line s) = c :: rest -> c = 10%N.
Proof.
  induction s as [|d r IH]; [discriminate|].
  cbn [span_line]. destruct (N.eqb_spec d 10) as [->|_].
  - intros [= <- _]. reflexivity.
  - destruct (span_line r) as [line rest']. exact IH.
Qed.

(** The lines of a text are its first line, cut by [span_line], and lines
    that yield the comments of the text left. *)
Lemma lines_cut s :
  exists tl, lines s = fst (span_line s) :: tl
    /\ flat_map line_comment (lines (snd (span_line s))) = flat_map line_comment tl.
Proof.
  pose proof (span_line_rest s) as Hnl. rewrite (lines_span s).
  destruct (span_line s) as [line [|d rest]]; cbn [fst snd] in *.
  - exists []. split; reflexivity.
  - exists (lines rest). split; [reflexivity|].
    rewrite (Hnl d rest eq_refl). reflexivity.
Qed.

Lemma lines_cons c r :
  (c =? 10)%N = false ->
  exists hd tl, lines r = hd :: tl /\ lines (c :: r) = (c :: hd) :: tl.
Proof.
  intros Hc. cbn [lines]. rewrite Hc.
  destruct (lines r) as [|hd tl] eqn:E; [destruct (lines_nonempty _ E)|].
  exists hd, tl. split; reflexivity.
Qed.

Lemma findall_from_lines fuel : forall s,
  (length s <= fuel)%nat ->
  findall_from fuel s = flat_map line_comment (lines s).
Proof.
  induction fuel as [|fuel IH]; intros s Hlen.
  - destruct s; [reflexivity|cbn [length] in Hlen; lia].
  - destruct s as [|c r]; [reflexivity|]. cbn [length] in Hlen.
    cbn [findall_from].
    destruct (N.eqb_spec c 35) as [->|Hc].
    + (* a '#': what is left of the line is the group *)
      destruct (lines_cons 35 r eq_refl) as (hd & tl & Hr & ->).
      destruct (lines_cut r) as (tl' & Hr' & Hcut).
      rewrite Hr in Hr'. injection Hr' as -> <-.
      pose proof (span_line_length r) as Hsp.
      destruct (span_line r) as [[|d group] rest]; cbn [fst snd length] in *.
      * rewrite IH, Hr by lia. reflexivity.
      * rewrite IH, Hcut by lia. reflexivity.
    + destruct (N.eqb_spec c 10) as [->|Hn].
      * rewrite IH by lia. reflexivity.
      * destruct (lines_cons c r) as (hd & tl & Hr & ->); [now apply N.eqb_neq|].
        rewrite IH, Hr by lia. cbn [flat_map]. f_equal.
        unfold line_comment. cbn [after_hash].
        destruct (N.eqb_spec c 35); [contradiction|reflexivity].
Qed.

Lemma findall_comments_lines content :
  findall_comments content = flat_map line_comment (lines content).
Proof. apply findall_from_lines. lia. Qed.

Lemma join_lines s : join (lines s) = s.
Proof.
  induction s as [|c r IH]; [reflexivity|].
  cbn [lines]. destruct (N.eqb_spec c 10) as [->|Hc].
  - pose proof (lines_nonempty r) as Hne.
    cbn [join]. destruct (lines r) as [|hd tl]; [contradiction|].
    rewrite IH. reflexivity.
  - pose proof (lines_nonempty r) as Hne.
    destruct (lines r) as [|hd tl]; [contradiction|].
    cbn [join] in *. destruct tl; rewrite <- IH; reflexivity.
Qed.

Lemma lines_no_newline s : Forall (fun line => ~ In 10%N line) (lines s).
Proof.
  induction s as [|c r IH]; [repeat constructor; intros []|].
  cbn [lines]. destruct (N.eqb_spec c 10) as [->|Hc].
  - constructor; [intros []|assumption].
  - destruct (lines r) as [|hd tl]; [repeat constructor; intros [?|[]]; congruence|].
    inversion IH as [|? ? Hhd Htl]; subst. constructor; [|assumption].
    intros [?|?]; [congruence|contradiction].
Qed.

(** A ['#'] with a character after it on its line is inside the one entry
    of the line, which runs to the end of the line. *)
Lemma line_comment_covers p c t :
  exists group, line_comment (p ++ 35%N :: c :: t) = [group]
    /\ exists q, group = q ++ c :: t.
Proof.
  unfold line_comment. induction p as [|x p IH]; cbn [app after_hash].
  - rewrite N.eqb_refl. exists (c :: t). split; [reflexivity|]. exists []. reflexivity.
  - destruct (x =? 35)%N; [|exact IH].
    destruct p as [|y p]; cbn [app].
    + exists (35%N :: c :: t). split; [reflexivity|]. exists [35%N]. reflexivity.
    + exists (y :: p ++ 35%N :: c :: t). split; [reflexivity|].
      exists (y :: p ++ [35%N]). cbn [app]. rewrite <- app_assoc. reflexivity.
Qed.

(** An entry is the text after the first ['#'] of its line, and not empty. *)
Lemma line_comment_origin line group :
  In group (line_comment line) ->
  exists p, line = p ++ 35%N :: group /\ ~ In 35%N p /\ group <> []
            /\ line_comment line = [group].
Proof.
  unfold line_comment. induction line as [|x r IH]; cbn [after_hash]; [intros []|].
  destruct (N.eqb_spec x 35) as [->|Hx].
  - destruct r as [|c t]; [intros []|]. intros [<-|[]].
    exists []. repeat split; [intros []|discriminate].
  - intros Hin. destruct (IH Hin) as (p & -> & Hp & Hg & E).
    exists (x :: p). repeat split; try assumption.
    intros [?|?]; [congruence|contradiction].
Qed.

(** A ['#'] that ends its line, with no ['#'] before it, yields nothing. *)
Lemma line_comment_trailing p : ~ In 35%N p -> line_comment (p ++ [35%N]) = [].
Proof.
  unfold line_comment. induction p as [|x p IH]; intros Hp; cbn [app after_hash].
  - reflexivity.
  - destruct (N.eqb_spec x 35) as [->|_]; [destruct Hp; left; reflexivity|].
    apply IH. intros H. apply Hp. right. exact H.
Qed.

(** C10.  The comments found in a text are, line by line and in order, the
    text after the first ['#'] of each line in which a character follows that
    ['#'].  So every ['#'] that a character follows on its line is taken as
    comment: its line yields one entry, and the entry runs from a ['#'] at or
    before it to the end of the line.  Every entry arises so.  A ['#'] that
    ends its line, alone on the line, yields no entry.  The scan reads the
    characters only: quotes around a ['#'] change nothing. *)
Theorem findall_comments_every_hash (content : str) :
  findall_comments content = flat_map line_comment (lines content)
  /\ join (lines content) = content
  /\ Forall (fun line => ~ In 10%N line) (lines content)
  /\ (forall p c t, exists group,
        line_comment (p ++ 35%N :: c :: t) = [group] /\ exists q, group = q ++ c :: t)
  /\ (forall line group, In group (line_comment line) ->
        exists p, line = p ++ 35%N :: group /\ ~ In 35%N p /\ group <> []
                  /\ line_comment line = [group])
  /\ (forall p, ~ In 35%N p -> line_comment (p ++ [35%N]) = [])
  /\ findall_comments (u "s = 'a#b'  # c" ++ nl ++ u "t = 1 #") = [u "b'  # c"].
Proof.
  split; [apply findall_comments_lines|].
  split; [apply join_lines|].
  split; [apply lines_no_newline|].
  split; [apply line_comment_covers|].
  split; [apply line_comment_origin|].
  split; [apply line_comment_trailing|].
  vm_compute. reflexivity.
Qed.

(** *** The walk over the tree *)

Lemma sizes_app a b : sizes (a ++ b) = (sizes a + sizes b)%nat.
Proof. induction a as [|n a IH]; cbn [app sizes]; lia. Qed.

Lemma nodes_children node :
  nodes node = node :: flat_map nodes (iter_child_nodes node).
Proof.
  assert (Hall : forall l,
    (fix all (l : list ast) : list ast :=
       match l with [] => [] | n :: r => nodes n ++ all r end) l = flat_map nodes l).
  { induction l as [|n r IH]; [reflexivity|]. cbn [flat_map]. rewrite <- IH. reflexivity. }
  destruct node; cbn [nodes iter_child_nodes]; repeat rewrite Hall;
    rewrite ?flat_map_app; cbn [flat_map]; rewrite ?app_nil_r; reflexivity.
Qed.

Lemma size_children node : size node = S (sizes (iter_child_nodes node)).
Proof.
  destruct node as [body|name pre body post|name pre body post|value|value|children];
    cbn [iter_child_nodes]; rewrite ?sizes_app.
  - reflexivity.
  - change (S (sizes pre + sizes body + sizes post)
            = S (sizes pre + (sizes body + sizes post))). lia.
  - change (S (sizes pre + sizes body + sizes post)
            = S (sizes pre + (sizes body + sizes post))). lia.
  - change (S (size value) = S (size value + 0)). lia.
  - reflexivity.
  - reflexivity.
Qed.

(** With fuel for every node waiting, the queue yields the nodes of its
    trees, each once, level by level. *)
Lemma walk_queue_nodes fuel : forall todo,
  (sizes todo <= fuel)%nat ->
  Permutation (walk_queue fuel todo) (flat_map nodes todo).
Proof.
  induction fuel as [|fuel IH]; intros [|node rest] Hsz; try apply perm_nil.
  - cbn [sizes] in Hsz. rewrite size_children in Hsz. lia.
  - cbn [walk_queue flat_map]. rewrite nodes_children. cbn [app].
    apply perm_skip. rewrite IH.
    + rewrite flat_map_app. apply Permutation_app_comm.
    + cbn [sizes] in Hsz. rewrite size_children in Hsz. rewrite sizes_app. lia.
Qed.

(** [ast.walk] yields every node of the tree exactly once. *)
Lemma walk_nodes tree : Permutation (walk tree) (nodes tree).
Proof.
  unfold walk. rewrite walk_queue_nodes.
  - cbn [flat_map]. rewrite app_nil_r. reflexivity.
  - cbn [sizes]. lia.
Qed.

(** *** Parsing a file *)

Lemma after_hash_lstrip line : after_hash line = after_hash (lstrip line).
Proof.
  induction line as [|c r IH]; [reflexivity|].
  cbn [lstrip]. destruct (isspace c) eqn:Hs; [|reflexivity].
  cbn [after_hash]. destruct (N.eqb_spec c 35) as [->|_]; [discriminate Hs|exact IH].
Qed.

Lemma comment_line_comment line :
  is_comment_line line = true -> has_comment line = true ->
  line_comment line = [comment_text line].
Proof.
  unfold is_comment_line, comment_text, has_comment, line_comment.
  rewrite after_hash_lstrip.
  destruct (lstrip line) as [|c t]; [discriminate|].
  cbn [after_hash]. destruct (c =? 35)%N; [|discriminate].
  destruct t; [discriminate|reflexivity].
Qed.

(** When the comment lines are the lines with a ['#'] before a character,
    the comments found are the texts of the comment lines. *)
Lemma comments_of_comment_lines ls :
  Forall (fun line => has_comment line = is_comment_line line) ls ->
  flat_map line_comment ls = map comment_text (List.filter is_comment_line ls).
Proof.
  induction 1 as [|line ls Hl _ IH]; [reflexivity|].
  cbn [flat_map List.filter]. rewrite IH.
  destruct (is_comment_line line) eqn:Hc.
  - rewrite (comment_line_comment line Hc Hl). reflexivity.
  - unfold has_comment in Hl. destruct (line_comment line); [reflexivity|discriminate].
Qed.

Section WithParser.
Variable ast_parse : str -> ast + error.
Variable cleandoc : str -> str.

(** [parse_python_file], branch by branch. *)
Lemma parse_python_file_run w path :
  parse_python_file ast_parse cleandoc path w =
  match source w path with
  | inl content =>
      match ast_parse content with
      | inl tree => (Return tt, collected w (extract cleandoc path content tree))
      | inr e => (Return tt, printed w (error_line path e))
      end
  | inr e => (Return tt, printed w (error_line path e))
  end.
Proof.
  unfold parse_python_file, try_except, read_text, bind, get_world, source.
  destruct (fs w !! path) as [[[content|body] [|] rm wr]|]; try reflexivity.
  unfold ret. destruct (ast_parse content) as [tree|e]; reflexivity.
Qed.

Lemma parse_files_run paths : forall w,
  exists w', parse_files ast_parse cleandoc paths w = (Return tt, w')
    /\ fs w' = fs w /\ io_error w' = io_error w /\ now w' = now w
    /\ doc (self w') = doc (self w)
    /\ comments_data (self w') = comments_data (self w) ++ flat_map (entries ast_parse cleandoc w) paths.
Proof.
  induction paths as [|path rest IH]; intros w.
  - exists w. cbn [flat_map]. rewrite app_nil_r. repeat split; reflexivity.
  - cbn [parse_files]. unfold bind. rewrite parse_python_file_run.
    assert (Hsame : forall w1, fs w1 = fs w -> io_error w1 = io_error w ->
              flat_map (entries ast_parse cleandoc w1) rest = flat_map (entries ast_parse cleandoc w) rest).
    { intros w1 Hfs Hos. apply flat_map_ext. intros p. unfold entries, source.
      rewrite Hfs, Hos. reflexivity. }
    cbn [flat_map]. unfold entries at 1.
    destruct (source w path) as [content|e]; [destruct (ast_parse content) as [tree|e]|].
    + destruct (IH (collected w (extract cleandoc path content tree)))
        as (w' & E & H1 & H2 & H3 & H4 & H5).
      exists w'. rewrite E. cbn [collected fs io_error now self doc comments_data] in *.
      rewrite H5, Hsame by reflexivity. rewrite <- app_assoc. repeat split; assumption.
    + destruct (IH (printed w (error_line path e))) as (w' & E & H1 & H2 & H3 & H4 & H5).
      exists w'. rewrite E. cbn [printed fs io_error now self] in *.
      rewrite H5, Hsame by reflexivity. repeat split; assumption.
    + destruct (IH (printed w (error_line path e))) as (w' & E & H1 & H2 & H3 & H4 & H5).
      exists w'. rewrite E. cbn [printed fs io_error now self] in *.
      rewrite H5, Hsame by reflexivity. repeat split; assumption.
Qed.

Lemma fails_entries w path e : fails ast_parse w path e -> entries ast_parse cleandoc w path = [].
Proof.
  unfold entries. intros [H|(content & H & Hp)]; rewrite H; [reflexivity|].
  rewrite Hp. reflexivity.
Qed.

(** C4.  When the read or the parse of a file fails, [parse_python_file]
    returns normally: it prints the error, and leaves the object, with
    [comments_data], and the files as they were.  What follows runs on;
    among the files parsed in turn the one that fails adds nothing and every
    other file adds what it adds without it. *)
Theorem parse_failure_skips_file (w : World) (path : str) (e : error) :
  fails ast_parse w path e ->
  parse_python_file ast_parse cleandoc path w
  = (Return tt, printed w (error_line path e))
  /\ (forall k : M unit,
        (parse_python_file ast_parse cleandoc path ;; k) w
        = k (printed w (error_line path e)))
  /\ (forall before after,
        fst (parse_files ast_parse cleandoc (before ++ path :: after) w) = Return tt
        /\ comments_data (self (snd (parse_files ast_parse cleandoc (before ++ path :: after) w)))
           = comments_data (self (snd (parse_files ast_parse cleandoc (before ++ after) w)))
        /\ comments_data (self (snd (parse_files ast_parse cleandoc (before ++ after) w)))
           = comments_data (self w) ++ flat_map (entries ast_parse cleandoc w) (before ++ after)).
Proof.
  intros Hf.
  assert (E : parse_python_file ast_parse cleandoc path w
              = (Return tt, printed w (error_line path e))).
  { rewrite parse_python_file_run. destruct Hf as [H|(content & H & Hp)]; rewrite H;
      [reflexivity|]. rewrite Hp. reflexivity. }
  split; [exact E|]. split; [intros k; unfold bind; rewrite E; reflexivity|].
  intros before after.
  destruct (parse_files_run (before ++ path :: after) w) as (w1 & E1 & _ & _ & _ & _ & D1).
  destruct (parse_files_run (before ++ after) w) as (w2 & E2 & _ & _ & _ & _ & D2).
  rewrite E1, E2. cbn [fst snd]. split; [reflexivity|]. split; [|exact D2].
  rewrite D1, D2, !flat_map_app. cbn [flat_map].
  rewrite (fails_entries _ _ _ Hf). reflexivity.
Qed.

(** *** What one file yields *)

Lemma count_app {A} (p : A -> bool) a b : count p (a ++ b) = (count p a + count p b)%nat.
Proof. unfold count. rewrite List.filter_app, List.length_app. reflexivity. Qed.

Lemma count_permutation {A} (p : A -> bool) a b :
  Permutation a b -> count p a = count p b.
Proof.
  unfold count. induction 1 as [|x a b _ IH|x y a|a b c _ IH1 _ IH2]; cbn [List.filter].
  - reflexivity.
  - destruct (p x); cbn [length]; congruence.
  - destruct (p x), (p y); reflexivity.
  - congruence.
Qed.

(** What a node adds: one entry when it is of one of the three classes
    and documented, with the cleaned text of its docstring. *)
Lemma docstring_of_documented node :
  docstring_of cleandoc node =
  match node, raw_docstring node with
  | Module _, Some raw =>
      if documented cleandoc node
      then [{| d_type := u "Module"; d_name := u "Module"; d_docstring := cleandoc raw |}]
      else []
  | FunctionDef name _ _ _, Some raw =>
      if documented cleandoc node
      then [{| d_type := u "FunctionDef"; d_name := name; d_docstring := cleandoc raw |}]
      else []
  | ClassDef name _ _ _, Some raw =>
      if documented cleandoc node
      then [{| d_type := u "ClassDef"; d_name := name; d_docstring := cleandoc raw |}]
      else []
  | _, _ => []
  end.
Proof.
  unfold documented, docstring_of, get_docstring.
  destruct node as [body|name pre body post|name pre body post|value|value|children];
    try reflexivity.
  all: destruct body as [|[| | |[| | | |[raw|]|]| |] rest]; try reflexivity.
  all: cbn [raw_docstring]; destruct (cleandoc raw); reflexivity.
Qed.

Lemma docstring_of_modules node :
  count (has_type (u "Module")) (docstring_of cleandoc node)
  = (if is_module node && documented cleandoc node then 1 else 0)%nat.
Proof.
  rewrite docstring_of_documented. unfold documented.
  destruct (raw_docstring node) as [raw|] eqn:E; destruct node; rewrite ?E;
    cbn [is_module andb]; try reflexivity; destruct (cleandoc raw); reflexivity.
Qed.

Lemma docstring_of_functions node :
  count (has_type (u "FunctionDef")) (docstring_of cleandoc node)
  = (if is_function node && documented cleandoc node then 1 else 0)%nat.
Proof.
  rewrite docstring_of_documented. unfold documented.
  destruct (raw_docstring node) as [raw|] eqn:E; destruct node; rewrite ?E;
    cbn [is_function andb]; try reflexivity; destruct (cleandoc raw); reflexivity.
Qed.

(** The text of every entry is the cleaned docstring of a node, and not
    empty. *)
Lemma docstring_of_cleaned node d :
  In d (docstring_of cleandoc node) ->
  exists raw, raw_docstring node = Some raw
              /\ d_docstring d = cleandoc raw /\ d_docstring d <> [].
Proof.
  rewrite docstring_of_documented. unfold documented.
  destruct (raw_docstring node) as [raw|] eqn:E.
  2:{ destruct node; rewrite ?E; intros []. }
  destruct (cleandoc raw) as [|c t] eqn:Ec.
  { destruct node; rewrite ?E; intros []. }
  intros Hin. exists raw. split; [reflexivity|].
  assert (Hd : d_docstring d = c :: t).
  { destruct node; try rewrite E in Hin; try contradiction;
      destruct Hin as [<-|[]]; exact Ec. }
  rewrite Hd. split; [symmetry; exact Ec|discriminate].
Qed.

Lemma flat_map_count (p : ast -> bool) (t : str) (l : list ast) :
  (forall node, count (has_type t) (docstring_of cleandoc node)
                = (if p node then 1 else 0)%nat) ->
  count (has_type t) (flat_map (docstring_of cleandoc) l) = count p l.
Proof.
  intros Hp. induction l as [|n r IH]; [reflexivity|].
  cbn [flat_map]. rewrite count_app, IH, Hp. unfold count. cbn [List.filter].
  destruct (p n); reflexivity.
Qed.

(** C3, amended.  A file is read and parsed; its tree has one module and
    one function with a docstring, its text has two comment lines, and a
    ['#'] is followed by a character in the comment lines and in no other
    line.  Then [parse_python_file] adds one element with one [Module]
    entry, one [FunctionDef] entry and two comments.  The text of an entry
    is the docstring of a node cleaned by [cleandoc]; a comment is the text
    of its line after the ['#'], and the comments section shows it
    stripped. *)
Theorem one_file_yields (w : World) (path content : str) (tree : ast) :
  source w path = inl content ->
  ast_parse content = inl tree ->
  count (fun n => is_module n && documented cleandoc n) (nodes tree) = 1%nat ->
  count (fun n => is_function n && documented cleandoc n) (nodes tree) = 1%nat ->
  count is_comment_line (lines content) = 2%nat ->
  Forall (fun line => has_comment line = is_comment_line line) (lines content) ->
  exists fd c1 c2,
    parse_python_file ast_parse cleandoc path w = (Return tt, collected w fd)
    /\ file_path fd = path
    /\ count (has_type (u "Module")) (docstrings fd) = 1%nat
    /\ count (has_type (u "FunctionDef")) (docstrings fd) = 1%nat
    /\ (forall d, In d (docstrings fd) ->
          exists node raw, In node (nodes tree) /\ raw_docstring node = Some raw
                           /\ d_docstring d = cleandoc raw /\ d_docstring d <> [])
    /\ comments fd = [c1; c2]
    /\ [c1; c2] = map comment_text (List.filter is_comment_line (lines content))
    /\ file_comments fd
       = [ Heading (u "Comments from " ++ path) 2 false;
           Paragraph [strong (u "Comment " ++ str_of_int 1 ++ u ": "); plain (strip c1)];
           Paragraph [strong (u "Comment " ++ str_of_int 2 ++ u ": "); plain (strip c2)] ].
Proof.
  intros Hsrc Hparse Hmod Hfun Hcl Hhash.
  assert (Hcom : findall_comments content
                 = map comment_text (List.filter is_comment_line (lines content))).
  { rewrite findall_comments_lines. apply comments_of_comment_lines. exact Hhash. }
  unfold count in Hcl.
  destruct (List.filter is_comment_line (lines content)) as [|l1 [|l2 [|l3 ls]]] eqn:Hf;
    try discriminate Hcl.
  cbn [map] in Hcom.
  exists (extract cleandoc path content tree), (comment_text l1), (comment_text l2).
  split; [rewrite parse_python_file_run, Hsrc, Hparse; reflexivity|].
  split; [reflexivity|]. cbn [extract docstrings comments].
  split.
  { rewrite (flat_map_count (fun n => is_module n && documented cleandoc n)) by apply docstring_of_modules.
    rewrite (count_permutation _ _ _ (walk_nodes tree)). exact Hmod. }
  split.
  { rewrite (flat_map_count (fun n => is_function n && documented cleandoc n))
      by apply docstring_of_functions.
    rewrite (count_permutation _ _ _ (walk_nodes tree)). exact Hfun. }
  split.
  { intros d Hd. apply in_flat_map in Hd. destruct Hd as (node & Hn & Hd).
    destruct (docstring_of_cleaned _ _ Hd) as (raw & Hr & Ht & Hne).
    exists node, raw. split; [|auto].
    apply (Permutation_in _ (walk_nodes tree)). exact Hn. }
  split; [exact Hcom|]. split; [reflexivity|].
  unfold file_comments. cbn [comments extract file_path]. rewrite Hcom. reflexivity.
Qed.

End WithParser.

Lemma one_file_yields_witness :
  exists fd c1 c2,
    parse_python_file sample_parse sample_cleandoc (u "sample.py") sample_files
    = (Return tt, collected sample_files fd)
    /\ file_path fd = u "sample.py"
    /\ count (has_type (u "Module")) (docstrings fd) = 1%nat
    /\ count (has_type (u "FunctionDef")) (docstrings fd) = 1%nat
    /\ (forall d, In d (docstrings fd) ->
          exists node raw, In node (nodes sample_tree) /\ raw_docstring node = Some raw
                           /\ d_docstring d = sample_cleandoc raw /\ d_docstring d <> [])
    /\ comments fd = [c1; c2]
    /\ [c1; c2] = map comment_text (List.filter is_comment_line (lines sample_source))
    /\ file_comments fd
       = [ Heading (u "Comments from " ++ u "sample.py") 2 false;
           Paragraph [strong (u "Comment " ++ str_of_int 1 ++ u ": "); plain (strip c1)];
           Paragraph [strong (u "Comment " ++ str_of_int 2 ++ u ": "); plain (strip c2)] ].
Proof.
  apply (one_file_yields sample_parse sample_cleandoc sample_files (u "sample.py")
           sample_source sample_tree).
  - vm_compute. reflexivity.
  - vm_compute. reflexivity.
  - vm_compute. reflexivity.
  - vm_compute. reflexivity.
  - vm_compute. reflexivity.
  - vm_compute. repeat constructor.
Defined.

(** C3, as stated, fails: a text with one module docstring, one function
    with a docstring and two comment lines yields three comments when the
    docstring holds a ['#']. *)
Lemma docstring_hash_counts_as_comment :
  source sample_files (u "hash.py") = inl hash_source
  /\ sample_parse hash_source = inl hash_tree
  /\ count (fun n => is_module n && documented sample_cleandoc n) (nodes hash_tree) = 1%nat
  /\ count (fun n => is_function n && documented sample_cleandoc n) (nodes hash_tree) = 1%nat
  /\ count is_comment_line (lines hash_source) = 2%nat
  /\ exists fd,
       parse_python_file sample_parse sample_cleandoc (u "hash.py") sample_files
       = (Return tt, collected sample_files fd)
       /\ count (has_type (u "Module")) (docstrings fd) = 1%nat
       /\ count (has_type (u "FunctionDef")) (docstrings fd) = 1%nat
       /\ comments fd = [u "1.'''"; u " a"; u " b"]
       /\ length (comments fd) = 3%nat.
Proof.
  repeat split; try (vm_compute; reflexivity).
  exists (extract sample_cleandoc (u "hash.py") hash_source hash_tree).
  repeat split; vm_compute; reflexivity.
Qed.

Lemma parse_failure_skips_file_witness :
  parse_python_file sample_parse sample_cleandoc (u "broken.py") sample_files
  = (Return tt,
     printed sample_files
       (error_line (u "broken.py") syntax_error))
  /\ (forall k : M unit,
        (parse_python_file sample_parse sample_cleandoc (u "broken.py") ;; k) sample_files
        = k (printed sample_files
               (error_line (u "broken.py") syntax_error)))
  /\ (forall before after,
        fst (parse_files sample_parse sample_cleandoc
               (before ++ u "broken.py" :: after) sample_files) = Return tt
        /\ comments_data
             (self (snd (parse_files sample_parse sample_cleandoc
                           (before ++ u "broken.py" :: after) sample_files)))
           = comments_data
               (self (snd (parse_files sample_parse sample_cleandoc
                             (before ++ after) sample_files)))
        /\ comments_data
             (self (snd (parse_files sample_parse sample_cleandoc
                           (before ++ after) sample_files)))
           = comments_data (self sample_files)
             ++ flat_map (entries sample_parse sample_cleandoc sample_files)
                  (before ++ after)).
Proof.
  apply (parse_failure_skips_file sample_parse sample_cleandoc sample_files
           (u "broken.py") syntax_error).
  right. exists (u "def f(:"). split; vm_compute; reflexivity.
Defined.

(** *** Writing the report *)

(** [cleanup_old_documentation], branch by branch. *)
Lemma cleanup_old_documentation_run w path :
  cleanup_old_documentation path w =
  (Return tt,
   match fs w !! path with
   | None => printed w (u "No old documentation found. Creating new file.")
   | Some f =>
       if removable f
       then printed (with_fs w (delete path (fs w))) (u "Deleted old documentation: " ++ path)
       else printed w (u "Warning: Could not delete old documentation: "
                         ++ message (io_error w path))
   end).
Proof.
  unfold cleanup_old_documentation, path_exists, try_except, os_remove, bind, get_world, ret.
  destruct (fs w !! path) as [f|] eqn:E.
  - rewrite bool_decide_eq_true_2 by (eexists; reflexivity). rewrite E.
    destruct (removable f); reflexivity.
  - rewrite bool_decide_eq_false_2 by (intros [? ?]; discriminate). reflexivity.
Qed.

Lemma cleaned_same w path :
  self (cleaned w path) = self w /\ io_error (cleaned w path) = io_error w
  /\ now (cleaned w path) = now w
  /\ creatable (cleaned w path) = creatable w
  /\ refused (cleaned w path) = refused w
  /\ fs (cleaned w path) !! path = kept (fs w !! path).
Proof.
  unfold cleaned, kept. rewrite cleanup_old_documentation_run. cbn [snd printed fs].
  destruct (fs w !! path) as [f|] eqn:E; [destruct (removable f)|];
    cbn [printed with_fs self io_error now creatable refused fs]; repeat split; auto.
  apply lookup_delete_eq.
Qed.

Lemma bind_return {W E A B} (c : Py.M W E A) (k : A -> Py.M W E B) w a w' :
  c w = (Return a, w') -> bind c k w = k a w'.
Proof. unfold bind. intros ->. reflexivity. Qed.

Lemma bind_raise {W E A B} (c : Py.M W E A) (k : A -> Py.M W E B) w e w' :
  c w = (Raise e, w') -> bind c k w = (Raise e, w').
Proof. unfold bind. intros ->. reflexivity. Qed.

(** Sequencing is associative. *)
Lemma bind_assoc {W E A B C} (c : Py.M W E A) (f : A -> Py.M W E B)
    (g : B -> Py.M W E C) (k : A -> Py.M W E C) w :
  (forall a w', bind (f a) g w' = k a w') ->
  bind (bind c f) g w = bind c k w.
Proof.
  intros H. unfold bind in *. destruct (c w) as [[a|e|] w']; try reflexivity.
  apply H.
Qed.

(** *** Appending blocks *)

Lemma refusal_app refuses a b :
  refusal refuses (a ++ b)
  = match refusal refuses a with
    | Some e => Some e
    | None => refusal refuses b
    end.
Proof.
  unfold refusal. induction a as [|x a IH]; [reflexivity|].
  cbn [app stored]. destruct (first_refusal refuses (texts x)); [reflexivity|].
  destruct (stored refuses (a ++ b)) as [d r]. destruct (stored refuses a) as [d' r'].
  exact IH.
Qed.

Lemma stored_accepted refuses bs :
  refusal refuses bs = None -> stored refuses bs = (bs, None).
Proof.
  unfold refusal. induction bs as [|b bs IH]; [reflexivity|].
  cbn [stored]. destruct (first_refusal refuses (texts b)); [discriminate|].
  destruct (stored refuses bs) as [d r]. cbn [snd] in *. intros ->.
  specialize (IH eq_refl). injection IH as ->. reflexivity.
Qed.

Lemma add_blocks_run bs w :
  refusal (refused w) bs = None -> add_blocks bs w = (Return tt, with_blocks w bs).
Proof.
  intros H. unfold add_blocks, bind, get_world. rewrite (stored_accepted _ _ H). reflexivity.
Qed.

Lemma add_blocks_aborts bs w e :
  refusal (refused w) bs = Some e -> aborts (add_blocks bs) w e.
Proof.
  unfold refusal, aborts, add_blocks, bind, get_world. intros H.
  destruct (stored (refused w) bs) as [d r]. cbn [snd] in H. subst r.
  eexists. split; [reflexivity|]. repeat split.
Qed.

Lemma with_blocks_twice w a b :
  with_blocks (with_blocks w a) b = with_blocks w (a ++ b).
Proof. unfold with_blocks; cbn [self fs creatable io_error refused stdout now doc comments_data].
  rewrite <- app_assoc. reflexivity. Qed.

(** A section that appends blocks of which none is refused. *)
Lemma section_run (c : M unit) bs w :
  c w = add_blocks bs w -> refusal (refused w) bs = None ->
  c w = (Return tt, with_blocks w bs).
Proof. intros ->. apply add_blocks_run. Qed.

Lemma section_last (c : M unit) bs w e :
  c w = add_blocks bs w -> refusal (refused w) bs = Some e -> aborts c w e.
Proof.
  intros Hc R. destruct (add_blocks_aborts bs w e R) as (w' & E & H).
  exists w'. rewrite Hc. auto.
Qed.

(** A section after blocks that are accepted. *)
Lemma aborts_after (c k : M unit) bs w e :
  c w = (Return tt, with_blocks w bs) -> aborts k (with_blocks w bs) e ->
  aborts (c ;; k) w e.
Proof.
  intros Hc (w' & E & H1 & H2 & H3). exists w'.
  rewrite (bind_return _ _ _ _ _ Hc). auto.
Qed.

Lemma aborts_first (c k : M unit) w e : aborts c w e -> aborts (c ;; k) w e.
Proof.
  intros (w' & E & H). exists w'. rewrite (bind_raise _ _ _ _ _ E). auto.
Qed.

(** One section of the document and what follows it. *)
Lemma section_aborts (c k : M unit) bs rest w e :
  c w = add_blocks bs w ->
  refusal (refused w) (bs ++ rest) = Some e ->
  (refusal (refused w) rest = Some e -> aborts k (with_blocks w bs) e) ->
  aborts (c ;; k) w e.
Proof.
  intros Hc H Hk. rewrite refusal_app in H.
  destruct (refusal (refused w) bs) as [e'|] eqn:R.
  - injection H as ->. apply aborts_first.
    destruct (add_blocks_aborts bs w e R) as (w' & E & H). exists w'. rewrite Hc. auto.
  - apply (aborts_after c k bs); [rewrite Hc; apply add_blocks_run; exact R|auto].
Qed.

Lemma create_title_page_run w :
  refusal (refused w) (title_page (now w 0)) = None ->
  create_title_page w = (Return tt, ticked (with_blocks w (title_page (now w 0)))).
Proof.
  change (title_page (now w 0))
    with ([Heading (u "Python Guessing Game Documentation") 0 true; Paragraph []]
            ++ title_page_date (now w 0)).
  rewrite refusal_app.
  destruct (refusal (refused w) [Heading (u "Python Guessing Game Documentation") 0 true;
                                 Paragraph []]) eqn:R1; [discriminate|].
  intros R2. unfold create_title_page.
  rewrite (bind_return _ _ _ tt _ (add_blocks_run _ _ R1)).
  rewrite (bind_return datetime_now _ (with_blocks w _) (now w 0)
             (ticked (with_blocks w _)) eq_refl).
  fold (title_page_date (now w 0)).
  rewrite (add_blocks_run (title_page_date (now w 0)) (ticked (with_blocks w _)) R2).
  unfold ticked, with_blocks; cbn [self fs creatable io_error refused stdout now doc comments_data].
  rewrite <- app_assoc. reflexivity.
Qed.

Lemma create_title_page_aborts w e :
  refusal (refused w) (title_page (now w 0)) = Some e -> aborts create_title_page w e.
Proof.
  change (title_page (now w 0))
    with ([Heading (u "Python Guessing Game Documentation") 0 true; Paragraph []]
            ++ title_page_date (now w 0)).
  intros H. unfold create_title_page.
  eapply (section_aborts
            (add_blocks [Heading (u "Python Guessing Game Documentation") 0 true;
                         Paragraph []]) _ _ (title_page_date (now w 0)));
    [reflexivity|exact H|intros R2].
  destruct (add_blocks_aborts (title_page_date (now w 0))
              (ticked (with_blocks w [Heading (u "Python Guessing Game Documentation") 0 true;
                                      Paragraph []])) e R2) as (w' & E & H1 & H2 & H3).
  exists w'. split; [|auto].
  rewrite (bind_return datetime_now _ (with_blocks w _) (now w 0)
             (ticked (with_blocks w _)) eq_refl). exact E.
Qed.

(** The six sections when no text is refused: the report, with the clock
    read once. *)
Lemma build_run w :
  refusal (refused w) (report (now w 0) (comments_data (self w))) = None ->
  build w = (Return tt, ticked (with_blocks w (report (now w 0) (comments_data (self w))))).
Proof.
  unfold report. rewrite !refusal_app.
  destruct (refusal (refused w) (title_page (now w 0))) eqn:R1; [discriminate|].
  destruct (refusal (refused w) table_of_contents) eqn:R2; [discriminate|].
  destruct (refusal (refused w) introduction) eqn:R3; [discriminate|].
  destruct (refusal (refused w) (file_documentation_section (comments_data (self w))))
    eqn:R4; [discriminate|].
  destruct (refusal (refused w) (class_function_section (comments_data (self w))))
    eqn:R5; [discriminate|].
  intros R6. unfold build.
  rewrite (bind_return _ _ _ tt _ (create_title_page_run w R1)).
  erewrite bind_return
    by (apply (section_run _ table_of_contents); [reflexivity|exact R2]).
  erewrite bind_return
    by (apply (section_run _ introduction); [reflexivity|exact R3]).
  erewrite bind_return
    by (apply (section_run _ (file_documentation_section (comments_data (self w))));
        [reflexivity|exact R4]).
  erewrite bind_return
    by (apply (section_run _ (class_function_section (comments_data (self w))));
        [reflexivity|exact R5]).
  erewrite (section_run create_comments_section
              (comments_section (comments_data (self w))))
    by first [reflexivity|exact R6].
  unfold ticked, with_blocks; cbn [self fs creatable io_error refused stdout now doc comments_data].
  rewrite <- !app_assoc. reflexivity.
Qed.

(** The six sections when a text is refused: the exception of the first
    such text is raised. *)
Lemma build_aborts w e :
  refusal (refused w) (report (now w 0) (comments_data (self w))) = Some e ->
  aborts build w e.
Proof.
  unfold report. rewrite refusal_app.
  destruct (refusal (refused w) (title_page (now w 0))) as [e1|] eqn:R1.
  { intros H. injection H as ->. apply aborts_first, create_title_page_aborts, R1. }
  intros H. unfold build.
  assert (Hframe : forall k,
            aborts k (ticked (with_blocks w (title_page (now w 0)))) e ->
            aborts (create_title_page ;; k) w e).
  { intros k (w' & E & H1 & H2 & H3). exists w'.
    rewrite (bind_return _ _ _ tt _ (create_title_page_run w R1)). auto. }
  apply Hframe. clear Hframe.
  eapply (section_aborts create_table_of_contents _ table_of_contents);
    [reflexivity|exact H|clear H; intros H].
  eapply (section_aborts create_introduction _ introduction);
    [reflexivity|exact H|clear H; intros H].
  eapply (section_aborts create_file_documentation _
            (file_documentation_section (comments_data (self w))));
    [reflexivity|exact H|clear H; intros H].
  eapply (section_aborts create_class_function_docs _
            (class_function_section (comments_data (self w))));
    [reflexivity|exact H|clear H; intros H].
  apply (section_last create_comments_section (comments_section (comments_data (self w))));
    [reflexivity|exact H].
Qed.

Lemma save_and_report_run w path :
  save_and_report path w =
  if can_write w path then (Return tt, finished w path (doc (self w)))
  else (Raise (io_error w path), w).
Proof.
  destruct w as [[d data] m cr os rf out t].
  unfold save_and_report, doc_save, finished, saved, summary, can_write.
  unfold bind at 1. unfold get_self at 1. cbn [self doc comments_data].
  unfold bind at 1. unfold bind at 1. unfold get_world at 1. cbn [fs io_error creatable].
  destruct (m !! path) as [[dt rd rm [|]]|]; cbn [writable readable removable];
    [| |destruct (cr path)]; try reflexivity;
    unfold set_fs, bind, print;
    cbn [self fs creatable io_error refused stdout now doc comments_data];
    rewrite <- ?app_assoc; reflexivity.
Qed.

Lemma can_write_cleaned w path bs :
  can_write (ticked (with_blocks (cleaned w path) bs)) path = can_save w path.
Proof.
  destruct (cleaned_same w path) as (_ & _ & _ & Hc & _ & Hl).
  unfold can_write, can_save. cbn [ticked with_blocks fs creatable]. rewrite Hl, Hc.
  unfold kept. destruct (fs w !! path) as [f|]; [destruct (removable f)|]; reflexivity.
Qed.

(** [generate_documentation] is its first line, the clean-up, the six
    sections, and the save with the summary. *)
Lemma generate_documentation_split w path :
  generate_documentation path w = (build ;; save_and_report path) (cleaned w path).
Proof.
  unfold generate_documentation.
  rewrite (bind_return _ _ w tt (printed w (u "Starting documentation generation..."))
             eq_refl).
  rewrite (bind_return _ _ _ tt (cleaned w path))
    by (unfold cleaned; rewrite cleanup_old_documentation_run; reflexivity).
  generalize (cleaned w path) as w1. intros w1. symmetry. unfold build.
  apply bind_assoc. intros [] w2.
  apply bind_assoc. intros [] w3.
  apply bind_assoc. intros [] w4.
  apply bind_assoc. intros [] w5.
  apply bind_assoc. intros [] w6.
  reflexivity.
Qed.

(** [generate_documentation], case by case: a text is refused, the save is
    refused, or the run returns. *)
Lemma generate_documentation_run w path :
  match refusal (refused w) (report (now w 0) (comments_data (self w))) with
  | Some e =>
      exists w', generate_documentation path w = (Raise e, w')
        /\ fs w' = fs (cleaned w path) /\ stdout w' = stdout (cleaned w path)
        /\ comments_data (self w') = comments_data (self w)
  | None =>
      generate_documentation path w =
      if can_save w path
      then (Return tt,
            finished (ticked (with_blocks (cleaned w path)
                                (report (now w 0) (comments_data (self w)))))
              path (doc (self w) ++ report (now w 0) (comments_data (self w))))
      else (Raise (io_error w path),
            ticked (with_blocks (cleaned w path)
                      (report (now w 0) (comments_data (self w)))))
  end.
Proof.
  rewrite generate_documentation_split.
  destruct (cleaned_same w path) as (Hs & Ho & Hn & _ & Hr & _).
  destruct (refusal (refused w) (report (now w 0) (comments_data (self w)))) as [e|] eqn:R.
  - destruct (build_aborts (cleaned w path) e) as (w' & E & H1 & H2 & H3).
    { rewrite Hs, Hn, Hr. exact R. }
    exists w'. rewrite (bind_raise _ _ _ _ _ E), <- Hs. auto.
  - rewrite (bind_return _ _ _ tt _ (build_run (cleaned w path)
                                       ltac:(rewrite Hs, Hn, Hr; exact R))).
    rewrite save_and_report_run. rewrite Hs, Hn, can_write_cleaned.
    cbn [ticked with_blocks self doc io_error]. rewrite Hs, Ho. reflexivity.
Qed.

Lemma finished_lookup w path body :
  fs (finished w path body) !! path = Some (saved (fs w !! path) body)
  /\ forall other, other <> path -> fs (finished w path body) !! other = fs w !! other.
Proof.
  unfold finished; cbn [fs]. split; [apply lookup_insert_eq|].
  intros other Hne. apply lookup_insert_ne. congruence.
Qed.

Lemma saved_data old body : data (saved old body) = Docx body.
Proof. destruct old; reflexivity. Qed.

Lemma cleaned_other w path other :
  other <> path -> fs (cleaned w path) !! other = fs w !! other.
Proof.
  intros Hne. unfold cleaned. rewrite cleanup_old_documentation_run. cbn [snd printed fs].
  destruct (fs w !! path) as [f|]; [destruct (removable f)|]; cbn [printed with_fs fs];
    try reflexivity.
  apply lookup_delete_ne. congruence.
Qed.

(** What a run of [generate_documentation] does to the files and to
    [comments_data], whatever its outcome. *)
Lemma generate_documentation_files w path :
  (fst (generate_documentation path w) = Return tt
   <-> refusal (refused w) (report (now w 0) (comments_data (self w))) = None
       /\ can_save w path = true)
  /\ (fst (generate_documentation path w) = Return tt ->
      exists f, fs (snd (generate_documentation path w)) !! path = Some f
        /\ data f = Docx (doc (self w) ++ report (now w 0) (comments_data (self w))))
  /\ (forall e, refusal (refused w) (report (now w 0) (comments_data (self w))) = Some e ->
      fst (generate_documentation path w) = Raise e
      /\ fs (snd (generate_documentation path w)) !! path = kept (fs w !! path))
  /\ (refusal (refused w) (report (now w 0) (comments_data (self w))) = None ->
      can_save w path = false ->
      fst (generate_documentation path w) = Raise (io_error w path)
      /\ fs (snd (generate_documentation path w)) !! path = kept (fs w !! path))
  /\ (forall other, other <> path ->
      fs (snd (generate_documentation path w)) !! other = fs w !! other)
  /\ comments_data (self (snd (generate_documentation path w))) = comments_data (self w).
Proof.
  pose proof (generate_documentation_run w path) as Hrun.
  destruct (cleaned_same w path) as (Hs & _ & _ & _ & _ & Hl).
  pose proof (cleaned_other w path) as Ho.
  destruct (refusal (refused w) (report (now w 0) (comments_data (self w)))) as [e|] eqn:R.
  - destruct Hrun as (w' & E & H1 & H2 & H3). rewrite E. cbn [fst snd]. rewrite H1, Hl.
    split; [split; [discriminate|intros [? _]; discriminate]|].
    split; [discriminate|].
    split; [intros e' He; injection He as ->; split; reflexivity|].
    split; [discriminate|].
    split; [|exact H3].
    intros other Hne. apply Ho. exact Hne.
  - rewrite Hrun. destruct (can_save w path) eqn:S; cbn [fst snd].
    + destruct (finished_lookup
                  (ticked (with_blocks (cleaned w path)
                             (report (now w 0) (comments_data (self w)))))
                  path (doc (self w) ++ report (now w 0) (comments_data (self w))))
        as [F1 F2].
      split; [split; [intros _; split; reflexivity|reflexivity]|].
      split; [intros _; eexists; split; [exact F1|apply saved_data]|].
      split; [discriminate|].
      split; [discriminate|].
      split.
      * intros other Hne. rewrite F2 by exact Hne. cbn [ticked with_blocks fs].
        apply Ho. exact Hne.
      * cbn [finished ticked with_blocks self comments_data]. rewrite Hs. reflexivity.
    + cbn [ticked with_blocks fs self comments_data]. rewrite Hl, Hs.
      split; [split; [discriminate|intros [_ ?]; discriminate]|].
      split; [discriminate|].
      split; [discriminate|].
      split; [intros _ _; split; reflexivity|].
      split; [|reflexivity].
      intros other Hne. apply Ho. exact Hne.
Qed.

(** C7.  [generate_documentation] first deals with a file already at the
    path: one that can be removed is removed; when the removal fails a
    warning is printed and the run goes on.  The document is then built and
    saved.  The run returns exactly when [python-docx] refuses no text of
    the report and the save is possible: the old file, which could not be
    removed, may be written, or there is no file any more and one may be
    created.  When it returns, the file at the path holds the document of
    this run, the blocks of the object followed by the report on its
    [comments_data] at the first reading of the clock, and nothing of the
    old file.  When a text is refused the exception of the first such text
    is raised, and when the save is refused that of the path; the path then
    holds the old file if it could not be removed and is free otherwise.
    No other path ever changes. *)
Theorem generate_documentation_replaces_file (w : World) (path : str) :
  (forall f, fs w !! path = Some f -> removable f = true ->
     cleanup_old_documentation path w
     = (Return tt,
        printed (with_fs w (delete path (fs w))) (u "Deleted old documentation: " ++ path))
     /\ delete path (fs w) !! path = None)
  /\ (forall f, fs w !! path = Some f -> removable f = false ->
        cleanup_old_documentation path w
        = (Return tt,
           printed w (u "Warning: Could not delete old documentation: "
                        ++ message (io_error w path))))
  /\ (fst (generate_documentation path w) = Return tt
      <-> refusal (refused w) (report (now w 0) (comments_data (self w))) = None
          /\ can_save w path = true)
  /\ (fst (generate_documentation path w) = Return tt ->
      exists f, fs (snd (generate_documentation path w)) !! path = Some f
        /\ data f = Docx (doc (self w) ++ report (now w 0) (comments_data (self w))))
  /\ (forall e, refusal (refused w) (report (now w 0) (comments_data (self w))) = Some e ->
      fst (generate_documentation path w) = Raise e
      /\ fs (snd (generate_documentation path w)) !! path = kept (fs w !! path))
  /\ (refusal (refused w) (report (now w 0) (comments_data (self w))) = None ->
      can_save w path = false ->
      fst (generate_documentation path w) = Raise (io_error w path)
      /\ fs (snd (generate_documentation path w)) !! path = kept (fs w !! path))
  /\ (forall other, other <> path ->
      fs (snd (generate_documentation path w)) !! other = fs w !! other)
  /\ (doc (self w) = [] ->
      doc (self w) ++ report (now w 0) (comments_data (self w))
      = report (now w 0) (comments_data (self w))).
Proof.
  split.
  { intros f Hf Hr. rewrite cleanup_old_documentation_run, Hf, Hr.
    split; [reflexivity|apply lookup_delete_eq]. }
  split.
  { intros f Hf Hr. rewrite cleanup_old_documentation_run, Hf, Hr. reflexivity. }
  destruct (generate_documentation_files w path) as (H1 & H2 & H3 & H4 & H5 & _).
  repeat (split; [assumption|]).
  intros ->. reflexivity.
Qed.

(** *** Examples *)

(** The scan on a text with doubled, trailing and lone ['#']. *)
Example findall_comments_example :
  findall_comments (u "a##" ++ nl ++ u "#" ++ nl ++ u "# x#" ++ nl ++ nl ++ u "#")
  = [u "#"; u " x#"].
Proof. vm_compute. reflexivity. Qed.

(** The walk over the sample tree, level by level: the module, its two
    statements, the constant of the first, then the arguments and the two
    statements of the function, then their constants. *)
Example walk_example :
  walk sample_tree
  = [ sample_tree;
      Expr (Constant (CStr (u "Game.")));
      FunctionDef (u "f") [Node []]
        [Expr (Constant (CStr (u "Doc."))); Node [Constant COther]] [];
      Constant (CStr (u "Game."));
      Node [];
      Expr (Constant (CStr (u "Doc.")));
      Node [Constant COther];
      Constant (CStr (u "Doc."));
      Constant COther ].
Proof. vm_compute. reflexivity. Qed.

(** What the sample file adds to [comments_data]. *)
Example extract_example :
  extract sample_cleandoc (u "sample.py") sample_source sample_tree
  = {| file_path := u "sample.py";
       comments := [u " a"; u " b "];
       docstrings :=
         [ {| d_type := u "Module"; d_name := u "Module"; d_docstring := u "Game." |};
           {| d_type := u "FunctionDef"; d_name := u "f"; d_docstring := u "Doc." |} ] |}.
Proof. vm_compute. reflexivity. Qed.

(** [main] where neither of its two files exists: both are skipped, and an
    empty report is written. *)
Example main_example :
  fst (main sample_parse sample_cleandoc sample_files) = Return tt
  /\ comments_data (self (snd (main sample_parse sample_cleandoc sample_files))) = []
  /\ stdout (snd (main sample_parse sample_cleandoc sample_files))
     = [ u "Error parsing file guessing_game.py: [Errno 2] No such file or directory";
         u "Error parsing file documentation_generator.py: [Errno 2] No such file or directory";
         u "Starting documentation generation...";
         u "No old documentation found. Creating new file.";
         u "Documentation generated successfully: Guessing_Game_Documentation.docx";
         u "Total files processed: 0";
         u "Total comments extracted: 0";
         u "Total docstrings extracted: 0" ]
  /\ data <$> fs (snd (main sample_parse sample_cleandoc sample_files))
              !! u "Guessing_Game_Documentation.docx"
     = Some (Docx (report (now sample_files 0) [])).
Proof. vm_compute. repeat split; reflexivity. Qed.

(** A docstring with a form feed: the old report is removed, the sections
    are built up to the heading of the function, then the text is refused
    and the run raises; no report is left. *)
Example refused_text_example :
  fst (generate_documentation report_path form_feed_files) = Raise xml_error
  /\ fs (snd (generate_documentation report_path form_feed_files)) !! report_path = None
  /\ stdout (snd (generate_documentation report_path form_feed_files))
     = [ u "Starting documentation generation...";
         u "Deleted old documentation: report.docx" ]
  /\ last (doc (self (snd (generate_documentation report_path form_feed_files))))
     = Some Unfinished.
Proof. vm_compute. repeat split; reflexivity. Qed.

(** No file can be created: the document is built, and saving raises. *)
Example refused_save_example :
  fst (generate_documentation report_path read_only_files)
  = Raise {| message := u "[Errno 13] Permission denied" |}
  /\ fs (snd (generate_documentation report_path read_only_files)) !! report_path = None
  /\ stdout (snd (generate_documentation report_path read_only_files))
     = [ u "Starting documentation generation...";
         u "No old documentation found. Creating new file." ]
  /\ doc (self (snd (generate_documentation report_path read_only_files)))
     = report (now read_only_files 0) [].
Proof. vm_compute. repeat split; reflexivity. Qed.

(** *** The comment pattern and the text *)

Lemma lines_app a b : lines (a ++ 10%N :: b) = lines a ++ lines b.
Proof.
  induction a as [|c a IH]; [reflexivity|].
  cbn [app lines]. destruct (c =? 10)%N; [rewrite IH; reflexivity|].
  rewrite IH. pose proof (lines_nonempty a) as Hne.
  destruct (lines a) as [|hd tl]; [contradiction|reflexivity].
Qed.

(** X12.  The comments of two texts joined by a line feed are those of the
    first followed by those of the second: the scan never matches across a
    line feed. *)
Theorem findall_comments_app (a b : str) :
  findall_comments (a ++ nl ++ b) = findall_comments a ++ findall_comments b.
Proof.
  rewrite !findall_comments_lines. unfold nl. cbn [app].
  rewrite lines_app. apply flat_map_app.
Qed.

Lemma join_app l1 line l2 :
  exists pre post,
    join (l1 ++ line :: l2) = pre ++ line ++ post
    /\ (post = [] \/ exists t, post = 10%N :: t).
Proof.
  assert (Hpost : exists post, join (line :: l2) = line ++ post
                    /\ (post = [] \/ exists t, post = 10%N :: t)).
  { destruct l2 as [|x l2].
    - exists []. cbn [join]. rewrite app_nil_r. auto.
    - exists (10%N :: join (x :: l2)). split; [reflexivity|]. right. eexists. reflexivity. }
  destruct Hpost as (post & Hj & Hp).
  induction l1 as [|x l1 IH].
  - exists [], post. auto.
  - destruct IH as (pre & post' & E & Hp').
    exists (x ++ 10%N :: pre), post'. split; [|assumption].
    cbn [app join]. destruct (l1 ++ line :: l2) as [|y r] eqn:El.
    + destruct l1; discriminate El.
    + rewrite E, <- app_assoc. reflexivity.
Qed.

Lemma line_comment_length line : (length (line_comment line) <= 1)%nat.
Proof. unfold line_comment. destruct (after_hash line) as [[|c t]|]; cbn [length]; lia. Qed.

Lemma after_hash_none line : ~ In 35%N line -> after_hash line = None.
Proof.
  induction line as [|c r IH]; [reflexivity|].
  intros Hn. cbn [after_hash]. destruct (N.eqb_spec c 35) as [->|_].
  - destruct Hn. left. reflexivity.
  - apply IH. intros H. apply Hn. right. exact H.
Qed.

Lemma lines_in s line c : In line (lines s) -> In c line -> In c s.
Proof.
  intros Hl Hc. apply in_split in Hl. destruct Hl as (l1 & l2 & El).
  destruct (join_app l1 line l2) as (pre & post & E & _).
  rewrite <- El, join_lines in E. rewrite E, !in_app_iff. auto.
Qed.

(** X13.  Every comment found is a piece of the text: it follows a ['#'], is
    not empty, and runs to the end of its line and no further.  A line
    yields one comment at most, and a text without a ['#'] yields none. *)
Theorem findall_comments_pieces (content : str) :
  (forall c, In c (findall_comments content) ->
     exists pre post,
       content = pre ++ 35%N :: c ++ post
       /\ c <> [] /\ ~ In 10%N c
       /\ (post = [] \/ exists t, post = 10%N :: t))
  /\ (length (findall_comments content) <= length (lines content))%nat
  /\ (~ In 35%N content -> findall_comments content = []).
Proof.
  rewrite findall_comments_lines. split; [|split].
  - intros c Hc. apply in_flat_map in Hc. destruct Hc as (line & Hl & Hc).
    destruct (line_comment_origin line c Hc) as (p & -> & _ & Hne & _).
    pose proof (lines_no_newline content) as Hnl.
    apply (proj1 (List.Forall_forall _ _) Hnl) in Hl as Hno.
    apply in_split in Hl. destruct Hl as (l1 & l2 & El).
    destruct (join_app l1 (p ++ 35%N :: c) l2) as (pre & post & E & Hp).
    rewrite <- El, join_lines in E.
    exists (pre ++ p), post. split; [|split; [assumption|split; [|assumption]]].
    + rewrite E, <- !app_assoc. reflexivity.
    + intros H. apply Hno. rewrite in_app_iff. right. right. exact H.
  - induction (lines content) as [|line ls IH]; [reflexivity|].
    cbn [flat_map]. rewrite List.length_app. pose proof (line_comment_length line).
    cbn [length]. lia.
  - intros Hn.
    assert (Hall : Forall (fun line => line_comment line = []) (lines content)).
    { apply List.Forall_forall. intros line Hl. unfold line_comment.
      rewrite after_hash_none; [reflexivity|].
      intros H. apply Hn. exact (lines_in _ _ _ Hl H). }
    induction Hall as [|line ls Hl _ IH]; [reflexivity|].
    cbn [flat_map]. rewrite Hl, IH. reflexivity.
Qed.

Section Parsing.
Variable ast_parse : str -> ast + error.
Variable cleandoc : str -> str.

(** *** Parsing, whatever the file *)

(** X14.  [parse_python_file] never raises and never touches a file or the
    document.  A path that is read and parsed adds one element to
    [comments_data], under that path, and prints nothing; any other path
    prints one line of error and adds nothing. *)
Theorem parse_python_file_never_raises (w : World) (path : str) :
  fst (parse_python_file ast_parse cleandoc path w) = Return tt
  /\ fs (snd (parse_python_file ast_parse cleandoc path w)) = fs w
  /\ doc (self (snd (parse_python_file ast_parse cleandoc path w))) = doc (self w)
  /\ ((parses ast_parse w path = true
       /\ exists fd, snd (parse_python_file ast_parse cleandoc path w) = collected w fd
                     /\ file_path fd = path)
      \/ (parses ast_parse w path = false
          /\ exists e, snd (parse_python_file ast_parse cleandoc path w)
                       = printed w (error_line path e))).
Proof.
  rewrite parse_python_file_run. unfold parses.
  destruct (source w path) as [content|e]; [destruct (ast_parse content) as [tree|e]|];
    cbn [fst snd collected printed fs self doc]; repeat split.
  - left. split; [reflexivity|]. eexists. split; reflexivity.
  - right. split; [reflexivity|]. eexists. reflexivity.
  - right. split; [reflexivity|]. eexists. reflexivity.
Qed.

(** Parsing does not change what a later path yields. *)
Lemma parses_same w1 w path :
  fs w1 = fs w -> io_error w1 = io_error w ->
  parses ast_parse w1 path = parses ast_parse w path.
Proof. intros Hfs Hio. unfold parses, source. rewrite Hfs, Hio. reflexivity. Qed.

(** The paths among [paths] that are read and parsed are those that add
    an element. *)
Lemma entries_paths w paths :
  map file_path (flat_map (entries ast_parse cleandoc w) paths)
  = List.filter (parses ast_parse w) paths.
Proof.
  induction paths as [|path rest IH]; [reflexivity|].
  cbn [flat_map List.filter]. rewrite map_app, IH. unfold entries, parses.
  destruct (source w path) as [content|e]; [destruct (ast_parse content) as [tree|e]|];
    reflexivity.
Qed.

(** One line is printed for every path that fails. *)
Lemma parse_files_lines w0 : forall paths w,
  fs w = fs w0 -> io_error w = io_error w0 ->
  length (stdout (snd (parse_files ast_parse cleandoc paths w)))
  = (length (stdout w)
     + length (List.filter (fun p => negb (parses ast_parse w0 p)) paths))%nat.
Proof.
  induction paths as [|path rest IH]; intros w Hfs Hio.
  - cbn [parse_files List.filter length]. unfold ret. cbn [snd]. lia.
  - cbn [parse_files]. unfold bind. rewrite parse_python_file_run.
    set (failed := fun p => negb (parses ast_parse w0 p)) in *.
    cbn [List.filter]. unfold failed at 1.
    rewrite <- (parses_same w w0 path Hfs Hio). unfold parses.
    destruct (source w path) as [content|e]; [destruct (ast_parse content) as [tree|e]|];
      rewrite IH by assumption; cbn [collected printed stdout negb length];
      rewrite ?List.length_app; cbn [length]; lia.
Qed.

Lemma filter_partition {A} (p : A -> bool) (l : list A) :
  (length (List.filter p l) + length (List.filter (fun x => negb (p x)) l) = length l)%nat.
Proof.
  induction l as [|x l IH]; [reflexivity|]. cbn [List.filter].
  destruct (p x); cbn [negb length]; lia.
Qed.

(** X15.  Of the files parsed in turn every one is accounted for: those that are
    read and parsed are in [comments_data], in the order given, and there is
    one line of error for each of the others. *)
Theorem parse_files_accounts_for_every_file (paths : list str) (w : World) :
  map file_path (comments_data (self (snd (parse_files ast_parse cleandoc paths w))))
  = map file_path (comments_data (self w)) ++ List.filter (parses ast_parse w) paths
  /\ length (stdout (snd (parse_files ast_parse cleandoc paths w)))
     = (length (stdout w) + count (fun p => negb (parses ast_parse w p)) paths)%nat
  /\ (length (comments_data (self (snd (parse_files ast_parse cleandoc paths w))))
      + length (stdout (snd (parse_files ast_parse cleandoc paths w)))
      = length (comments_data (self w)) + length (stdout w) + length paths)%nat.
Proof.
  destruct (parse_files_run ast_parse cleandoc paths w) as (w' & E & _ & _ & _ & _ & D).
  pose proof (parse_files_lines w paths w eq_refl eq_refl) as L.
  rewrite E in *. cbn [snd] in *.
  split; [rewrite D, map_app, entries_paths; reflexivity|].
  split; [exact L|].
  rewrite L, D, List.length_app.
  rewrite <- (List.length_map file_path (flat_map _ _)), entries_paths.
  pose proof (filter_partition (parses ast_parse w) paths). lia.
Qed.

End Parsing.

Section Docstrings.
Variable cleandoc : str -> str.

(** *** Docstrings, node by node *)

(** A node adds one entry when it is documented, and none otherwise. *)
Lemma docstring_of_length node :
  length (docstring_of cleandoc node) = (if documented cleandoc node then 1 else 0)%nat.
Proof.
  unfold documented, docstring_of, get_docstring.
  destruct node as [body|name pre body post|name pre body post|value|value|children];
    try reflexivity.
  all: destruct body as [|[| | |[| | | |[raw|]|]| |] rest]; try reflexivity.
  all: cbn [raw_docstring]; destruct (cleandoc raw); reflexivity.
Qed.

Lemma docstring_of_types node d :
  In d (docstring_of cleandoc node) ->
  In (d_type d) [u "Module"; u "FunctionDef"; u "ClassDef"].
Proof.
  unfold docstring_of, get_docstring.
  destruct node as [body|name pre body post|name pre body post|value|value|children];
    try (intros []).
  all: destruct body as [|[| | |[| | | |[raw|]|]| |] rest]; try (intros []).
  all: destruct (cleandoc raw); [intros []|]; intros [<-|[]]; cbn [d_type In]; auto.
Qed.

Lemma flat_map_length_count (l : list ast) :
  length (flat_map (docstring_of cleandoc) l) = count (documented cleandoc) l.
Proof.
  induction l as [|n l IH]; [reflexivity|].
  cbn [flat_map]. rewrite List.length_app, IH, docstring_of_length. unfold count.
  cbn [List.filter]. destruct (documented cleandoc n); reflexivity.
Qed.

(** The walk starts at the tree. *)
Lemma walk_head tree : exists rest, walk tree = tree :: rest.
Proof. unfold walk. rewrite size_children. cbn [walk_queue]. eexists. reflexivity. Qed.

(** X16.  The docstrings found in a tree are those of its documented modules,
    functions and classes, one entry for each, however deep it is nested:
    an entry is found exactly when some node of the tree adds it, and there
    are as many entries as documented nodes.  The entry of the tree itself
    comes first.  No entry has an empty text, and every entry is of one of
    the three types. *)
Theorem docstrings_of_every_node (path content : str) (tree : ast) :
  (forall d, In d (docstrings (extract cleandoc path content tree)) <->
     exists node, In node (nodes tree) /\ docstring_of cleandoc node = [d])
  /\ length (docstrings (extract cleandoc path content tree))
     = count (documented cleandoc) (nodes tree)
  /\ (exists rest,
        docstrings (extract cleandoc path content tree) = docstring_of cleandoc tree ++ rest)
  /\ (forall d, In d (docstrings (extract cleandoc path content tree)) ->
        d_docstring d <> []
        /\ In (d_type d) [u "Module"; u "FunctionDef"; u "ClassDef"]).
Proof.
  cbn [extract docstrings]. pose proof (walk_nodes tree) as Hperm.
  split; [|split; [|split]].
  - intros d. rewrite in_flat_map. split.
    + intros (node & Hn & Hd). exists node.
      split; [exact (Permutation_in _ Hperm Hn)|].
      pose proof (docstring_of_length node) as Hlen.
      destruct (docstring_of cleandoc node) as [|d' [|d'' l]]; [destruct Hd| |].
      * destruct Hd as [->|[]]. reflexivity.
      * destruct (documented cleandoc node); discriminate Hlen.
    + intros (node & Hn & Hd). exists node.
      split; [exact (Permutation_in _ (Permutation_sym Hperm) Hn)|].
      rewrite Hd. left. reflexivity.
  - rewrite flat_map_length_count. apply count_permutation. exact Hperm.
  - destruct (walk_head tree) as [rest ->]. cbn [flat_map]. eexists. reflexivity.
  - intros d Hd. apply in_flat_map in Hd. destruct Hd as (node & _ & Hd). split.
    + destruct (docstring_of_cleaned cleandoc node d Hd) as (raw & _ & _ & Hne). exact Hne.
    + exact (docstring_of_types node d Hd).
Qed.

(** *** The order of the walk *)

Lemma sizes_children l : sizes l = (length l + sizes (children l))%nat.
Proof.
  induction l as [|n l IH]; [reflexivity|].
  unfold children in *. cbn [sizes flat_map length]. rewrite sizes_app, size_children. lia.
Qed.

(** The queue yields the nodes at its front as they are, and puts their
    children behind what was waiting. *)
Lemma walk_queue_front : forall front fuel waiting,
  walk_queue (length front + fuel) (front ++ waiting)
  = front ++ walk_queue fuel (waiting ++ children front).
Proof.
  induction front as [|node front IH]; intros fuel waiting.
  - cbn [length app children flat_map]. rewrite app_nil_r. reflexivity.
  - cbn [length app walk_queue plus]. f_equal. rewrite <- app_assoc, IH.
    unfold children. cbn [flat_map]. rewrite <- app_assoc. reflexivity.
Qed.

(** With fuel and depth for every node, the queue yields its trees level
    by level. *)
Lemma walk_queue_levels : forall depth level fuel,
  (sizes level <= fuel)%nat -> (sizes level <= depth)%nat ->
  walk_queue fuel level = level_order depth level.
Proof.
  induction depth as [|depth IH]; intros level fuel Hf Hd.
  - destruct level as [|node level]; [destruct fuel; reflexivity|].
    cbn [sizes] in Hd. rewrite size_children in Hd. lia.
  - destruct level as [|node level]; [destruct fuel; reflexivity|].
    pose proof (sizes_children (node :: level)) as Hs.
    pose proof (walk_queue_front (node :: level) (fuel - length (node :: level)) []) as Hq.
    rewrite app_nil_r in Hq. cbn [length] in Hs, Hq.
    replace (S (length level) + (fuel - S (length level)))%nat with fuel in Hq by lia.
    rewrite Hq. cbn [level_order app]. do 2 f_equal.
    apply IH; lia.
Qed.

(** X17.  The docstrings are listed level by level: that of the module first,
    then those of the classes and functions at the top of the file, in their
    order, then those of the classes and functions inside these, and so on.
    The levels are those of the whole tree: more depth adds nothing. *)
Theorem docstrings_level_by_level (path content : str) (tree : ast) :
  walk tree = level_order (size tree) [tree]
  /\ docstrings (extract cleandoc path content tree)
     = flat_map (docstring_of cleandoc) (level_order (size tree) [tree])
  /\ (forall more, level_order (size tree + more) [tree] = level_order (size tree) [tree]).
Proof.
  assert (Hsz : sizes [tree] = size tree) by (cbn [sizes]; lia).
  assert (Hwalk : walk tree = level_order (size tree) [tree]).
  { unfold walk. apply walk_queue_levels; lia. }
  split; [exact Hwalk|]. split; [cbn [extract docstrings]; rewrite Hwalk; reflexivity|].
  intros more. rewrite <- (walk_queue_levels (size tree + more) [tree] (size tree)) by lia.
  apply walk_queue_levels; lia.
Qed.

(** *** The report, entry by entry *)

Lemma module_entries (ds : list docstring_entry) :
  flat_map (fun d => if str_eqb (d_type d) (u "Module")
                     then [Paragraph [strong (u "Module Documentation:");
                                      plain (nl ++ d_docstring d)]]
                     else []) ds
  = map module_paragraph (List.filter (has_type (u "Module")) ds).
Proof.
  induction ds as [|d ds IH]; [reflexivity|].
  cbn [flat_map List.filter]. unfold has_type at 1.
  destruct (str_eqb (d_type d) (u "Module")); cbn [map app]; rewrite IH; reflexivity.
Qed.

Lemma other_entries (ds : list docstring_entry) :
  Forall (fun d => In (d_type d) [u "Module"; u "FunctionDef"; u "ClassDef"]) ds ->
  flat_map (fun d => if str_eqb (d_type d) (u "ClassDef") || str_eqb (d_type d) (u "FunctionDef")
                     then [ Heading (d_type d ++ u ": " ++ d_name d) 3 false;
                            Paragraph [plain (d_docstring d)];
                            Paragraph [] ]
                     else []) ds
  = flat_map entry_blocks (List.filter (fun d => negb (has_type (u "Module") d)) ds).
Proof.
  induction 1 as [|d ds Hd _ IH]; [reflexivity|].
  cbn [flat_map List.filter]. rewrite IH.
  assert (Ht : str_eqb (d_type d) (u "ClassDef") || str_eqb (d_type d) (u "FunctionDef")
               = negb (has_type (u "Module") d)).
  { unfold has_type. destruct Hd as [E|[E|[E|[]]]]; rewrite <- E; vm_compute; reflexivity. }
  rewrite Ht. destruct (negb (has_type (u "Module") d)); reflexivity.
Qed.

(** X18.  Nothing that was found is lost in the report.  Of the docstrings of a
    file, those of type [Module] are shown in the file section, one
    paragraph each, and all the others in the section of classes and
    functions, a heading and a paragraph each, in the order found. *)
Theorem report_shows_every_docstring (path content : str) (tree : ast) :
  file_documentation (extract cleandoc path content tree)
  = Heading (u "File: " ++ path) 2 false
    :: map module_paragraph
         (List.filter (has_type (u "Module"))
            (docstrings (extract cleandoc path content tree)))
  /\ class_function_docs (extract cleandoc path content tree)
     = flat_map entry_blocks
         (List.filter (fun d => negb (has_type (u "Module") d))
            (docstrings (extract cleandoc path content tree)))
  /\ Permutation
       (docstrings (extract cleandoc path content tree))
       (List.filter (has_type (u "Module")) (docstrings (extract cleandoc path content tree))
        ++ List.filter (fun d => negb (has_type (u "Module") d))
             (docstrings (extract cleandoc path content tree))).
Proof.
  split; [|split].
  - unfold file_documentation. rewrite module_entries. reflexivity.
  - unfold class_function_docs. apply other_entries.
    apply List.Forall_forall. intros d Hd. cbn [extract docstrings] in Hd.
    apply in_flat_map in Hd. destruct Hd as (node & _ & Hd).
    exact (docstring_of_types node d Hd).
  - generalize (docstrings (extract cleandoc path content tree)). intros ds.
    induction ds as [|d ds IH]; [constructor|].
    cbn [List.filter]. destruct (has_type (u "Module") d); cbn [negb app].
    + apply perm_skip. exact IH.
    + apply Permutation_cons_app. exact IH.
Qed.

End Docstrings.

(** *** Comments, numbered *)

Lemma comment_paragraphs_nth : forall (cs : list str) (i : Z) (k : nat) (c : str),
  nth_error cs k = Some c ->
  nth_error (comment_paragraphs i cs) k = Some (comment_paragraph (i + Z.of_nat k) c).
Proof.
  induction cs as [|x cs IH]; intros i k c; [destruct k; discriminate|].
  destruct k as [|k]; cbn [nth_error comment_paragraphs].
  - intros [= ->]. rewrite Z.add_0_r. reflexivity.
  - intros H. rewrite (IH (i + 1)%Z k c H). do 2 f_equal. lia.
Qed.

Lemma comment_paragraphs_length : forall (cs : list str) (i : Z),
  length (comment_paragraphs i cs) = length cs.
Proof.
  induction cs as [|x cs IH]; intros i; cbn [comment_paragraphs length];
    [|rewrite IH]; reflexivity.
Qed.

(** X19.  In the comments section a file has its heading, and then one
    paragraph for each comment, in order, numbered from 1, with the comment
    stripped of the blanks around it.  A file without comments has the one
    paragraph that says so. *)
Theorem comments_are_numbered (fd : file_data) :
  (comments fd = [] ->
   file_comments fd
   = [ Heading (u "Comments from " ++ file_path fd) 2 false;
       Paragraph [plain (u "No comments found in this file.")] ])
  /\ (comments fd <> [] -> length (file_comments fd) = S (length (comments fd)))
  /\ (forall k c, nth_error (comments fd) k = Some c ->
        nth_error (file_comments fd) (S k)
        = Some (comment_paragraph (Z.of_nat k + 1) c)).
Proof.
  unfold file_comments. split; [|split].
  - intros ->. reflexivity.
  - intros Hne. destruct (comments fd) as [|c cs]; [contradiction|].
    cbn [length]. rewrite comment_paragraphs_length. reflexivity.
  - intros k c H. cbn [nth_error].
    destruct (comments fd) as [|x cs]; [destruct k; discriminate|].
    rewrite (comment_paragraphs_nth _ 1%Z k c H). do 2 f_equal. lia.
Qed.

(** *** The outline of the report *)

Lemma headings_app level a b : headings level (a ++ b) = headings level a ++ headings level b.
Proof. apply flat_map_app. Qed.

Lemma headings_heading level title l c bs :
  headings level (Heading title l c :: bs)
  = (if Nat.eqb l level then [title] else []) ++ headings level bs.
Proof. reflexivity. Qed.

Lemma headings_flat_map {A} level (f : A -> list block) (g : A -> list str) (l : list A) :
  (forall x, headings level (f x) = g x) ->
  headings level (flat_map f l) = flat_map g l.
Proof.
  intros H. induction l as [|x l IH]; [reflexivity|].
  cbn [flat_map]. rewrite headings_app, H, IH. reflexivity.
Qed.

Lemma headings_comment_paragraphs level : forall (cs : list str) (i : Z),
  headings level (comment_paragraphs i cs) = [].
Proof. induction cs as [|c cs IH]; intros i; [reflexivity|]. cbn [comment_paragraphs]. apply IH. Qed.

Lemma headings_file_documentation level fd :
  headings level (file_documentation fd)
  = if Nat.eqb 2 level then [u "File: " ++ file_path fd] else [].
Proof.
  unfold file_documentation. rewrite headings_heading.
  assert (Hp : headings level
                 (flat_map (fun d => if str_eqb (d_type d) (u "Module")
                                     then [Paragraph [strong (u "Module Documentation:");
                                                      plain (nl ++ d_docstring d)]]
                                     else []) (docstrings fd)) = []).
  { induction (docstrings fd) as [|d ds IH]; [reflexivity|].
    cbn [flat_map]. rewrite headings_app, IH.
    destruct (str_eqb (d_type d) (u "Module")); reflexivity. }
  rewrite Hp, app_nil_r. reflexivity.
Qed.

Lemma headings_class_function_docs level fd :
  headings level (class_function_docs fd)
  = if Nat.eqb 3 level
    then map (fun d => d_type d ++ u ": " ++ d_name d)
           (List.filter class_or_function (docstrings fd))
    else [].
Proof.
  unfold class_function_docs.
  induction (docstrings fd) as [|d ds IH].
  - destruct (Nat.eqb 3 level); reflexivity.
  - cbn [flat_map List.filter]. rewrite headings_app, IH. unfold class_or_function at 2.
    destruct (str_eqb (d_type d) (u "ClassDef") || str_eqb (d_type d) (u "FunctionDef"));
      cbn [headings flat_map app]; destruct (Nat.eqb 3 level); reflexivity.
Qed.

Lemma headings_file_comments level fd :
  headings level (file_comments fd)
  = if Nat.eqb 2 level then [u "Comments from " ++ file_path fd] else [].
Proof.
  unfold file_comments. rewrite headings_heading.
  destruct (comments fd) as [|c cs]; [apply app_nil_r|].
  rewrite headings_comment_paragraphs. apply app_nil_r.
Qed.

(** X20.  The outline of the report, whatever the data.  It has one title.  Its
    headings of level 1 are the table of contents and the four sections, and
    the table of contents lists the titles of these four, in their order.
    Every file has one heading of level 2 in the file section and one in the
    comments section, in the order of [comments_data]; the headings of level
    3 are those of the entries of classes and functions. *)
Theorem report_outline (current_date : str) (data : list file_data) :
  headings 0 (report current_date data) = [u "Python Guessing Game Documentation"]
  /\ headings 1 (report current_date data) = u "Table of Contents" :: section_titles
  /\ table_of_contents
     = [ Heading (u "Table of Contents") 1 false;
         Paragraph (map (fun title => strong (title ++ nl)) section_titles);
         PageBreak ]
  /\ headings 2 (report current_date data)
     = map (fun fd => u "File: " ++ file_path fd) data
       ++ map (fun fd => u "Comments from " ++ file_path fd) data
  /\ headings 3 (report current_date data)
     = flat_map (fun fd => map (fun d => d_type d ++ u ": " ++ d_name d)
                             (List.filter class_or_function (docstrings fd))) data.
Proof.
  assert (Hlevel : forall level,
    headings level (report current_date data)
    = headings level (title_page current_date) ++ headings level table_of_contents
      ++ headings level introduction
      ++ (if Nat.eqb 1 level then [u "2. File Documentation"] else [])
      ++ flat_map (fun fd => if Nat.eqb 2 level then [u "File: " ++ file_path fd] else []) data
      ++ (if Nat.eqb 1 level then [u "3. Class and Function Documentation"] else [])
      ++ flat_map (fun fd => if Nat.eqb 3 level
                             then map (fun d => d_type d ++ u ": " ++ d_name d)
                                    (List.filter class_or_function (docstrings fd))
                             else []) data
      ++ (if Nat.eqb 1 level then [u "4. Code Comments"] else [])
      ++ flat_map (fun fd => if Nat.eqb 2 level then [u "Comments from " ++ file_path fd]
                             else []) data).
  { intros level. unfold report, file_documentation_section, class_function_section,
      comments_section.
    rewrite !headings_app, !headings_heading.
    rewrite (headings_flat_map level _ _ data (headings_file_documentation level)).
    rewrite (headings_flat_map level _ _ data (headings_class_function_docs level)).
    rewrite (headings_flat_map level _ _ data (headings_file_comments level)).
    rewrite <- !app_assoc. reflexivity. }
  assert (Hnone : forall A (l : list A), flat_map (fun _ : A => @nil str) l = []).
  { intros A l. induction l as [|x l IH]; [reflexivity|exact IH]. }
  assert (Hone : forall A (g : A -> str) (l : list A), flat_map (fun x => [g x]) l = map g l).
  { intros A g l. induction l as [|x l IH]; [reflexivity|]. cbn [flat_map map app]. now rewrite IH. }
  split; [|split; [|split; [|split]]]; [| |reflexivity| |];
    rewrite Hlevel; cbn [Nat.eqb]; rewrite ?Hnone, ?Hone;
    cbn [headings title_page table_of_contents introduction flat_map Nat.eqb app];
    rewrite ?app_nil_r; reflexivity.
Qed.

(** *** Cleaning up, saving, and saving again *)

(** X21.  [cleanup_old_documentation] never raises, prints one line, and leaves
    the object and every other path as they were.  With no file at the path
    it changes no file.  After it the path is free, or holds the old file,
    which could not be removed. *)
Theorem cleanup_old_documentation_frame (w : World) (path : str) :
  fst (cleanup_old_documentation path w) = Return tt
  /\ self (snd (cleanup_old_documentation path w)) = self w
  /\ (forall other, other <> path ->
        fs (snd (cleanup_old_documentation path w)) !! other = fs w !! other)
  /\ (exists line, stdout (snd (cleanup_old_documentation path w)) = stdout w ++ [line])
  /\ (fs w !! path = None ->
      snd (cleanup_old_documentation path w)
      = printed w (u "No old documentation found. Creating new file."))
  /\ (fs (snd (cleanup_old_documentation path w)) !! path = None
      \/ exists f, fs w !! path = Some f /\ removable f = false
                   /\ fs (snd (cleanup_old_documentation path w)) = fs w).
Proof.
  rewrite cleanup_old_documentation_run. cbn [fst snd].
  destruct (fs w !! path) as [f|] eqn:E; [destruct (removable f) eqn:Hr|];
    cbn [printed with_fs self fs stdout].
  - repeat split; try discriminate.
    + intros other Hne. apply lookup_delete_ne. congruence.
    + eexists. reflexivity.
    + left. apply lookup_delete_eq.
  - repeat split; try discriminate.
    + eexists. reflexivity.
    + right. exists f. auto.
  - repeat split.
    + eexists. reflexivity.
    + left. exact E.
Qed.

Lemma total_length {A} (key : file_data -> list A) (l : list file_data) :
  total key l = Z.of_nat (length (flat_map key l)).
Proof.
  induction l as [|fd l IH]; [reflexivity|].
  cbn [total fold_right flat_map]. fold (total key l).
  rewrite IH, List.length_app. lia.
Qed.

(** X22.  What [generate_documentation] prints: its first line, the line of the
    clean-up, and, once the document is saved, the path and the numbers of
    files, comments and docstrings in [comments_data].  A run that does not
    return raises, while the document is built or when it is saved, and
    then nothing is printed after the line of the clean-up. *)
Theorem generate_documentation_output (w : World) (path : str) :
  (fst (generate_documentation path w) = Return tt
   /\ stdout (snd (generate_documentation path w))
      = stdout w ++ [u "Starting documentation generation..."; cleanup_line w path]
          ++ summary_lines path (length (comments_data (self w)))
               (length (flat_map comments (comments_data (self w))))
               (length (flat_map docstrings (comments_data (self w)))))
  \/ ((exists e, fst (generate_documentation path w) = Raise e)
      /\ stdout (snd (generate_documentation path w))
         = stdout w ++ [u "Starting documentation generation..."; cleanup_line w path]).
Proof.
  pose proof (generate_documentation_run w path) as Hrun.
  destruct (cleaned_same w path) as (Hs & _).
  assert (Hout : stdout (cleaned w path)
                 = stdout w ++ [u "Starting documentation generation..."; cleanup_line w path]).
  { unfold cleaned, cleanup_line. rewrite cleanup_old_documentation_run. cbn [snd printed fs].
    destruct (fs w !! path) as [f|]; [destruct (removable f)|];
      cbn [printed with_fs stdout]; rewrite <- app_assoc; reflexivity. }
  assert (Hsum : summary path (comments_data (self w))
                 = summary_lines path (length (comments_data (self w)))
                     (length (flat_map comments (comments_data (self w))))
                     (length (flat_map docstrings (comments_data (self w))))).
  { unfold summary, summary_lines. rewrite !total_length. reflexivity. }
  destruct (refusal (refused w) (report (now w 0) (comments_data (self w)))) as [e|].
  - destruct Hrun as (w' & E & _ & H2 & _). rewrite E. cbn [fst snd].
    right. split; [exists e; reflexivity|]. rewrite H2. exact Hout.
  - rewrite Hrun. destruct (can_save w path); cbn [fst snd].
    + left. split; [reflexivity|].
      cbn [finished ticked with_blocks stdout self comments_data].
      rewrite Hs, Hout, Hsum, <- app_assoc. reflexivity.
    + right. split; [eexists; reflexivity|].
      cbn [ticked with_blocks stdout]. exact Hout.
Qed.

(** X23.  [generate_documentation] keeps the blocks it has built in the object.
    So when a run has returned, a second run on the same object returns
    too, provided the title page with the second reading of the clock is
    not refused, and the file it leaves holds two reports one after the
    other: that of the first run, and one on the same data at the second
    reading of the clock. *)
Theorem generate_documentation_twice (w : World) (path : str) :
  fst (generate_documentation path w) = Return tt ->
  refusal (refused w) (title_page (now w 1)) = None ->
  doc (self (snd (generate_documentation path w)))
  = doc (self w) ++ report (now w 0) (comments_data (self w))
  /\ fst (generate_documentation path (snd (generate_documentation path w))) = Return tt
  /\ exists f,
       fs (snd (generate_documentation path (snd (generate_documentation path w)))) !! path
       = Some f
       /\ data f = Docx (doc (self w) ++ report (now w 0) (comments_data (self w))
                           ++ report (now w 1) (comments_data (self w))).
Proof.
  intros Hret Hsecond.
  destruct (generate_documentation_files w path) as (G1 & _).
  destruct (proj1 G1 Hret) as [R S]. clear G1 Hret.
  pose proof (generate_documentation_run w path) as Hrun. rewrite R, S in Hrun.
  rewrite Hrun. cbn [snd].
  destruct (cleaned_same w path) as (Hs & _ & Hn & Hc & Hr & Hl).
  set (body := doc (self w) ++ report (now w 0) (comments_data (self w))).
  set (w1 := finished (ticked (with_blocks (cleaned w path)
                                 (report (now w 0) (comments_data (self w))))) path body).
  assert (Hdoc : doc (self w1) = body) by reflexivity.
  assert (Hdata : comments_data (self w1) = comments_data (self w))
    by (unfold w1; cbn [finished ticked with_blocks self comments_data]; rewrite Hs; reflexivity).
  assert (Hnow : now w1 0 = now w 1)
    by (unfold w1; cbn [finished ticked with_blocks now]; rewrite Hn; reflexivity).
  assert (Hrf : refused w1 = refused w)
    by (unfold w1; cbn [finished ticked with_blocks refused]; exact Hr).
  assert (Hcr : creatable w1 = creatable w)
    by (unfold w1; cbn [finished ticked with_blocks creatable]; exact Hc).
  assert (Hfile : fs w1 !! path = Some (saved (kept (fs w !! path)) body)).
  { destruct (finished_lookup
                (ticked (with_blocks (cleaned w path)
                           (report (now w 0) (comments_data (self w))))) path body) as [F _].
    unfold w1. rewrite F. cbn [ticked with_blocks fs]. rewrite Hl. reflexivity. }
  split; [exact Hdoc|].
  destruct (generate_documentation_files w1 path) as (G1 & G2 & _).
  rewrite Hdata, Hnow, Hrf in G1. rewrite Hdoc, Hdata, Hnow in G2.
  assert (Hagain : fst (generate_documentation path w1) = Return tt).
  { apply G1. split.
    - unfold report in *. rewrite refusal_app in *. rewrite Hsecond.
      destruct (refusal (refused w) (title_page (now w 0))); [discriminate|exact R].
    - unfold can_save in *. rewrite Hfile, Hcr. unfold kept, saved.
      destruct (fs w !! path) as [f|]; [destruct (removable f) eqn:Hrm|];
        cbn [removable writable]; rewrite ?Hrm; first [exact S|reflexivity]. }
  split; [exact Hagain|].
  destruct (G2 Hagain) as (f & Hf & Hd). exists f. split; [exact Hf|].
  rewrite Hd. unfold body. rewrite <- app_assoc. reflexivity.
Qed.

Section Main.
Variable ast_parse : str -> ast + error.
Variable cleandoc : str -> str.

(** *** The program *)

(** [main] is a new object, its two files parsed in turn, and the report
    generated. *)
Lemma main_run w :
  main ast_parse cleandoc w
  = (parse_files ast_parse cleandoc main_sources ;; generate_documentation main_output)
      (snd (set_self __init__ w)).
Proof.
  unfold main, main_sources, main_output, bind, set_self. cbn [parse_files snd]. unfold bind, ret.
  destruct (parse_python_file ast_parse cleandoc (u "guessing_game.py") _) as [[[]|e|] w1];
    try reflexivity.
  destruct (parse_python_file ast_parse cleandoc (u "documentation_generator.py") w1)
    as [[[]|e|] w2]; reflexivity.
Qed.

(** Parsing leaves what may be created and what is refused as it is. *)
Lemma parse_files_frame paths : forall w,
  creatable (snd (parse_files ast_parse cleandoc paths w)) = creatable w
  /\ refused (snd (parse_files ast_parse cleandoc paths w)) = refused w.
Proof.
  induction paths as [|path rest IH]; intros w; [split; reflexivity|].
  cbn [parse_files]. unfold bind. rewrite parse_python_file_run.
  destruct (source w path) as [content|e]; [destruct (ast_parse content) as [tree|e]|];
    match goal with |- context [parse_files _ _ rest ?w1] => destruct (IH w1) as [H1 H2] end;
    rewrite H1, H2; split; reflexivity.
Qed.

(** X24.  The program as [main] runs it, whatever the object was before.  Its
    [comments_data] is what the two source files yield, a file that cannot
    be read or parsed being left out, and no path other than that of the
    report changes.  [main] returns exactly when no text of the report on
    these data is refused and the report can be saved, and the file at the
    path then holds that report and nothing else.  Otherwise [main] raises,
    and the path holds the old file if it could not be removed and is free
    if not. *)
Theorem main_documents_two_files (w : World) :
  comments_data (self (snd (main ast_parse cleandoc w)))
  = flat_map (entries ast_parse cleandoc w) main_sources
  /\ (forall other, other <> main_output ->
        fs (snd (main ast_parse cleandoc w)) !! other = fs w !! other)
  /\ (fst (main ast_parse cleandoc w) = Return tt
      <-> refusal (refused w)
            (report (now w 0) (flat_map (entries ast_parse cleandoc w) main_sources)) = None
          /\ can_save w main_output = true)
  /\ (fst (main ast_parse cleandoc w) = Return tt ->
      exists f,
        fs (snd (main ast_parse cleandoc w)) !! main_output = Some f
        /\ data f = Docx (report (now w 0)
                            (flat_map (entries ast_parse cleandoc w) main_sources)))
  /\ (fst (main ast_parse cleandoc w) <> Return tt ->
      (exists e, fst (main ast_parse cleandoc w) = Raise e)
      /\ fs (snd (main ast_parse cleandoc w)) !! main_output = kept (fs w !! main_output)).
Proof.
  rewrite main_run. unfold bind.
  destruct (parse_files_run ast_parse cleandoc main_sources (snd (set_self __init__ w)))
    as (w2 & E & Hfs & Hio & Hnow & Hdoc & Hdata).
  destruct (parse_files_frame main_sources (snd (set_self __init__ w))) as [Hcr Hrf].
  rewrite E in *.
  cbn [set_self snd self fs io_error now creatable refused __init__ doc comments_data app] in *.
  change (flat_map (entries ast_parse cleandoc _) main_sources)
    with (flat_map (entries ast_parse cleandoc w) main_sources) in Hdata.
  destruct (generate_documentation_files w2 main_output) as (G1 & G2 & G3 & G4 & G5 & G6).
  assert (Hsave : can_save w2 main_output = can_save w main_output)
    by (unfold can_save; rewrite Hfs, Hcr; reflexivity).
  rewrite Hdoc, Hnow, Hdata, Hrf, Hsave, ?Hfs in *. cbn [app] in *.
  split; [exact G6|].
  split; [exact G5|].
  split; [exact G1|].
  split; [exact G2|].
  intros Hne.
  destruct (refusal (refused w)
              (report (now w 0) (flat_map (entries ast_parse cleandoc w) main_sources)))
    as [e|] eqn:R.
  - destruct (G3 e eq_refl) as [H1 H2]. split; [exists e; exact H1|].
    exact H2.
  - destruct (can_save w main_output) eqn:S.
    + exfalso. apply Hne, G1. split; reflexivity.
    + destruct (G4 eq_refl eq_refl) as [H1 H2]. split; [eexists; exact H1|].
      exact H2.
Qed.

End Main.

(** *** The second run on sample files *)

Lemma generate_documentation_twice_witness :
  doc (self (snd (generate_documentation report_path sample_files)))
  = doc (self sample_files) ++ report (now sample_files 0) (comments_data (self sample_files))
  /\ fst (generate_documentation report_path
            (snd (generate_documentation report_path sample_files))) = Return tt
  /\ exists f,
       fs (snd (generate_documentation report_path
                  (snd (generate_documentation report_path sample_files)))) !! report_path
       = Some f
       /\ data f = Docx (doc (self sample_files)
                           ++ report (now sample_files 0) (comments_data (self sample_files))
                           ++ report (now sample_files 1) (comments_data (self sample_files))).
Proof.
  apply (generate_documentation_twice sample_files report_path); vm_compute; reflexivity.
Defined.

End DocGenProps.
